(** * Welfare disbursement core: hash-chained ledger, gates, status machine

    Shallow embedding of the three variants of the transaction core found in
    the repository:
    - [App]       : [app.py], the Flask service over sqlite;
    - [Sqlite]    : [fraud-dection.py], the sqlite command-line variant;
    - [FileProto] : [test_fraud.py], the flat-file prototype.

    Conventions of the embedding.
    - A sqlite table is the list of its rows in rowid (insertion) order; the
      [citizens] table, whose [citizen_id] column is UNIQUE and which is only
      ever read by that key, is a finite map keyed by [citizen_id].
    - Python floats and sqlite REAL values are idealised as exact rationals
      ([Q]); numeric comparisons are the boolean comparisons of [Q].  The
      write path of [/citizens] also meets NaN and the infinities, which
      have a type of their own there ([Admin.PyFloat]).
    - A sqlite INTEGER column holds a signed 64-bit integer: a write that
      binds an integer outside that range raises and stores nothing, and so
      does a write that binds NaN to a NOT NULL REAL column.
    - A string is a text that encodes as UTF-8, given by its bytes.
    - Library routines that the program calls but does not define (SHA-256,
      [str] of a non-integral float, [strptime], [float] of a string, [str]
      of a JSON value, [str.strip]) are the fields of the class [PyLib];
      those used only by the write path are the fields of [Admin.PyText].
    - The wall clock read by [datetime.now()] / [datetime.today()] is an
      explicit argument of type [Clock]. *)

From stdpp Require Import gmap strings list fin_maps.
From Stdlib Require Import QArith Qabs Qminmax Lqa ZArith String Ascii DecimalString Lia.
From Stdlib Require Import OrderedTypeEx Sorted Permutation.

Local Open Scope string_scope.
Local Open Scope Z_scope.

(** ** Library interface *)

(** A value decoded from the JSON body of a request. *)
Inductive PyVal :=
| VNone
| VBool (b : bool)
| VNum (q : Q)
| VStr (s : string)
| VOther.

Class PyLib := {
  (** [hashlib.sha256(s.encode()).hexdigest()] *)
  sha256_hex : string -> string;
  (** [str(x)] for a float [x] that is not integral *)
  float_str : Q -> string;
  (** [datetime.strptime(s, "%Y-%m-%d")]: the proleptic day number of the
      parsed date, [None] when it raises [ValueError] *)
  strptime_ymd : string -> option Z;
  (** [float(s)] for a string [s]: [None] when it raises [ValueError] *)
  float_of_str : string -> option Q;
  (** [s.strip()] *)
  str_strip : string -> string;
  (** [str(v)] for a decoded JSON value *)
  val_str : PyVal -> string
}.

(** The clock: [now_stamp] is [datetime.now().strftime("%Y-%m-%d %H:%M:%S")],
    [today_day] the day number of [datetime.today()]. *)
Record Clock := { now_stamp : string; today_day : Z }.

(** ** Data model *)

Inductive Status := ACTIVE | LOCKED | FROZEN.

Definition status_name (s : Status) : string :=
  match s with ACTIVE => "ACTIVE" | LOCKED => "LOCKED" | FROZEN => "FROZEN" end.

Definition status_is_active (s : Status) : bool :=
  match s with ACTIVE => true | _ => false end.

(** A row of table [ledger_entries] (the [id] column is the position). *)
Record LedgerRow := {
  timestamp : string;
  citizen_hash : string;
  scheme : string;
  amount : Q;
  previous_hash : string;
  current_hash : string
}.

(** The dictionary built by [prepare_citizen_record]. *)
Record Citizen := {
  Citizen_ID : string;
  Name : string;
  Account_Status : string;
  Aadhaar_Linked : bool;
  Scheme_Eligibility : string;
  Scheme_Amount : Q;
  Claim_Count : Z;
  Last_Claim_Date : string
}.

(** ** Numeric helpers (Python semantics on the idealised floats) *)

Definition Qgtb (a b : Q) : bool := negb (Qle_bool a b).
Definition Qltb (a b : Q) : bool := negb (Qle_bool b a).

(** [float.is_integer()] *)
Definition is_integer (q : Q) : bool := Z.eqb (Qnum q mod Zpos (Qden q)) 0.

(** [int(x)] for a float: truncation toward zero. *)
Definition py_int (q : Q) : Z := Z.quot (Qnum q) (Zpos (Qden q)).

(** [str(n)] for an integer. *)
Definition int_str (n : Z) : string := NilZero.string_of_int (Z.to_int n).

(** [max(x, 0)]: Python returns the first argument unless a later one is
    strictly greater. *)
Definition py_max0 (x : Q) : Q := if Qgtb 0 x then 0%Q else x.

(** An integer that sqlite can bind to an INTEGER column; a Python integer
    outside this range makes [execute] raise [OverflowError]. *)
Definition fits_int64 (n : Z) : bool :=
  Z.leb (- 2 ^ 63) n && Z.ltb n (2 ^ 63).

(** [timestamp.split(" ")[0]] *)
Fixpoint split_space_head (s : string) : string :=
  match s with
  | EmptyString => EmptyString
  | String c rest =>
      if Ascii.eqb c " "%char then EmptyString else String c (split_space_head rest)
  end.

(** [s[:n]] *)
Fixpoint str_take (n : nat) (s : string) : string :=
  match n, s with
  | S k, String c rest => String c (str_take k rest)
  | _, _ => EmptyString
  end.

(** ** Global configuration (identical in [app.py] and [fraud-dection.py]) *)

Definition INITIAL_BUDGET : Q := 1000000.
Definition GENESIS : string := "GENESIS".

(** A row of table [citizens]; the UNIQUE [citizen_id] column is the key of
    the map that holds the rows. *)
Record CitizenRow := {
  name : string;
  account_status : string;
  aadhaar_linked : Z;
  scheme_eligibility : string;
  scheme_amount : Q;
  claim_count : Z;
  last_claim_date : string
}.

(** The process state of the sqlite variants: the module global
    [SYSTEM_STATUS] and the two tables of [fraud_system.db]. *)
Record State := {
  SYSTEM_STATUS : Status;
  ledger_entries : list LedgerRow;
  citizens : gmap string CitizenRow
}.

Definition set_status (s : Status) (st : State) : State :=
  {| SYSTEM_STATUS := s;
     ledger_entries := ledger_entries st;
     citizens := citizens st |}.

Definition set_citizens (c : gmap string CitizenRow) (st : State) : State :=
  {| SYSTEM_STATUS := SYSTEM_STATUS st;
     ledger_entries := ledger_entries st;
     citizens := c |}.

(** [INSERT INTO ledger_entries ...]: the new row gets the largest rowid. *)
Definition insert_ledger_entry (r : LedgerRow) (st : State) : State :=
  {| SYSTEM_STATUS := SYSTEM_STATUS st;
     ledger_entries := (ledger_entries st ++ [r])%list;
     citizens := citizens st |}.

(** ** Ledger helpers (identical in [app.py] and [fraud-dection.py]) *)

Section LedgerHelpers.
Context `{PyLib}.

Definition hash_id (citizen_id : string) : string := sha256_hex citizen_id.

Definition amount_hash_value (a : Q) : string :=
  if is_integer a then int_str (py_int a) else float_str a.

Definition generate_hash (ts ch sch amt prev : string) : string :=
  sha256_hex (ts ++ ch ++ sch ++ amt ++ prev).

(** [ORDER BY timestamp DESC, id DESC LIMIT 1]: scanning in rowid order,
    a row replaces the candidate when its timestamp is not smaller. *)
Fixpoint latest_row (best : option LedgerRow) (rows : list LedgerRow)
  : option LedgerRow :=
  match rows with
  | [] => best
  | r :: rest =>
      let best' :=
        match best with
        | None => r
        | Some b => if String.leb (timestamp b) (timestamp r) then r else b
        end in
      latest_row (Some best') rest
  end.

Definition get_previous_hash (st : State) : string :=
  match latest_row None (ledger_entries st) with
  | None => GENESIS
  | Some r => current_hash r
  end.

(** [ORDER BY timestamp]: rows by ascending timestamp (binary collation),
    rows with equal timestamps in rowid order. *)
Fixpoint insert_by_timestamp (r : LedgerRow) (rows : list LedgerRow)
  : list LedgerRow :=
  match rows with
  | [] => [r]
  | x :: rest =>
      if String.leb (timestamp r) (timestamp x) then r :: x :: rest
      else x :: insert_by_timestamp r rest
  end.

Fixpoint order_by_timestamp (rows : list LedgerRow) : list LedgerRow :=
  match rows with
  | [] => []
  | r :: rest => insert_by_timestamp r (order_by_timestamp rest)
  end.

Definition fetch_ledger_rows (st : State) : list LedgerRow :=
  order_by_timestamp (ledger_entries st).

(** The hash recomputed from a row's own stored fields. *)
Definition recalculated_hash (row : LedgerRow) : string :=
  generate_hash (timestamp row) (citizen_hash row) (scheme row)
                (amount_hash_value (amount row)) (previous_hash row).

(** The loop of [verify_ledger_integrity], [prev] being the loop variable
    [previous_hash]. *)
Fixpoint verify_rows (prev : string) (rows : list LedgerRow) : bool :=
  match rows with
  | [] => true
  | row :: rest =>
      if negb (String.eqb (recalculated_hash row) (current_hash row))
         || negb (String.eqb (previous_hash row) prev)
      then false
      else verify_rows (current_hash row) rest
  end.

Definition verify_ledger_integrity (st : State) : bool :=
  verify_rows GENESIS (fetch_ledger_rows st).

(** [SELECT COALESCE(SUM(amount), 0) FROM ledger_entries] *)
Definition total_disbursed (rows : list LedgerRow) : Q :=
  fold_left (fun acc r => (acc + amount r)%Q) rows 0%Q.

(** [max(initial - total_disbursed, 0)] *)
Definition remaining_of (initial : Q) (rows : list LedgerRow) : Q :=
  py_max0 (initial - total_disbursed rows)%Q.

Definition calculate_remaining_budget (st : State) : Q :=
  remaining_of INITIAL_BUDGET (ledger_entries st).

Definition prepare_citizen_record (citizen_id : string) (row : CitizenRow)
  : Citizen :=
  {| Citizen_ID := citizen_id;
     Name := name row;
     Account_Status := account_status row;
     Aadhaar_Linked := negb (Z.eqb (aadhaar_linked row) 0);
     Scheme_Eligibility := scheme_eligibility row;
     Scheme_Amount := scheme_amount row;
     Claim_Count := claim_count row;
     Last_Claim_Date := last_claim_date row |}.

(** [SELECT * FROM citizens WHERE citizen_id = ?] *)
Definition get_citizen_record (st : State) (citizen_id : string)
  : option Citizen :=
  prepare_citizen_record citizen_id <$> (citizens st !! citizen_id).

End LedgerHelpers.

(** ** [app.py]: gates, transaction processor and routes *)

Module App.

Definition SCHEME_AMOUNT_MAP : list (string * Q) :=
  [ ("Health_Scheme", 5000%Q);
    ("Education_Scheme", 10000%Q);
    ("Agriculture_Scheme", 15000%Q);
    ("Housing_Scheme", 20000%Q) ].

Definition AMOUNT_TOLERANCE : Q := 1 # 100.

(** [dict.get]: the value of the first (and only) binding of the key. *)
Fixpoint dict_get (k : string) (d : list (string * Q)) : option Q :=
  match d with
  | [] => None
  | (k', v) :: rest => if String.eqb k' k then Some v else dict_get k rest
  end.

Definition get_expected_scheme_amount (sch : string) : option Q :=
  dict_get sch SCHEME_AMOUNT_MAP.

(** The dictionary returned by [process_transaction] (and sent by the
    routes): a denial carries the gate tag, the message and, once the
    citizen is known, the citizen's name. *)
Inductive Response :=
| Denied (gate message : string) (citizen_name : option string)
| Approved (citizen_name : string) (remaining_budget : Z)
           (transaction_hash : string).

Definition success (r : Response) : bool :=
  match r with Approved _ _ _ => true | Denied _ _ _ => false end.

Definition message (r : Response) : string :=
  match r with
  | Approved _ _ _ => "Transaction Approved"
  | Denied _ m _ => m
  end.

Definition gate (r : Response) : option string :=
  match r with
  | Approved _ _ _ => None
  | Denied g _ _ => Some g
  end.

Section WithLib.
Context `{PyLib}.

Definition eligibility_gate (row : Citizen) (sch : string) (amt : Q)
  : bool * string :=
  if negb (String.eqb (Account_Status row) "Active") then
    (false, "Account Not Active")
  else if negb (Aadhaar_Linked row) then
    (false, "Aadhaar Not Linked")
  else if negb (String.eqb (Scheme_Eligibility row) sch) then
    (false, "Scheme Not Eligible")
  else
    match get_expected_scheme_amount sch with
    | None => (false, "Unsupported Scheme")
    | Some expected_amount =>
        if Qgtb (Qabs (Scheme_Amount row - expected_amount)) AMOUNT_TOLERANCE
        then (false, "Registry Scheme Amount Mismatch")
        else if Qgtb (Qabs (amt - expected_amount)) AMOUNT_TOLERANCE
        then (false, "Transaction Amount Mismatch")
        else if Z.gtb (Claim_Count row) 3
        then (false, "Claim Limit Exceeded")
        else (true, "Eligible")
    end.

Definition frequency_gate (clk : Clock) (last_claim : string)
  : bool * string :=
  match strptime_ymd last_claim with
  | None => (false, "Invalid last claim date")
  | Some last_date =>
      let diff := today_day clk - last_date in
      if Z.ltb diff 30 then
        (false,
         "Claim within 30 days not allowed (Last claim: "
           ++ int_str diff ++ " days ago)")
      else (true, "Frequency OK")
  end.

Definition budget_gate (st : State) (amt : Q) : State * (bool * string) :=
  let remaining := calculate_remaining_budget st in
  if Qle_bool remaining 0 then
    (set_status LOCKED st, (false, "Budget Exhausted. System Locked."))
  else if Qgtb amt remaining then
    (st, (false, "Insufficient Budget"))
  else
    (st, (true, "Budget Approved")).

Definition process_transaction (clk : Clock) (st : State)
           (citizen_id sch : string) (amt : Q) : State * Response :=
  if negb (status_is_active (SYSTEM_STATUS st)) then
    (st, Denied "system"
                ("System is " ++ status_name (SYSTEM_STATUS st)
                   ++ ". Transaction Blocked.") None)
  else if negb (verify_ledger_integrity st) then
    (set_status FROZEN st,
     Denied "integrity" "Ledger Tampering Detected. System Frozen." None)
  else
    match get_citizen_record st citizen_id with
    | None => (st, Denied "lookup" "Citizen Not Found" None)
    | Some row =>
        let citizen_name := Name row in
        (* Gate 1 *)
        let '(eligible, msg) := eligibility_gate row sch amt in
        if negb eligible then
          (st, Denied "eligibility" msg (Some citizen_name))
        else
          (* Gate 2 *)
          let '(st1, (budget_ok, msg)) := budget_gate st amt in
          if negb budget_ok then
            (st1, Denied "budget" msg (Some citizen_name))
          else
            (* Gate 3 *)
            let '(freq_ok, msg) :=
              frequency_gate clk (Last_Claim_Date row) in
            if negb freq_ok then
              (st1, Denied "frequency" msg (Some citizen_name))
            else
              let ch := hash_id citizen_id in
              let ts := now_stamp clk in
              let prev := get_previous_hash st1 in
              let amount_str := amount_hash_value amt in
              let cur := generate_hash ts ch sch amount_str prev in
              let st2 :=
                insert_ledger_entry
                  {| timestamp := ts; citizen_hash := ch; scheme := sch;
                     amount := amt; previous_hash := prev;
                     current_hash := cur |} st1 in
              let remaining_budget := py_int (calculate_remaining_budget st2) in
              let st3 :=
                if Z.leb remaining_budget 0 then set_status LOCKED st2
                else st2 in
              (st3, Approved citizen_name remaining_budget
                             (str_take 16 cur ++ "..."))
    end.

(** The JSON body of a POST to [/process]; a field is [None] when the
    key is absent. *)
Record ProcessBody := {
  body_citizen_id : option PyVal;
  body_scheme : option PyVal;
  body_amount : option PyVal
}.

(** [float(v)]; [None] stands for [TypeError] or [ValueError]. *)
Definition py_float (v : PyVal) : option Q :=
  match v with
  | VNum q => Some q
  | VBool b => Some (if b then 1%Q else 0%Q)
  | VStr s => float_of_str s
  | VNone | VOther => None
  end.

(** [str(data.get(key, '')).strip()] *)
Definition body_text (v : option PyVal) : string :=
  str_strip (match v with None => "" | Some x => val_str x end).

(** The [try] block of [process]: [float(data.get('amount', 0))],
    falling back to [0.0] on [TypeError] / [ValueError]. *)
Definition submitted_amount_of (data : ProcessBody) : Q :=
  match py_float (default (VNum 0%Q) (body_amount data)) with
  | Some q => q
  | None => 0%Q
  end.

(** Truthiness of a float. *)
Definition float_truthy (q : Q) : bool := negb (Qeq_bool q 0).

(** The pre-check of [process] that guards the call of
    [process_transaction]. *)
Definition amount_mismatch (submitted expected : Q) : bool :=
  float_truthy submitted
  && Qgtb (Qabs (submitted - expected)) AMOUNT_TOLERANCE.

Definition process (clk : Clock) (st : State) (data : ProcessBody)
  : State * Response :=
  let citizen_id := body_text (body_citizen_id data) in
  let sch := body_text (body_scheme data) in
  let submitted_amount := submitted_amount_of data in
  match get_expected_scheme_amount sch with
  | None => (st, Denied "eligibility" "Unsupported scheme" None)
  | Some expected_amount =>
      if amount_mismatch submitted_amount expected_amount then
        (st, Denied "eligibility"
                    "Amount does not match authorized scheme value" None)
      else process_transaction clk st citizen_id sch expected_amount
  end.

(** [get_status]: the triple (budget, system_status, ledger_integrity). *)
Definition get_status (st : State) : State * (Z * Status * bool) :=
  let integrity := verify_ledger_integrity st in
  let remaining := py_int (calculate_remaining_budget st) in
  (st, (remaining, SYSTEM_STATUS st, integrity)).

(** The two INTEGER columns of a row can be bound. *)
Definition int_columns_fit (record : CitizenRow) : bool :=
  fits_int64 (aadhaar_linked record) && fits_int64 (claim_count record).

(** [upsert_citizen]: INSERT ... ON CONFLICT(citizen_id) DO UPDATE.  When
    an integer of the record is too large to bind, [execute] raises before
    anything is written and the table stays as it was. *)
Definition upsert_citizen (st : State) (citizen_id : string)
           (record : CitizenRow) : State :=
  if int_columns_fit record
  then set_citizens (<[citizen_id := record]> (citizens st)) st
  else st.

(** The operations through which the state of the service evolves
    after start-up. *)
Inductive Op :=
| OpProcessTransaction (clk : Clock) (citizen_id sch : string) (amt : Q)
| OpProcess (clk : Clock) (data : ProcessBody)
| OpBudgetGate (amt : Q)
| OpGetStatus
| OpUpsertCitizen (citizen_id : string) (record : CitizenRow).

Definition step (st : State) (o : Op) : State :=
  match o with
  | OpProcessTransaction clk cid sch amt =>
      fst (process_transaction clk st cid sch amt)
  | OpProcess clk data => fst (process clk st data)
  | OpBudgetGate amt => fst (budget_gate st amt)
  | OpGetStatus => fst (get_status st)
  | OpUpsertCitizen cid record => upsert_citizen st cid record
  end.

Definition run (st : State) (ops : list Op) : State :=
  fold_left step ops st.

End WithLib.
End App.

(** ** [fraud-dection.py]: gates and transaction processor *)

Module Sqlite.
Section WithLib.
Context `{PyLib}.

(** [SELECT 1 FROM ledger_entries WHERE citizen_hash = ? LIMIT 1] *)
Definition citizen_has_prior_claim (st : State) (citizen_id : string)
  : bool :=
  let ch := hash_id citizen_id in
  existsb (fun r => String.eqb (citizen_hash r) ch) (ledger_entries st).

Definition eligibility_gate (row : Citizen) (sch : string) (amt : Q)
  : bool * string :=
  if negb (String.eqb (Account_Status row) "Active") then
    (false, "Account Not Active")
  else if negb (Aadhaar_Linked row) then
    (false, "Aadhaar Not Linked")
  else if negb (String.eqb (Scheme_Eligibility row) sch) then
    (false, "Scheme Not Eligible")
  else if negb (Qeq_bool (Scheme_Amount row) amt) then
    (false, "Invalid Scheme Amount")
  else if Z.geb (Claim_Count row) 1 then
    (false, "Claim already settled")
  else (true, "Eligible").

Definition frequency_gate (clk : Clock) (last_claim : string)
  : bool * string :=
  match strptime_ymd last_claim with
  | None => (false, "Invalid last claim date")
  | Some last_date =>
      let diff := today_day clk - last_date in
      if Z.ltb diff 30 then (false, "Claim within 30 days not allowed")
      else (true, "Frequency OK")
  end.

Definition budget_gate (st : State) (amt : Q) : State * (bool * string) :=
  let remaining := calculate_remaining_budget st in
  if Qgtb amt remaining then (st, (false, "Insufficient Budget"))
  else (st, (true, "Budget Approved")).

(** [UPDATE citizens SET claim_count = claim_count + 1,
    last_claim_date = ? WHERE citizen_id = ?] *)
Definition record_claim (date : string) (row : CitizenRow) : CitizenRow :=
  {| name := name row;
     account_status := account_status row;
     aadhaar_linked := aadhaar_linked row;
     scheme_eligibility := scheme_eligibility row;
     scheme_amount := scheme_amount row;
     claim_count := claim_count row + 1;
     last_claim_date := date |}.

Definition update_claim (st : State) (date citizen_id : string) : State :=
  set_citizens (alter (record_claim date) citizen_id (citizens st)) st.

Definition process_transaction (clk : Clock) (st : State)
           (citizen_id sch : string) (amt : Q) : State * string :=
  if negb (status_is_active (SYSTEM_STATUS st)) then
    (st, "System is " ++ status_name (SYSTEM_STATUS st)
           ++ ". Transaction Blocked.")
  else if negb (verify_ledger_integrity st) then
    (set_status FROZEN st, "Ledger Tampering Detected. System Frozen.")
  else
    match get_citizen_record st citizen_id with
    | None => (st, "Citizen Not Found")
    | Some row =>
        if citizen_has_prior_claim st citizen_id then
          (st, "Claim already settled")
        else
          let '(eligible, msg) := eligibility_gate row sch amt in
          if negb eligible then (st, msg)
          else
            let '(freq_ok, msg) :=
              frequency_gate clk (Last_Claim_Date row) in
            if negb freq_ok then (st, msg)
            else
              let '(st1, (budget_ok, msg)) := budget_gate st amt in
              if negb budget_ok then (st1, msg)
              else
                let ch := hash_id citizen_id in
                let ts := now_stamp clk in
                let prev := get_previous_hash st1 in
                let amount_str := amount_hash_value amt in
                let cur := generate_hash ts ch sch amount_str prev in
                let st2 :=
                  insert_ledger_entry
                    {| timestamp := ts; citizen_hash := ch; scheme := sch;
                       amount := amt; previous_hash := prev;
                       current_hash := cur |} st1 in
                let st3 :=
                  update_claim st2 (split_space_head ts) (Citizen_ID row) in
                let remaining_budget :=
                  py_int (calculate_remaining_budget st3) in
                (st3, "Transaction Approved [SUCCESS] | Remaining Budget: Rs."
                        ++ int_str remaining_budget)
    end.

Inductive Op :=
| OpProcessTransaction (clk : Clock) (citizen_id sch : string) (amt : Q)
| OpBudgetGate (amt : Q).

Definition step (st : State) (o : Op) : State :=
  match o with
  | OpProcessTransaction clk cid sch amt =>
      fst (process_transaction clk st cid sch amt)
  | OpBudgetGate amt => fst (budget_gate st amt)
  end.

Definition run (st : State) (ops : list Op) : State :=
  fold_left step ops st.

End WithLib.
End Sqlite.

(** ** [test_fraud.py]: the flat-file prototype *)

Module FileProto.

(** A line of [ledger.txt] after [line.strip().split("|")]. *)
Definition Line := list string.

(** The globals [BUDGET] and [SYSTEM_STATUS] and the content of
    [ledger.txt] ([None] when the file does not exist).  Amounts are
    Python integers here. *)
Record State := {
  BUDGET : Z;
  SYSTEM_STATUS : Status;
  ledger_file : option (list Line)
}.

Definition set_status (s : Status) (st : State) : State :=
  {| BUDGET := BUDGET st; SYSTEM_STATUS := s; ledger_file := ledger_file st |}.

Definition set_budget (b : Z) (st : State) : State :=
  {| BUDGET := b; SYSTEM_STATUS := SYSTEM_STATUS st;
     ledger_file := ledger_file st |}.

(** [open(LEDGER_FILE, "a")] followed by one [write]. *)
Definition append_line (l : Line) (st : State) : State :=
  {| BUDGET := BUDGET st; SYSTEM_STATUS := SYSTEM_STATUS st;
     ledger_file := Some (default [] (ledger_file st) ++ [l])%list |}.

Section WithLib.
Context `{PyLib}.

Definition hash_id (citizen_id : string) : string := sha256_hex citizen_id.

Definition generate_hash (ts ch sch amt prev : string) : string :=
  sha256_hex (ts ++ ch ++ sch ++ amt ++ prev).

Definition get_previous_hash (st : State) : string :=
  match ledger_file st with
  | None => GENESIS
  | Some lines =>
      match last lines with
      | None => GENESIS
      | Some l => default "" (last l)
      end
  end.

(** The loop of [verify_ledger_integrity]; [None] when unpacking a line
    that does not have six fields raises.  The loop variable
    [previous_hash] is assigned in the source but never read, so it does
    not appear here. *)
Fixpoint verify_lines (lines : list Line) : option bool :=
  match lines with
  | [] => Some true
  | [ts; ch; sch; amt; prev_hash; curr_hash] :: rest =>
      if negb (String.eqb (generate_hash ts ch sch amt prev_hash) curr_hash)
      then Some false
      else verify_lines rest
  | _ :: _ => None
  end.

Definition verify_ledger_integrity (st : State) : option bool :=
  match ledger_file st with
  | None => Some true
  | Some lines => verify_lines lines
  end.

Definition eligibility_gate (row : Citizen) (sch : string) (amt : Z)
  : bool * string :=
  if negb (String.eqb (Account_Status row) "Active") then
    (false, "Account Not Active")
  else if negb (Aadhaar_Linked row) then
    (false, "Aadhaar Not Linked")
  else if negb (String.eqb (Scheme_Eligibility row) sch) then
    (false, "Scheme Not Eligible")
  else if negb (Qeq_bool (Scheme_Amount row) (inject_Z amt)) then
    (false, "Invalid Scheme Amount")
  else if Z.gtb (Claim_Count row) 3 then
    (false, "Claim Limit Exceeded")
  else (true, "Eligible").

(** [None] when [strptime] raises (there is no handler here). *)
Definition frequency_gate (clk : Clock) (last_claim : string)
  : option (bool * string) :=
  match strptime_ymd last_claim with
  | None => None
  | Some last_date =>
      let diff := today_day clk - last_date in
      if Z.ltb diff 30 then Some (false, "Claim within 30 days not allowed")
      else Some (true, "Frequency OK")
  end.

Definition budget_gate (st : State) (amt : Z) : State * (bool * string) :=
  if Z.gtb amt (BUDGET st) then (st, (false, "Insufficient Budget"))
  else (set_budget (BUDGET st - amt) st, (true, "Budget Approved")).

(** [df[df["Citizen_ID"] == citizen_id]] followed by [.iloc[0]]. *)
Definition find_citizen (registry : list Citizen) (citizen_id : string)
  : option Citizen :=
  head (filter (fun c => Citizen_ID c = citizen_id) registry).

(** [registry] is the sheet read from [jan_dhan_registry_advanced.xlsx];
    the result is [None] when an exception escapes. *)
Definition process_transaction (clk : Clock) (registry : list Citizen)
           (st : State) (citizen_id sch : string) (amt : Z)
  : option (State * string) :=
  if negb (status_is_active (SYSTEM_STATUS st)) then
    Some (st, "System is " ++ status_name (SYSTEM_STATUS st)
                ++ ". Transaction Blocked.")
  else
    match verify_ledger_integrity st with
    | None => None
    | Some false =>
        Some (set_status FROZEN st,
              "Ledger Tampering Detected. System Frozen.")
    | Some true =>
        match find_citizen registry citizen_id with
        | None => Some (st, "Citizen Not Found")
        | Some row =>
            (* Gate 1 *)
            let '(eligible, msg) := eligibility_gate row sch amt in
            if negb eligible then Some (st, msg)
            else
              (* Gate 2 *)
              match frequency_gate clk (Last_Claim_Date row) with
              | None => None
              | Some (freq_ok, msg) =>
                  if negb freq_ok then Some (st, msg)
                  else
                    (* Gate 3 *)
                    let '(st1, (budget_ok, msg)) := budget_gate st amt in
                    if negb budget_ok then Some (st1, msg)
                    else
                      let ch := hash_id citizen_id in
                      let ts := now_stamp clk in
                      let prev := get_previous_hash st1 in
                      let cur :=
                        generate_hash ts ch sch (int_str amt) prev in
                      let st2 :=
                        append_line [ts; ch; sch; int_str amt; prev; cur]
                                    st1 in
                      Some (st2,
                            "Transaction Approved | Remaining Budget: Rs."
                              ++ int_str (BUDGET st2))
              end
        end
    end.

End WithLib.
End FileProto.

(** ** [app.py]: start-up import, ledger listing and the registry write path *)

(** [s.split(sep)] for a one-character separator. *)
Fixpoint split_on (sep : ascii) (s : string) : list string :=
  match s with
  | EmptyString => [EmptyString]
  | String c rest =>
      if Ascii.eqb c sep then EmptyString :: split_on sep rest
      else
        match split_on sep rest with
        | [] => [String c EmptyString]
        | h :: t => String c h :: t
        end
  end.

Module Bootstrap.
Section WithLib.
Context `{PyLib}.

(** [SELECT 1 FROM ledger_entries WHERE current_hash = ?] *)
Definition hash_present (st : State) (cur : string) : bool :=
  existsb (fun r => String.eqb (current_hash r) cur) (ledger_entries st).

(** The body of the loop of [backfill_ledger_from_file] for one stripped,
    non-empty line. *)
Definition backfill_line (st : State) (line : string) : State :=
  match split_on "|"%char line with
  | [ts; ch; sch; amount_str; prev; cur] =>
      if hash_present st cur then st
      else
        let amount_value :=
          match float_of_str amount_str with
          | Some a => a
          | None => 0%Q
          end in
        insert_ledger_entry
          {| timestamp := ts; citizen_hash := ch; scheme := sch;
             amount := amount_value; previous_hash := prev;
             current_hash := cur |} st
  | _ => st
  end.

(** [[line.strip() for line in f.readlines() if line.strip()]] *)
Definition stripped_lines (raw : list string) : list string :=
  List.filter (fun l => negb (String.eqb l EmptyString)) (map str_strip raw).

(** [file] is the content of [ledger.txt] as [readlines] gives it, [None]
    when the file does not exist. *)
Definition backfill_ledger_from_file (st : State) (file : option (list string))
  : State :=
  match file with
  | None => st
  | Some raw => fold_left backfill_line (stripped_lines raw) st
  end.

End WithLib.
End Bootstrap.

Module Routes.


Section WithLib.
Context `{PyLib}.



End WithLib.
End Routes.

Module Admin.

(** A Python float: a finite value (idealised as a rational), NaN, or an
    infinity. *)
Inductive PyFloat :=
| Finite (q : Q)
| NaN
| Inf (negative : bool).

(** A JSON value of the body of a POST to [/citizens], as [request.json]
    decodes it (the decoder accepts the literals NaN and Infinity); for an
    array or an object only whether it has elements matters. *)
Inductive Json :=
| JNull
| JBool (b : bool)
| JInt (n : Z)
| JFloat (x : PyFloat)
| JStr (s : string)
| JContainer (nonempty : bool).

(** Truthiness, as [or] tests it. *)
Definition py_truthy (v : Json) : bool :=
  match v with
  | JNull => false
  | JBool b => b
  | JInt n => negb (Z.eqb n 0)
  | JFloat (Finite q) => negb (Qeq_bool q 0)
  | JFloat _ => true
  | JStr s => negb (String.eqb s EmptyString)
  | JContainer nonempty => nonempty
  end.

(** The body of a POST to [/citizens]; a field is [None] when the key is
    absent. *)
Record CitizenBody := {
  body_citizen_id : option Json;
  body_name : option Json;
  body_account_status : option Json;
  body_aadhaar_linked : option Json;
  body_scheme_eligibility : option Json;
  body_scheme_amount : option Json;
  body_claim_count : option Json;
  body_last_claim_date : option Json
}.

(** The scheme amount of a validated record: the two checks of the amount
    refuse both infinities, so it is a number or NaN. *)
Inductive Amount :=
| Number (q : Q)
| NotANumber.

(** The dictionary that [validate_citizen_payload] returns. *)
Record CitizenRecord := {
  rec_citizen_id : string;
  rec_name : string;
  rec_account_status : string;
  rec_aadhaar_linked : Z;
  rec_scheme_eligibility : string;
  rec_scheme_amount : Amount;
  rec_claim_count : Z;
  rec_last_claim_date : string
}.

(** The outcome of [validate_citizen_payload]: the record, a [ValueError]
    with its message, or another exception (which no handler catches). *)
Inductive Validation :=
| Valid (record : CitizenRecord)
| Invalid (message : string)
| Crash.

(** The outcome of a conversion inside a [try] that catches [TypeError] and
    [ValueError]: the value, a caught exception, or an exception that
    escapes the handler ([OverflowError]). *)
Inductive Conv (A : Type) :=
| Got (a : A)
| Caught
| Escaped.
Arguments Got {A} a.
Arguments Caught {A}.
Arguments Escaped {A}.

(** [float(n)] of an integer overflows from this magnitude on (the
    half-way point between the largest double and [2 ^ 1024]). *)
Definition FLOAT_INT_LIMIT : Z := 2 ^ 1024 - 2 ^ 970.

(** Further library routines used by the write path. *)
Class PyText := {
  (** [s.lower()] *)
  str_lower : string -> string;
  (** [s.isdigit()] *)
  str_isdigit : string -> bool;
  (** [len(s)] *)
  str_len : string -> nat;
  (** [int(s)] for a string [s]: [None] when it raises [ValueError] *)
  int_of_str : string -> option Z;
  (** [float(s)] for a string [s], which can be NaN or an infinity: [None]
      when it raises [ValueError] *)
  float_of_text : string -> option PyFloat;
  (** [str(v)] for a decoded JSON value *)
  json_str : Json -> string
}.

Section WithLib.
Context `{PyLib} `{PyText}.

Definition normalize_bool_flag (value : Json) : bool :=
  match value with
  | JBool b => b
  | JInt n => negb (Z.eqb n 0)
  | JFloat (Finite q) => negb (Qeq_bool q 0)
  | JFloat _ => true
  | JStr s =>
      existsb (String.eqb (str_lower (str_strip s)))
              ["1"; "true"; "yes"; "y"; "on"]
  | _ => false
  end.

(** [float(v)] *)
Definition py_float_of (v : Json) : Conv PyFloat :=
  match v with
  | JInt n =>
      if Z.ltb (Z.abs n) FLOAT_INT_LIMIT then Got (Finite (inject_Z n))
      else Escaped
  | JFloat x => Got x
  | JBool b => Got (Finite (if b then 1%Q else 0%Q))
  | JStr s =>
      match float_of_text s with
      | Some x => Got x
      | None => Caught
      end
  | JNull | JContainer _ => Caught
  end.

(** [int(v)]: NaN raises [ValueError], an infinity [OverflowError]. *)
Definition py_int_of (v : Json) : Conv Z :=
  match v with
  | JInt n => Got n
  | JBool b => Got (if b then 1 else 0)
  | JFloat (Finite q) => Got (py_int q)
  | JFloat NaN => Caught
  | JFloat (Inf _) => Escaped
  | JStr s =>
      match int_of_str s with
      | Some n => Got n
      | None => Caught
      end
  | JNull | JContainer _ => Caught
  end.

(** [x <= 0] *)
Definition float_le_zero (x : PyFloat) : bool :=
  match x with
  | Finite q => Qle_bool q 0
  | NaN => false
  | Inf negative => negative
  end.

(** [abs(x - expected) > AMOUNT_TOLERANCE] *)
Definition float_off_catalog (x : PyFloat) (expected : Q) : bool :=
  match x with
  | Finite q => Qgtb (Qabs (q - expected)) App.AMOUNT_TOLERANCE
  | NaN => false
  | Inf _ => true
  end.

Definition amount_of (x : PyFloat) : Amount :=
  match x with
  | Finite q => Number q
  | _ => NotANumber
  end.

(** [v.strip()]: only a string has the method; [None] stands for the
    [AttributeError] raised otherwise. *)
Definition strip_of (v : Json) : option string :=
  match v with
  | JStr s => Some (str_strip s)
  | _ => None
  end.

(** The checks run in the order of the source.  The default date is
    [datetime.today().strftime("%Y-%m-%d")], the date part of the clock's
    stamp; [{expected_amount:.0f}] is rendered as the integer part, exact
    for the integral amounts of the catalog. *)
Definition validate_citizen_payload (clk : Clock) (data : CitizenBody)
  : Validation :=
  let citizen_id :=
    str_strip (match body_citizen_id data with
               | None => EmptyString
               | Some v => json_str v
               end) in
  if negb (Nat.eqb (str_len citizen_id) 12) || negb (str_isdigit citizen_id)
  then Invalid "Citizen ID must be a 12 digit number"
  else
  match strip_of (default (JStr EmptyString) (body_name data)) with
  | None => Crash
  | Some nm =>
  if String.eqb nm EmptyString then Invalid "Name is required"
  else
  match strip_of (default (JStr "Active") (body_account_status data)) with
  | None => Crash
  | Some stripped_status =>
  let status :=
    if String.eqb stripped_status EmptyString then "Active"
    else stripped_status in
  let linked :=
    normalize_bool_flag (default (JBool false) (body_aadhaar_linked data)) in
  match strip_of (default (JStr EmptyString) (body_scheme_eligibility data)) with
  | None => Crash
  | Some sch =>
  if String.eqb sch EmptyString then Invalid "Scheme eligibility is required"
  else
  match py_float_of (default (JInt 0) (body_scheme_amount data)) with
  | Escaped => Crash
  | Caught => Invalid "Scheme amount must be a number"
  | Got amt =>
  if float_le_zero amt then Invalid "Scheme amount must be greater than zero"
  else
  match App.get_expected_scheme_amount sch with
  | None => Invalid ("Unsupported scheme: " ++ sch)
  | Some expected_amount =>
  if float_off_catalog amt expected_amount
  then Invalid ("Scheme amount must be Rs. "
                  ++ int_str (py_int expected_amount) ++ " for " ++ sch)
  else
  match py_int_of (default (JInt 0) (body_claim_count data)) with
  | Escaped => Crash
  | Caught => Invalid "Claim count must be an integer"
  | Got count =>
  if Z.ltb count 0 then Invalid "Claim count cannot be negative"
  else
  let today := JStr (split_space_head (now_stamp clk)) in
  let date_value :=
    match body_last_claim_date data with
    | None => today
    | Some v => if py_truthy v then v else today
    end in
  match date_value with
  | JStr date =>
      match strptime_ymd date with
      | None => Invalid "Last claim date must be in YYYY-MM-DD format"
      | Some _ =>
          Valid {| rec_citizen_id := citizen_id;
                   rec_name := nm;
                   rec_account_status := status;
                   rec_aadhaar_linked := if linked then 1 else 0;
                   rec_scheme_eligibility := sch;
                   rec_scheme_amount := amount_of amt;
                   rec_claim_count := count;
                   rec_last_claim_date := date |}
      end
  | _ => Crash
  end
  end
  end
  end
  end
  end
  end.

(** The row that [upsert_citizen] binds for a record whose amount is a
    number. *)
Definition row_of (record : CitizenRecord) (amount_value : Q) : CitizenRow :=
  {| name := rec_name record;
     account_status := rec_account_status record;
     aadhaar_linked := rec_aadhaar_linked record;
     scheme_eligibility := rec_scheme_eligibility record;
     scheme_amount := amount_value;
     claim_count := rec_claim_count record;
     last_claim_date := rec_last_claim_date record |}.

(** [upsert_citizen] on a validated record; [None] when [execute] raises:
    [OverflowError] for an integer beyond 64 bits, [IntegrityError] for a
    NaN amount (bound as NULL to a NOT NULL column).  Nothing is written
    then. *)
Definition upsert_citizen (st : State) (record : CitizenRecord) : option State :=
  match rec_scheme_amount record with
  | NotANumber => None
  | Number q =>
      if App.int_columns_fit (row_of record q)
      then Some (App.upsert_citizen st (rec_citizen_id record) (row_of record q))
      else None
  end.

(** The POST branch of [citizens_endpoint] for a body that is a JSON
    object: the new state and the HTTP status with the message.  When an
    exception escapes, the answer is [500] and the message stands for the
    error page of the framework. *)
Definition citizens_endpoint_post (clk : Clock) (st : State)
           (data : CitizenBody) : State * (Z * string) :=
  match validate_citizen_payload clk data with
  | Valid record =>
      match upsert_citizen st record with
      | Some st' => (st', (200, "Citizen saved successfully"))
      | None => (st, (500, "Internal Server Error"))
      end
  | Invalid msg => (st, (400, msg))
  | Crash => (st, (500, "Internal Server Error"))
  end.

End WithLib.
End Admin.

(** ** An executable instance of the library interface

    Used to run the embedding on concrete inputs.  The digest is a stand-in
    (any function of the record text serves, since no result below depends
    on properties of SHA-256); the date parser accepts [YYYY-MM-DD] and
    returns the proleptic Gregorian ordinal. *)

Module Sample.

Definition digit_val (c : ascii) : option Z :=
  let n := Z.of_nat (nat_of_ascii c) in
  if (48 <=? n) && (n <=? 57) then Some (n - 48) else None.

Fixpoint digits_val (acc : Z) (s : string) : option Z :=
  match s with
  | EmptyString => Some acc
  | String c rest =>
      match digit_val c with
      | Some d => digits_val (10 * acc + d) rest
      | None => None
      end
  end.

Definition number (s : string) : option Z :=
  match s with
  | EmptyString => None
  | _ => digits_val 0 s
  end.

Fixpoint split_dash (cur : string) (s : string) : list string :=
  match s with
  | EmptyString => [cur]
  | String c rest =>
      if Ascii.eqb c "-"%char then cur :: split_dash EmptyString rest
      else split_dash (cur ++ String c EmptyString) rest
  end.

Definition is_leap (y : Z) : bool :=
  ((y mod 4 =? 0) && negb (y mod 100 =? 0)) || (y mod 400 =? 0).

Definition days_in_month (y m : Z) : Z :=
  if m =? 2 then (if is_leap y then 29 else 28)
  else if (m =? 4) || (m =? 6) || (m =? 9) || (m =? 11) then 30
  else 31.

Fixpoint days_before_month (y : Z) (m : nat) : Z :=
  match m with
  | O => 0
  | S k => days_before_month y k + days_in_month y (Z.of_nat (S k))
  end.

Definition ordinal (y m d : Z) : Z :=
  let p := y - 1 in
  365 * p + p / 4 - p / 100 + p / 400
  + days_before_month y (Z.to_nat (m - 1)) + d.

Definition parse_ymd (s : string) : option Z :=
  match split_dash EmptyString s with
  | [ys; ms; ds] =>
      match number ys, number ms, number ds with
      | Some y, Some m, Some d =>
          if (1 <=? y) && (1 <=? m) && (m <=? 12)
             && (1 <=? d) && (d <=? days_in_month y m)
          then Some (ordinal y m d) else None
      | _, _, _ => None
      end
  | _ => None
  end.

Definition parse_float (s : string) : option Q :=
  inject_Z <$> number s.

Definition show_val (v : PyVal) : string :=
  match v with
  | VStr s => s
  | VNone => "None"
  | VBool true => "True"
  | VBool false => "False"
  | VNum q => if is_integer q then int_str (py_int q) else "<float>"
  | VOther => "<object>"
  end.

Definition lib : PyLib := {|
  sha256_hex := fun s => "h(" ++ s ++ ")";
  float_str := fun _ => "<float>";
  strptime_ymd := parse_ymd;
  float_of_str := parse_float;
  str_strip := fun s => s;
  val_str := show_val
|}.

(** The clock of the sample runs: 1 March 2025. *)
Definition clock : Clock :=
  {| now_stamp := "2025-03-01 10:20:30"; today_day := 739311 |}.

(** The first row of the sample registry of [create_sample_data.py], with
    its last claim 45 days before the sample clock. *)
Definition rahul : CitizenRow :=
  {| name := "Rahul Sharma"; account_status := "Active";
     aadhaar_linked := 1; scheme_eligibility := "Health_Scheme";
     scheme_amount := 5000%Q; claim_count := 2;
     last_claim_date := "2025-01-15" |}.

(** A citizen who never claimed (the sqlite variant pays only those). *)
Definition sita : CitizenRow :=
  {| name := "Sita Devi"; account_status := "Active";
     aadhaar_linked := 1; scheme_eligibility := "Health_Scheme";
     scheme_amount := 5000%Q; claim_count := 0;
     last_claim_date := "2024-12-01" |}.

(** The third row of the sample registry: an inactive account. *)
Definition amit : Citizen :=
  {| Citizen_ID := "555566667777"; Name := "Amit Kumar";
     Account_Status := "Inactive"; Aadhaar_Linked := true;
     Scheme_Eligibility := "Health_Scheme"; Scheme_Amount := 5000%Q;
     Claim_Count := 5; Last_Claim_Date := "2025-02-19" |}.

(** The second row of the sample registry: one earlier claim. *)
Definition priya_record : Citizen :=
  {| Citizen_ID := "987654321098"; Name := "Priya Patel";
     Account_Status := "Active"; Aadhaar_Linked := true;
     Scheme_Eligibility := "Education_Scheme"; Scheme_Amount := 10000%Q;
     Claim_Count := 1; Last_Claim_Date := "2024-12-31" |}.

Definition rahul_record : Citizen :=
  prepare_citizen_record "123456789012" rahul.

(** A citizen whose scheme amount exceeds the whole budget and whose last
    claim is 10 days before the sample clock. *)
Definition large_claimant : CitizenRow :=
  {| name := "Large Claimant"; account_status := "Active";
     aadhaar_linked := 1; scheme_eligibility := "Housing_Scheme";
     scheme_amount := 2000000%Q; claim_count := 0;
     last_claim_date := "2025-02-19" |}.

(** An eligible citizen whose last claim is 10 days before the sample
    clock. *)
Definition recent_claimant : CitizenRow :=
  {| name := "Recent Claimant"; account_status := "Active";
     aadhaar_linked := 1; scheme_eligibility := "Health_Scheme";
     scheme_amount := 5000%Q; claim_count := 0;
     last_claim_date := "2025-02-19" |}.

Definition recent_claimant_record : Citizen :=
  prepare_citizen_record "333344445555" recent_claimant.

Definition registry : gmap string CitizenRow :=
  <["333344445555" := recent_claimant]>
    (<["222233334444" := large_claimant]>
       (<["111122223333" := sita]> (<["123456789012" := rahul]> ∅))).

Definition large_claimant_record : Citizen :=
  prepare_citizen_record "222233334444" large_claimant.

Definition start : State :=
  {| SYSTEM_STATUS := ACTIVE; ledger_entries := []; citizens := registry |}.

(** A ledger row paying the health scheme, chained to the genesis
    sentinel. *)
Definition health_payment : LedgerRow :=
  {| timestamp := "2025-02-01 09:00:00";
     citizen_hash := "h(123456789012)";
     scheme := "Health_Scheme";
     amount := 5000%Q;
     previous_hash := "GENESIS";
     current_hash :=
       "h(2025-02-01 09:00:00h(123456789012)Health_Scheme5000GENESIS)" |}.

(** The sample state after one health payment to the first citizen. *)
Definition paid_once : State :=
  {| SYSTEM_STATUS := ACTIVE;
     ledger_entries := [health_payment];
     citizens := registry |}.

(** A single disbursement that uses up the whole budget. *)
Definition whole_budget_payment : LedgerRow :=
  {| timestamp := "2025-02-01 09:00:00";
     citizen_hash := "h(123456789012)";
     scheme := "Housing_Scheme";
     amount := 1000000%Q;
     previous_hash := "GENESIS";
     current_hash :=
       "h(2025-02-01 09:00:00h(123456789012)Housing_Scheme1000000GENESIS)" |}.

Definition exhausted : State :=
  {| SYSTEM_STATUS := ACTIVE;
     ledger_entries := [whole_budget_payment];
     citizens := registry |}.

(** A ledger line whose hash matches its own fields but which does not
    name the genesis sentinel as its predecessor, and the same entry as a
    row of the sqlite table. *)
Definition unlinked_line : FileProto.Line :=
  [ "2025-02-01 09:00:00"; "h(123456789012)"; "Health_Scheme"; "5000";
    "0000";
    "h(2025-02-01 09:00:00h(123456789012)Health_Scheme50000000)" ].

Definition unlinked_file : FileProto.State :=
  {| FileProto.BUDGET := 1000000;
     FileProto.SYSTEM_STATUS := ACTIVE;
     FileProto.ledger_file := Some [unlinked_line] |}.

Definition unlinked_table : State :=
  {| SYSTEM_STATUS := ACTIVE;
     ledger_entries :=
       [ {| timestamp := "2025-02-01 09:00:00";
            citizen_hash := "h(123456789012)";
            scheme := "Health_Scheme";
            amount := 5000%Q;
            previous_hash := "0000";
            current_hash :=
              "h(2025-02-01 09:00:00h(123456789012)Health_Scheme50000000)" |} ];
     citizens := registry |}.

(** The state after tampering has been detected, and some later
    requests. *)
Definition frozen : State :=
  {| SYSTEM_STATUS := FROZEN;
     ledger_entries := [health_payment];
     citizens := registry |}.

Definition later_requests : list App.Op :=
  [ App.OpProcessTransaction clock "111122223333" "Health_Scheme" 5000%Q;
    App.OpGetStatus;
    App.OpUpsertCitizen "111122223333" sita;
    App.OpProcess clock
      {| App.body_citizen_id := Some (VStr "111122223333");
         App.body_scheme := Some (VStr "Health_Scheme");
         App.body_amount := Some (VNum 5000%Q) |} ].

(** A [/process] body that names no amount. *)
Definition body_without_amount : App.ProcessBody :=
  {| App.body_citizen_id := Some (VStr "123456789012");
     App.body_scheme := Some (VStr "Health_Scheme");
     App.body_amount := None |}.

(** A registry row whose scheme amount is negative. *)
Definition negative_scheme : CitizenRow :=
  {| name := "Negative Scheme"; account_status := "Active";
     aadhaar_linked := 1; scheme_eligibility := "Health_Scheme";
     scheme_amount := (-5000)%Q; claim_count := 0;
     last_claim_date := "2024-12-01" |}.

(** A ledger row with a negative amount, as a line of [ledger.txt] or a
    registry row with a negative scheme amount can produce. *)
Definition negative_entry : LedgerRow :=
  {| timestamp := "2025-02-01 09:00:00";
     citizen_hash := "h(123456789012)";
     scheme := "Health_Scheme";
     amount := (-5000)%Q;
     previous_hash := "GENESIS";
     current_hash :=
       "h(2025-02-01 09:00:00h(123456789012)Health_Scheme-5000GENESIS)" |}.

End Sample.

(** ** Specification-level notions

    These follow the wording of the specification; the theorems compare
    them with the functions embedded from the source. *)

(** The sum of all entry amounts. *)
Definition sum_amounts (rows : list LedgerRow) : Q :=
  fold_right (fun r acc => (amount r + acc)%Q) 0%Q rows.

(** The hash an entry at position [i] of [rows] must name as its
    predecessor: the genesis sentinel for the first entry, otherwise the
    stored [current_hash] of the entry just before it. *)
Definition predecessor_hash (rows : list LedgerRow) (i : nat) : string :=
  match i with
  | O => GENESIS
  | S j => from_option current_hash GENESIS (rows !! j)
  end.

(** Every entry's recomputed hash equals its stored hash and its stored
    [previous_hash] names its predecessor. *)
Definition chain_intact `{PyLib} (rows : list LedgerRow) : Prop :=
  forall (i : nat) (row : LedgerRow),
    rows !! i = Some row ->
    recalculated_hash row = current_hash row
    /\ previous_hash row = predecessor_hash rows i.

(** The same two notions for a suffix of the ledger, the entry before the
    suffix having the stored hash [prev]. *)
Definition predecessor_from (prev : string) (rows : list LedgerRow)
           (i : nat) : string :=
  match i with
  | O => prev
  | S j => from_option current_hash prev (rows !! j)
  end.

Definition intact_from `{PyLib} (prev : string) (rows : list LedgerRow) : Prop :=
  forall (i : nat) (row : LedgerRow),
    rows !! i = Some row ->
    recalculated_hash row = current_hash row
    /\ previous_hash row = predecessor_from prev rows i.

(** The text returned when the system is not ACTIVE. *)
Definition blocked_message (s : Status) : string :=
  "System is " ++ status_name s ++ ". Transaction Blocked.".

(** The text returned by [fraud-dection.py] on approval. *)
Definition sqlite_approved_message (remaining_budget : Z) : string :=
  "Transaction Approved [SUCCESS] | Remaining Budget: Rs."
    ++ int_str remaining_budget.

(** The ledger row that an approval by either sqlite variant inserts. *)
Definition new_entry `{PyLib} (clk : Clock) (st : State) (cid sch : string)
           (amt : Q) : LedgerRow :=
  let ch := hash_id cid in
  let prev := get_previous_hash st in
  {| timestamp := now_stamp clk; citizen_hash := ch; scheme := sch;
     amount := amt; previous_hash := prev;
     current_hash :=
       generate_hash (now_stamp clk) ch sch (amount_hash_value amt) prev |}.

(** The submitted amount of a [/process] body is missing, cannot be read
    as a number, or is zero. *)
Definition amount_missing_unparsable_or_zero `{PyLib} (data : App.ProcessBody)
  : Prop :=
  match App.body_amount data with
  | None => True
  | Some v =>
      match App.py_float v with
      | None => True
      | Some q => (q == 0)%Q
      end
  end.

(** The message of the first gate, in the given order, whose verdict is a
    denial. *)
Fixpoint first_failure (gates : list (bool * string)) : option string :=
  match gates with
  | [] => None
  | (ok, msg) :: rest => if ok then first_failure rest else Some msg
  end.

(** The conditions that [eligibility_gate] of [app.py] tests before the
    claim count. *)
Definition passes_before_claim_count (row : Citizen) (sch : string) (amt : Q)
  : Prop :=
  Account_Status row = "Active"
  /\ Aadhaar_Linked row = true
  /\ Scheme_Eligibility row = sch
  /\ exists expected : Q,
       App.get_expected_scheme_amount sch = Some expected
       /\ (Qabs (Scheme_Amount row - expected) <= App.AMOUNT_TOLERANCE)%Q
       /\ (Qabs (amt - expected) <= App.AMOUNT_TOLERANCE)%Q.

(** The conditions that [eligibility_gate] of [fraud-dection.py] tests
    before the claim count. *)
Definition sqlite_passes_before_claim_count (row : Citizen) (sch : string)
           (amt : Q) : Prop :=
  Account_Status row = "Active"
  /\ Aadhaar_Linked row = true
  /\ Scheme_Eligibility row = sch
  /\ (Scheme_Amount row == amt)%Q.

(** ** Further sample data *)

Module Scenario.

Definition lower_char (c : ascii) : ascii :=
  let n := nat_of_ascii c in
  if (Nat.leb 65 n && Nat.leb n 90)%bool then ascii_of_nat (n + 32) else c.

Fixpoint lower (s : string) : string :=
  match s with
  | EmptyString => EmptyString
  | String c rest => String (lower_char c) (lower rest)
  end.

Fixpoint all_digits (s : string) : bool :=
  match s with
  | EmptyString => true
  | String c rest =>
      match Sample.digit_val c with
      | Some _ => all_digits rest
      | None => false
      end
  end.

Definition parse_float_text (s : string) : option Admin.PyFloat :=
  if String.eqb (lower s) "nan" then Some Admin.NaN
  else if String.eqb (lower s) "inf" then Some (Admin.Inf false)
  else if String.eqb (lower s) "-inf" then Some (Admin.Inf true)
  else (fun n => Admin.Finite (inject_Z n)) <$> Sample.number s.

Definition show_json (v : Admin.Json) : string :=
  match v with
  | Admin.JStr s => s
  | Admin.JNull => "None"
  | Admin.JBool true => "True"
  | Admin.JBool false => "False"
  | Admin.JInt n => int_str n
  | Admin.JFloat _ => "<float>"
  | Admin.JContainer _ => "<object>"
  end.

(** An executable instance of the text routines for the sample bodies:
    ASCII text, numbers written as decimal integers, [nan] and [inf]. *)
Definition text : Admin.PyText := {|
  Admin.str_lower := lower;
  Admin.str_isdigit :=
    fun s => negb (String.eqb s EmptyString) && all_digits s;
  Admin.str_len := String.length;
  Admin.int_of_str := Sample.number;
  Admin.float_of_text := parse_float_text;
  Admin.json_str := show_json
|}.

(** A complete body for [/citizens]. *)
Definition new_citizen : Admin.CitizenBody :=
  {| Admin.body_citizen_id := Some (Admin.JStr "777788889999");
     Admin.body_name := Some (Admin.JStr "Meena Rao");
     Admin.body_account_status := None;
     Admin.body_aadhaar_linked := Some (Admin.JStr "Yes");
     Admin.body_scheme_eligibility := Some (Admin.JStr "Education_Scheme");
     Admin.body_scheme_amount := Some (Admin.JInt 10000);
     Admin.body_claim_count := None;
     Admin.body_last_claim_date := Some (Admin.JStr "2024-11-30") |}.

Definition new_citizen_record : Admin.CitizenRecord :=
  {| Admin.rec_citizen_id := "777788889999";
     Admin.rec_name := "Meena Rao";
     Admin.rec_account_status := "Active";
     Admin.rec_aadhaar_linked := 1;
     Admin.rec_scheme_eligibility := "Education_Scheme";
     Admin.rec_scheme_amount := Admin.Number 10000%Q;
     Admin.rec_claim_count := 0;
     Admin.rec_last_claim_date := "2024-11-30" |}.


(** The same body with the amount given as the text [nan], and with a
    claim count of [2 ^ 63]. *)
Definition nan_amount_citizen : Admin.CitizenBody :=
  {| Admin.body_citizen_id := Some (Admin.JStr "777788889999");
     Admin.body_name := Some (Admin.JStr "Meena Rao");
     Admin.body_account_status := None;
     Admin.body_aadhaar_linked := Some (Admin.JStr "Yes");
     Admin.body_scheme_eligibility := Some (Admin.JStr "Education_Scheme");
     Admin.body_scheme_amount := Some (Admin.JStr "nan");
     Admin.body_claim_count := None;
     Admin.body_last_claim_date := Some (Admin.JStr "2024-11-30") |}.

Definition huge_count_citizen : Admin.CitizenBody :=
  {| Admin.body_citizen_id := Some (Admin.JStr "777788889999");
     Admin.body_name := Some (Admin.JStr "Meena Rao");
     Admin.body_account_status := None;
     Admin.body_aadhaar_linked := Some (Admin.JStr "Yes");
     Admin.body_scheme_eligibility := Some (Admin.JStr "Education_Scheme");
     Admin.body_scheme_amount := Some (Admin.JInt 10000);
     Admin.body_claim_count := Some (Admin.JInt (2 ^ 63));
     Admin.body_last_claim_date := Some (Admin.JStr "2024-11-30") |}.

(** A row whose claim count cannot be bound. *)
Definition huge_count_row : CitizenRow :=
  {| name := "Meena Rao"; account_status := "Active"; aadhaar_linked := 1;
     scheme_eligibility := "Education_Scheme"; scheme_amount := 10000%Q;
     claim_count := 2 ^ 63; last_claim_date := "2024-11-30" |}.

(** A stored agriculture payment and the same row with the last digit of
    the scheme name taken from the amount. *)
Definition agriculture_payment : LedgerRow :=
  {| timestamp := "2025-02-01 09:00:00";
     citizen_hash := "h(123456789012)";
     scheme := "Agriculture_Scheme";
     amount := 15000%Q;
     previous_hash := "GENESIS";
     current_hash :=
       "h(2025-02-01 09:00:00h(123456789012)Agriculture_Scheme15000GENESIS)" |}.

Definition rewritten_payment : LedgerRow :=
  {| timestamp := "2025-02-01 09:00:00";
     citizen_hash := "h(123456789012)";
     scheme := "Agriculture_Scheme1";
     amount := 5000%Q;
     previous_hash := "GENESIS";
     current_hash :=
       "h(2025-02-01 09:00:00h(123456789012)Agriculture_Scheme15000GENESIS)" |}.

Definition stored : State :=
  {| SYSTEM_STATUS := ACTIVE;
     ledger_entries := [agriculture_payment];
     citizens := Sample.registry |}.

Definition rewritten : State :=
  {| SYSTEM_STATUS := ACTIVE;
     ledger_entries := [rewritten_payment];
     citizens := Sample.registry |}.

(** A [ledger.txt] with a blank line, a line that lacks a field, the line of
    the sample health payment and a further line, given twice. *)
Definition ledger_txt : list string :=
  [ "";
    "2025-02-01 09:00:00|h(123456789012)|Health_Scheme|5000|GENESIS";
    "2025-02-01 09:00:00|h(123456789012)|Health_Scheme|5000|GENESIS|h(2025-02-01 09:00:00h(123456789012)Health_Scheme5000GENESIS)";
    "2025-02-02 09:00:00|h(111122223333)|Health_Scheme|5000|aaaa|bbbb";
    "2025-02-02 09:00:00|h(111122223333)|Health_Scheme|5000|aaaa|bbbb" ].

(** Requests to the sqlite variant at the sample clock. *)
Definition sqlite_requests : list Sqlite.Op :=
  [ Sqlite.OpProcessTransaction Sample.clock
      "111122223333" "Health_Scheme" 5000%Q;
    Sqlite.OpProcessTransaction Sample.clock
      "111122223333" "Health_Scheme" 5000%Q;
    Sqlite.OpBudgetGate 5000%Q ].

(** Requests to the service at the sample clock. *)
Definition app_requests : list App.Op :=
  [ App.OpProcessTransaction Sample.clock
      "123456789012" "Health_Scheme" 5000%Q;
    App.OpGetStatus;
    App.OpProcess Sample.clock Sample.body_without_amount ].

(** The prototype before its first request, and its registry sheet. *)
Definition proto_start : FileProto.State :=
  {| FileProto.BUDGET := 1000000;
     FileProto.SYSTEM_STATUS := ACTIVE;
     FileProto.ledger_file := None |}.

Definition proto_registry : list Citizen :=
  [Sample.rahul_record; Sample.amit].

(** A clock that has gone back to the start of 2025. *)
Definition stale_clock : Clock :=
  {| now_stamp := "2025-01-01 00:00:00"; today_day := 739311 |}.

End Scenario.

(** ** Notions used for the properties of the remaining code *)


(** Order of two rows by timestamp, as [ORDER BY timestamp] compares. *)
Definition ts_le (a b : LedgerRow) : Prop :=
  String.leb (timestamp a) (timestamp b) = true.

(** Of an earlier and a later row (by rowid), the one that
    [ORDER BY timestamp DESC, id DESC] ranks first. *)
Definition later_of (a b : LedgerRow) : LedgerRow :=
  if String.leb (timestamp a) (timestamp b) then b else a.

(** The text that [generate_hash] digests for a stored row. *)
Definition record_text `{PyLib} (r : LedgerRow) : string :=
  timestamp r ++ citizen_hash r ++ scheme r
    ++ amount_hash_value (amount r) ++ previous_hash r.

(** Two rows that agree on everything the integrity check looks at:
    timestamp, both stored hashes and the digested text. *)
Definition same_seal `{PyLib} (a b : LedgerRow) : Prop :=
  timestamp a = timestamp b
  /\ previous_hash a = previous_hash b
  /\ current_hash a = current_hash b
  /\ record_text a = record_text b.

(** The clock that an operation of the service reads, if it reads one. *)
Definition op_clock (o : App.Op) : option Clock :=
  match o with
  | App.OpProcessTransaction clk _ _ _ => Some clk
  | App.OpProcess clk _ => Some clk
  | _ => None
  end.

(** The timestamps read by the operations never go back, starting from
    [t]. *)
Fixpoint clocks_ascend (t : string) (ops : list App.Op) : Prop :=
  match ops with
  | [] => True
  | o :: rest =>
      match op_clock o with
      | Some clk =>
          String.leb t (now_stamp clk) = true
          /\ clocks_ascend (now_stamp clk) rest
      | None => clocks_ascend t rest
      end
  end.

(** No stored timestamp is later than [t]. *)
Definition stamped_until (t : string) (st : State) : Prop :=
  Forall (fun r => String.leb (timestamp r) t = true) (ledger_entries st).

(** The [current_hash] field of a line of [ledger.txt], when the line has
    exactly six fields. *)
Definition line_current_hash (line : string) : option string :=
  match split_on "|"%char line with
  | [_; _; _; _; _; cur] => Some cur
  | _ => None
  end.

(** What the two blocking statuses stand for: LOCKED only with less than
    one rupee of budget left, FROZEN only with a broken chain. *)
Definition status_is_justified `{PyLib} (st : State) : Prop :=
  (SYSTEM_STATUS st = LOCKED -> (calculate_remaining_budget st < 1)%Q)
  /\ (SYSTEM_STATUS st = FROZEN -> ~ chain_intact (fetch_ledger_rows st)).

(** * Properties *)

Example int_str_5000 : int_str 5000 = "5000".
Proof. reflexivity. Qed.

Example split_space_head_stamp :
  split_space_head "2025-03-01 10:20:30" = "2025-03-01".
Proof. reflexivity. Qed.

Example sample_today : Sample.parse_ymd "2025-03-01" = Some (today_day Sample.clock).
Proof. reflexivity. Qed.

Example sample_last_claim : Sample.parse_ymd "2025-01-15" = Some (739311 - 45).
Proof. reflexivity. Qed.

Example app_sample_run :
  snd (App.process_transaction (H := Sample.lib) Sample.clock Sample.start
         "123456789012" "Health_Scheme" 5000%Q)
  = App.Approved "Rahul Sharma" 995000 "h(2025-03-01 10:...".
Proof. vm_compute. reflexivity. Qed.

(** ** Comparisons on amounts *)

Lemma Qgtb_true (a b : Q) : Qgtb a b = true <-> (b < a)%Q.
Proof.
  unfold Qgtb. rewrite negb_true_iff, <- not_true_iff_false, Qle_bool_iff.
  split; [apply Qnot_le_lt | apply Qlt_not_le].
Qed.

Lemma Qgtb_false (a b : Q) : Qgtb a b = false <-> (a <= b)%Q.
Proof. unfold Qgtb. rewrite negb_false_iff. apply Qle_bool_iff. Qed.

Lemma py_max0_nonneg (x : Q) : (0 <= py_max0 x)%Q.
Proof.
  unfold py_max0. destruct (Qgtb 0 x) eqn:E.
  - apply Qle_refl.
  - now apply Qgtb_false.
Qed.

Lemma py_max0_Qmax (x : Q) : (py_max0 x == Qmax x 0)%Q.
Proof.
  unfold py_max0. destruct (Qgtb 0 x) eqn:E.
  - apply Qgtb_true in E. symmetry. apply Q.max_r. now apply Qlt_le_weak.
  - apply Qgtb_false in E. symmetry. now apply Q.max_l.
Qed.

Lemma py_max0_mono (x y : Q) : (x <= y)%Q -> (py_max0 x <= py_max0 y)%Q.
Proof.
  intros Hxy. rewrite !py_max0_Qmax. apply Q.max_le_compat_r. exact Hxy.
Qed.

(** ** Remaining budget *)

Lemma fold_amounts_from (rows : list LedgerRow) (a : Q) :
  (fold_left (fun acc r => (acc + amount r)%Q) rows a == a + sum_amounts rows)%Q.
Proof.
  revert a. induction rows as [|r rows IH]; intros a; simpl.
  - ring.
  - rewrite IH. ring.
Qed.

Lemma total_disbursed_sum (rows : list LedgerRow) :
  (total_disbursed rows == sum_amounts rows)%Q.
Proof. unfold total_disbursed. rewrite fold_amounts_from. ring. Qed.

Lemma sum_amounts_snoc (rows : list LedgerRow) (r : LedgerRow) :
  (sum_amounts (rows ++ [r]) == sum_amounts rows + amount r)%Q.
Proof.
  induction rows as [|x rows IH]; simpl.
  - ring.
  - rewrite IH. ring.
Qed.

Lemma remaining_of_Qmax (initial : Q) (rows : list LedgerRow) :
  (remaining_of initial rows == Qmax (initial - sum_amounts rows) 0)%Q.
Proof.
  unfold remaining_of. rewrite py_max0_Qmax.
  now rewrite total_disbursed_sum.
Qed.

Lemma remaining_of_snoc_le (initial : Q) (rows : list LedgerRow) (r : LedgerRow) :
  (0 <= amount r)%Q ->
  (remaining_of initial (rows ++ [r]) <= remaining_of initial rows)%Q.
Proof.
  intros Hr. unfold remaining_of. apply py_max0_mono.
  rewrite !total_disbursed_sum, sum_amounts_snoc.
  apply Qplus_le_r. apply Qopp_le_compat.
  rewrite <- (Qplus_0_r (sum_amounts rows)) at 1.
  apply Qplus_le_r. exact Hr.
Qed.

(** C7 (as amended). For every ledger and every initial budget the remaining
    budget is [max(initial - sum of all entry amounts, 0)], which is what
    [calculate_remaining_budget] returns for the configured budget; it is
    never negative; and appending an entry whose amount is not negative
    does not increase it. *)
Theorem remaining_budget_formula_nonneg_monotone
        (initial : Q) (rows : list LedgerRow) (st : State) (r : LedgerRow) :
  (0 <= amount r)%Q ->
  (remaining_of initial rows == Qmax (initial - sum_amounts rows) 0)%Q
  /\ (0 <= remaining_of initial rows)%Q
  /\ (remaining_of initial (rows ++ [r]) <= remaining_of initial rows)%Q
  /\ (calculate_remaining_budget st
      == Qmax (INITIAL_BUDGET - sum_amounts (ledger_entries st)) 0)%Q
  /\ (0 <= calculate_remaining_budget st)%Q
  /\ (calculate_remaining_budget (insert_ledger_entry r st)
      <= calculate_remaining_budget st)%Q.
Proof.
  intros Hr. split; [apply remaining_of_Qmax |].
  split; [apply py_max0_nonneg |].
  split; [now apply remaining_of_snoc_le |].
  split; [apply remaining_of_Qmax |].
  split; [apply py_max0_nonneg |].
  unfold calculate_remaining_budget. cbn [ledger_entries insert_ledger_entry].
  now apply remaining_of_snoc_le.
Qed.

Lemma remaining_budget_formula_nonneg_monotone_witness :
  (0 <= amount Sample.health_payment)%Q
  /\ (calculate_remaining_budget
        (insert_ledger_entry Sample.health_payment Sample.start)
      <= calculate_remaining_budget Sample.start)%Q.
Proof.
  assert (Hr : (0 <= amount Sample.health_payment)%Q)
    by (vm_compute; discriminate).
  split; [exact Hr |].
  exact (proj2 (proj2 (proj2 (proj2 (proj2
           (remaining_budget_formula_nonneg_monotone
              INITIAL_BUDGET [] Sample.start Sample.health_payment Hr)))))).
Defined.

(** C7, the claim as stated fails: appending an entry with a negative
    amount raises the remaining budget from 1000000 to 1005000. *)
Lemma remaining_budget_grows_on_negative_entry :
  ~ (calculate_remaining_budget
       (insert_ledger_entry Sample.negative_entry Sample.start)
     <= calculate_remaining_budget Sample.start)%Q.
Proof. vm_compute. intros Hle. now apply Hle. Qed.

(** The state of [calculate_remaining_budget] is the ledger table and the
    configured budget. *)
Lemma calculate_remaining_budget_unfold (st : State) :
  calculate_remaining_budget st = remaining_of INITIAL_BUDGET (ledger_entries st).
Proof. reflexivity. Qed.

(** ** Eligibility gate *)

(** C8. A citizen record whose account status is not "Active" is denied
    with the account-not-active reason, whatever the other fields, the
    scheme and the amount are; this holds for the gate of [app.py] and for
    the gate of [fraud-dection.py]. *)
Theorem eligibility_gate_inactive_account
        (row : Citizen) (sch : string) (amt : Q) :
  Account_Status row <> "Active" ->
  App.eligibility_gate row sch amt = (false, "Account Not Active")
  /\ Sqlite.eligibility_gate row sch amt = (false, "Account Not Active").
Proof.
  intros Hst. apply String.eqb_neq in Hst.
  unfold App.eligibility_gate, Sqlite.eligibility_gate.
  now rewrite Hst.
Qed.

Lemma eligibility_gate_inactive_account_witness :
  Account_Status Sample.amit <> "Active"
  /\ App.eligibility_gate Sample.amit "Health_Scheme" 5000%Q
     = (false, "Account Not Active").
Proof.
  split; [discriminate |].
  apply (eligibility_gate_inactive_account Sample.amit "Health_Scheme" 5000%Q).
  discriminate.
Defined.

(** The prototype of [test_fraud.py] agrees. *)
Lemma fileproto_eligibility_gate_inactive_account
      (row : Citizen) (sch : string) (amt : Z) :
  Account_Status row <> "Active" ->
  FileProto.eligibility_gate row sch amt = (false, "Account Not Active").
Proof.
  intros Hst. apply String.eqb_neq in Hst.
  unfold FileProto.eligibility_gate. now rewrite Hst.
Qed.

Lemma app_gate_before_claim_count (row : Citizen) (sch : string) (amt : Q) :
  passes_before_claim_count row sch amt ->
  App.eligibility_gate row sch amt
  = if Z.gtb (Claim_Count row) 3 then (false, "Claim Limit Exceeded")
    else (true, "Eligible").
Proof.
  intros (Hst & Hlink & Hsch & e & He & Hreg & Hamt).
  unfold App.eligibility_gate.
  rewrite Hst, Hlink, Hsch, String.eqb_refl, He; cbn [negb String.eqb].
  apply Qgtb_false in Hreg, Hamt. rewrite Hreg, Hamt.
  now rewrite String.eqb_refl.
Qed.

Lemma app_gate_claim_limit_reason (row : Citizen) (sch : string) (amt : Q) :
  snd (App.eligibility_gate row sch amt) = "Claim Limit Exceeded" ->
  Claim_Count row > 3.
Proof.
  unfold App.eligibility_gate.
  repeat (case_match; simpl; try discriminate).
  intros _. now apply Z.gtb_gt.
Qed.

Lemma app_gate_over_limit_denied (row : Citizen) (sch : string) (amt : Q) :
  Claim_Count row > 3 -> fst (App.eligibility_gate row sch amt) = false.
Proof.
  intros Hc. apply Z.gtb_gt in Hc. unfold App.eligibility_gate.
  repeat (case_match; simpl; try reflexivity). congruence.
Qed.

Lemma sqlite_gate_before_claim_count (row : Citizen) (sch : string) (amt : Q) :
  sqlite_passes_before_claim_count row sch amt ->
  Sqlite.eligibility_gate row sch amt
  = if Z.geb (Claim_Count row) 1 then (false, "Claim already settled")
    else (true, "Eligible").
Proof.
  intros (Hst & Hlink & Hsch & Hamt).
  unfold Sqlite.eligibility_gate.
  rewrite Hst, Hlink, Hsch, !String.eqb_refl; cbn [negb].
  apply Qeq_bool_iff in Hamt. now rewrite Hamt.
Qed.

(** C5 (as amended). In [app.py], a denial with the claim-limit reason
    implies [claim_count > 3]; a record with [claim_count > 3] is always
    denied; and for a record that passes the conditions tested before the
    claim count the gate denies with the claim-limit reason exactly when
    [claim_count > 3] and approves otherwise.  In [fraud-dection.py] the
    ceiling is 0: a record that passes the earlier conditions is denied
    with "Claim already settled" exactly when [claim_count >= 1]. *)
Theorem eligibility_gate_claim_ceiling
        (row : Citizen) (sch : string) (amt : Q) :
  (snd (App.eligibility_gate row sch amt) = "Claim Limit Exceeded" ->
   Claim_Count row > 3)
  /\ (Claim_Count row > 3 -> fst (App.eligibility_gate row sch amt) = false)
  /\ (passes_before_claim_count row sch amt ->
      (App.eligibility_gate row sch amt = (false, "Claim Limit Exceeded")
       <-> Claim_Count row > 3)
      /\ (Claim_Count row <= 3 ->
          App.eligibility_gate row sch amt = (true, "Eligible")))
  /\ (sqlite_passes_before_claim_count row sch amt ->
      (Sqlite.eligibility_gate row sch amt = (false, "Claim already settled")
       <-> Claim_Count row >= 1)
      /\ (Claim_Count row <= 0 ->
          Sqlite.eligibility_gate row sch amt = (true, "Eligible"))).
Proof.
  split; [apply app_gate_claim_limit_reason |].
  split; [apply app_gate_over_limit_denied |].
  split.
  - intros Hp. rewrite (app_gate_before_claim_count _ _ _ Hp).
    destruct (Z.gtb_spec (Claim_Count row) 3) as [Hgt | Hle].
    + split; [split; [lia | reflexivity] | lia].
    + split; [split; [discriminate | lia] | reflexivity].
  - intros Hp. rewrite (sqlite_gate_before_claim_count _ _ _ Hp).
    destruct (Z.geb_spec (Claim_Count row) 1) as [Hge | Hlt].
    + split; [split; [lia | reflexivity] | lia].
    + split; [split; [discriminate | lia] | reflexivity].
Qed.

Lemma eligibility_gate_claim_ceiling_witness :
  passes_before_claim_count Sample.rahul_record "Health_Scheme" 5000%Q
  /\ Claim_Count Sample.rahul_record <= 3
  /\ App.eligibility_gate Sample.rahul_record "Health_Scheme" 5000%Q
     = (true, "Eligible").
Proof.
  assert (Hp : passes_before_claim_count
                 Sample.rahul_record "Health_Scheme" 5000%Q).
  { repeat split. exists 5000%Q. repeat split; vm_compute; discriminate. }
  assert (Hc : Claim_Count Sample.rahul_record <= 3) by (vm_compute; discriminate).
  split; [exact Hp | split; [exact Hc |]].
  exact (proj2 (proj1 (proj2 (proj2 (eligibility_gate_claim_ceiling
           Sample.rahul_record "Health_Scheme" 5000%Q))) Hp) Hc).
Defined.

(** C5, the claim as stated fails: the gate of [fraud-dection.py] denies a
    record with [claim_count = 1 <= 3] on the claim-count condition. *)
Lemma sqlite_gate_denies_single_prior_claim :
  Claim_Count Sample.priya_record <= 3
  /\ sqlite_passes_before_claim_count Sample.priya_record "Education_Scheme" 10000%Q
  /\ Sqlite.eligibility_gate Sample.priya_record "Education_Scheme" 10000%Q
     = (false, "Claim already settled").
Proof.
  split; [vm_compute; discriminate |]. split; [| reflexivity].
  repeat split.
Qed.

(** ** Budget gate *)

Lemma app_budget_gate_exhausted (st : State) (amt : Q) :
  (calculate_remaining_budget st <= 0)%Q ->
  App.budget_gate st amt
  = (set_status LOCKED st, (false, "Budget Exhausted. System Locked.")).
Proof.
  intros Hle. apply Qle_bool_iff in Hle.
  unfold App.budget_gate. now rewrite Hle.
Qed.

Lemma app_budget_gate_insufficient (st : State) (amt : Q) :
  (0 < calculate_remaining_budget st)%Q ->
  (calculate_remaining_budget st < amt)%Q ->
  App.budget_gate st amt = (st, (false, "Insufficient Budget")).
Proof.
  intros Hpos Hlt. unfold App.budget_gate.
  destruct (Qle_bool (calculate_remaining_budget st) 0) eqn:E.
  - apply Qle_bool_iff in E. exfalso. exact (Qlt_not_le _ _ Hpos E).
  - apply Qgtb_true in Hlt. now rewrite Hlt.
Qed.

Lemma app_budget_gate_tables (st : State) (amt : Q) :
  ledger_entries (fst (App.budget_gate st amt)) = ledger_entries st
  /\ citizens (fst (App.budget_gate st amt)) = citizens st.
Proof. unfold App.budget_gate. repeat case_match; now simpl. Qed.

Lemma app_budget_gate_status (st : State) (amt : Q) :
  SYSTEM_STATUS (fst (App.budget_gate st amt)) = SYSTEM_STATUS st
  \/ SYSTEM_STATUS (fst (App.budget_gate st amt)) = LOCKED.
Proof. unfold App.budget_gate. repeat case_match; simpl; auto. Qed.

Lemma sqlite_budget_gate_state (st : State) (amt : Q) :
  fst (Sqlite.budget_gate st amt) = st.
Proof. unfold Sqlite.budget_gate. now case_match. Qed.

Lemma app_budget_gate_approves (st : State) (amt : Q) :
  (0 < calculate_remaining_budget st)%Q ->
  (amt <= calculate_remaining_budget st)%Q ->
  App.budget_gate st amt = (st, (true, "Budget Approved")).
Proof.
  intros Hpos Hle. unfold App.budget_gate.
  destruct (Qle_bool (calculate_remaining_budget st) 0) eqn:E.
  - apply Qle_bool_iff in E. exfalso. exact (Qlt_not_le _ _ Hpos E).
  - apply Qgtb_false in Hle. now rewrite Hle.
Qed.

Lemma sqlite_budget_gate_denies (st : State) (amt : Q) :
  (calculate_remaining_budget st < amt)%Q ->
  Sqlite.budget_gate st amt = (st, (false, "Insufficient Budget")).
Proof.
  intros Hlt. apply Qgtb_true in Hlt.
  unfold Sqlite.budget_gate. now rewrite Hlt.
Qed.

Lemma sqlite_budget_gate_approves (st : State) (amt : Q) :
  (amt <= calculate_remaining_budget st)%Q ->
  Sqlite.budget_gate st amt = (st, (true, "Budget Approved")).
Proof.
  intros Hle. apply Qgtb_false in Hle.
  unfold Sqlite.budget_gate. now rewrite Hle.
Qed.

(** C4 (as amended). In [app.py], [budget_gate] locks the system and denies
    when the remaining budget is [<= 0]; it denies and leaves the whole
    state unchanged when the amount exceeds a positive remaining budget; it
    approves, state unchanged, when the amount is within a positive
    remaining budget; and it never changes the ledger, the citizens or the
    remaining budget.  In [fraud-dection.py] the gate never changes the
    state (so never locks): it denies with "Insufficient Budget" exactly
    when the amount exceeds the remaining budget and approves otherwise.
    In [test_fraud.py] an approval deducts the amount from the in-memory
    budget. *)
Theorem budget_gate_behaviour (st : State) (amt : Q)
        (pst : FileProto.State) (pamt : Z) :
  ((calculate_remaining_budget st <= 0)%Q ->
   App.budget_gate st amt
   = (set_status LOCKED st, (false, "Budget Exhausted. System Locked.")))
  /\ ((0 < calculate_remaining_budget st)%Q ->
      (calculate_remaining_budget st < amt)%Q ->
      App.budget_gate st amt = (st, (false, "Insufficient Budget")))
  /\ ledger_entries (fst (App.budget_gate st amt)) = ledger_entries st
  /\ citizens (fst (App.budget_gate st amt)) = citizens st
  /\ calculate_remaining_budget (fst (App.budget_gate st amt))
     = calculate_remaining_budget st
  /\ fst (Sqlite.budget_gate st amt) = st
  /\ FileProto.budget_gate pst pamt
     = (if Z.gtb pamt (FileProto.BUDGET pst)
        then (pst, (false, "Insufficient Budget"))
        else (FileProto.set_budget (FileProto.BUDGET pst - pamt) pst,
              (true, "Budget Approved")))
  /\ ((0 < calculate_remaining_budget st)%Q ->
      (amt <= calculate_remaining_budget st)%Q ->
      App.budget_gate st amt = (st, (true, "Budget Approved")))
  /\ ((calculate_remaining_budget st < amt)%Q ->
      Sqlite.budget_gate st amt = (st, (false, "Insufficient Budget")))
  /\ ((amt <= calculate_remaining_budget st)%Q ->
      Sqlite.budget_gate st amt = (st, (true, "Budget Approved"))).
Proof.
  split; [apply app_budget_gate_exhausted |].
  split; [apply app_budget_gate_insufficient |].
  destruct (app_budget_gate_tables st amt) as [Hl Hc].
  split; [exact Hl |]. split; [exact Hc |].
  split; [unfold calculate_remaining_budget; now rewrite Hl |].
  split; [apply sqlite_budget_gate_state |].
  split; [reflexivity |].
  split; [apply app_budget_gate_approves |].
  split; [apply sqlite_budget_gate_denies | apply sqlite_budget_gate_approves].
Qed.

Lemma budget_gate_behaviour_witness :
  (calculate_remaining_budget Sample.exhausted <= 0)%Q
  /\ App.budget_gate Sample.exhausted 5000%Q
     = (set_status LOCKED Sample.exhausted,
        (false, "Budget Exhausted. System Locked.")).
Proof.
  assert (Hle : (calculate_remaining_budget Sample.exhausted <= 0)%Q)
    by (vm_compute; discriminate).
  split; [exact Hle |].
  exact (proj1 (budget_gate_behaviour Sample.exhausted 5000%Q
                  {| FileProto.BUDGET := 1000000;
                     FileProto.SYSTEM_STATUS := ACTIVE;
                     FileProto.ledger_file := None |} 5000) Hle).
Defined.

(** C4, the claim as stated fails: with the budget used up, the gate of
    [fraud-dection.py] denies but leaves the status ACTIVE. *)
Lemma sqlite_budget_gate_never_locks :
  (calculate_remaining_budget Sample.exhausted <= 0)%Q
  /\ Sqlite.budget_gate Sample.exhausted 5000%Q
     = (Sample.exhausted, (false, "Insufficient Budget"))
  /\ SYSTEM_STATUS (fst (Sqlite.budget_gate Sample.exhausted 5000%Q)) <> LOCKED.
Proof.
  split; [vm_compute; discriminate |].
  split; [reflexivity | discriminate].
Qed.

(** With budget left, the gate of [fraud-dection.py] approves an amount
    within it and denies one above it. *)
Example sqlite_budget_gate_sample :
  Sqlite.budget_gate Sample.paid_once 5000%Q
  = (Sample.paid_once, (true, "Budget Approved"))
  /\ Sqlite.budget_gate Sample.paid_once 995001%Q
     = (Sample.paid_once, (false, "Insufficient Budget")).
Proof. split; reflexivity. Qed.

(** The gate of [test_fraud.py] mutates the budget when it approves. *)
Example fileproto_budget_gate_deducts :
  FileProto.BUDGET
    (fst (FileProto.budget_gate
            {| FileProto.BUDGET := 1000000;
               FileProto.SYSTEM_STATUS := ACTIVE;
               FileProto.ledger_file := None |} 5000))
  = 995000.
Proof. reflexivity. Qed.

(** ** Ledger integrity *)

Section IntegrityFacts.
Context `{PyLib}.

Lemma predecessor_from_cons (prev : string) (r : LedgerRow)
      (rest : list LedgerRow) (i : nat) (row : LedgerRow) :
  rest !! i = Some row ->
  predecessor_from prev (r :: rest) (S i)
  = predecessor_from (current_hash r) rest i.
Proof.
  intros Hi. destruct i as [|j]; simpl; [reflexivity |].
  assert (Hj : is_Some (rest !! j)).
  { apply lookup_lt_is_Some. apply lookup_lt_Some in Hi. lia. }
  destruct Hj as [x Hx]. now rewrite Hx.
Qed.

Lemma verify_rows_cons (prev : string) (r : LedgerRow)
      (rest : list LedgerRow) :
  verify_rows prev (r :: rest) = true
  <-> recalculated_hash r = current_hash r
      /\ previous_hash r = prev
      /\ verify_rows (current_hash r) rest = true.
Proof.
  simpl.
  destruct (String.eqb_spec (recalculated_hash r) (current_hash r)) as [E1|E1];
    destruct (String.eqb_spec (previous_hash r) prev) as [E2|E2]; simpl;
    split; try tauto; try discriminate; intros (? & ? & ?); congruence.
Qed.

Lemma verify_rows_intact (rows : list LedgerRow) :
  forall prev : string, verify_rows prev rows = true <-> intact_from prev rows.
Proof.
  induction rows as [|r rest IH]; intros prev.
  - split; [| reflexivity]. intros _ i row Hi. discriminate Hi.
  - rewrite verify_rows_cons, IH. split.
    + intros (Hh & Hp & Hrest) [|i] row Hi.
      * injection Hi as <-. now split.
      * simpl in Hi. destruct (Hrest i row Hi) as [Hh' Hp'].
        split; [exact Hh' |].
        now rewrite (predecessor_from_cons prev r rest i row Hi).
    + intros Hall. destruct (Hall 0%nat r eq_refl) as [Hh Hp].
      split; [exact Hh | split; [exact Hp |]].
      intros i row Hi. destruct (Hall (S i) row Hi) as [Hh' Hp'].
      split; [exact Hh' |].
      now rewrite <- (predecessor_from_cons prev r rest i row Hi).
Qed.

(** The integrity check of [app.py] and [fraud-dection.py] returns true
    exactly when, in the order in which the rows are fetched, every
    entry's recomputed hash equals its stored hash and its stored
    [previous_hash] is the stored hash of the entry before it (the
    genesis sentinel for the first). *)
Lemma verify_ledger_integrity_iff (st : State) :
  verify_ledger_integrity st = true <-> chain_intact (fetch_ledger_rows st).
Proof.
  unfold verify_ledger_integrity. rewrite verify_rows_intact.
  reflexivity.
Qed.

(** The check of [test_fraud.py] accepts every line whose stored hash
    matches its own fields, whatever predecessor the line names. *)
Lemma fileproto_verify_single_line (ts ch sch amt prev : string) :
  FileProto.verify_lines
    [[ts; ch; sch; amt; prev; FileProto.generate_hash ts ch sch amt prev]]
  = Some true.
Proof. simpl. now rewrite String.eqb_refl. Qed.

End IntegrityFacts.

(** C2 (the file prototype misses the link check). On a one-line ledger
    whose stored hash matches its fields but whose [previous_hash] is not
    the genesis sentinel, [verify_ledger_integrity] of [test_fraud.py]
    returns true, while the integrity check of [app.py] and
    [fraud-dection.py] rejects the same entry. *)
Theorem fileproto_verify_accepts_broken_link :
  FileProto.verify_ledger_integrity (H := Sample.lib) Sample.unlinked_file
  = Some true
  /\ FileProto.ledger_file Sample.unlinked_file = Some [Sample.unlinked_line]
  /\ nth 4 Sample.unlinked_line "" <> GENESIS
  /\ verify_ledger_integrity (H := Sample.lib) Sample.unlinked_table = false.
Proof.
  split; [reflexivity |]. split; [reflexivity |].
  split; [discriminate | reflexivity].
Qed.

(** ** Transaction processor of [app.py] *)

Section AppFacts.
Context `{PyLib}.

Lemma status_is_active_false (s : Status) :
  s <> ACTIVE -> status_is_active s = false.
Proof. now destruct s. Qed.

Lemma status_is_active_true (s : Status) :
  s = ACTIVE -> status_is_active s = true.
Proof. now intros ->. Qed.

Lemma app_process_transaction_blocked
      (clk : Clock) (st : State) (cid sch : string) (amt : Q) :
  SYSTEM_STATUS st <> ACTIVE ->
  App.process_transaction clk st cid sch amt
  = (st, App.Denied "system" (blocked_message (SYSTEM_STATUS st)) None).
Proof.
  intros Hs. unfold App.process_transaction.
  now rewrite (status_is_active_false _ Hs).
Qed.

(** No path of [process_transaction] in [app.py] writes to table
    [citizens]. *)
Lemma app_process_transaction_citizens
      (clk : Clock) (st : State) (cid sch : string) (amt : Q) :
  citizens (fst (App.process_transaction clk st cid sch amt)) = citizens st.
Proof.
  unfold App.process_transaction.
  destruct (status_is_active (SYSTEM_STATUS st)); [| reflexivity].
  destruct (verify_ledger_integrity st); [| reflexivity].
  destruct (get_citizen_record st cid) as [row|]; [| reflexivity].
  cbn [negb].
  destruct (App.eligibility_gate row sch amt) as [[|] ?]; [| reflexivity].
  pose proof (app_budget_gate_tables st amt) as [_ Hc].
  destruct (App.budget_gate st amt) as [st1 [[|] ?]]; [| exact Hc].
  destruct (App.frequency_gate clk (Last_Claim_Date row)) as [[|] ?];
    [| exact Hc].
  cbn [negb fst]. simpl in Hc.
  now destruct (Z.leb _ 0).
Qed.

(** The outcome of [process_transaction] in [app.py] once the request has
    reached the gates. *)
Lemma app_gate_order
      (clk : Clock) (st : State) (cid sch : string) (amt : Q)
      (row : Citizen) :
  SYSTEM_STATUS st = ACTIVE ->
  verify_ledger_integrity st = true ->
  get_citizen_record st cid = Some row ->
  let e := App.eligibility_gate row sch amt in
  let b := App.budget_gate st amt in
  let f := App.frequency_gate clk (Last_Claim_Date row) in
  let res := App.process_transaction clk st cid sch amt in
  (fst e = false ->
   res = (st, App.Denied "eligibility" (snd e) (Some (Name row))))
  /\ (fst e = true -> fst (snd b) = false ->
      res = (fst b, App.Denied "budget" (snd (snd b)) (Some (Name row))))
  /\ (fst e = true -> fst (snd b) = true -> fst f = false ->
      res = (fst b, App.Denied "frequency" (snd f) (Some (Name row))))
  /\ (fst e = true -> fst (snd b) = true -> fst f = true ->
      App.success (snd res) = true)
  /\ match first_failure [e; snd b; f] with
     | Some msg =>
         App.success (snd res) = false /\ App.message (snd res) = msg
     | None => App.success (snd res) = true
     end.
Proof.
  intros Hs Hv Hrow e b f res. subst res e b f.
  unfold App.process_transaction.
  rewrite (status_is_active_true _ Hs), Hv, Hrow. cbn [negb].
  destruct (App.eligibility_gate row sch amt) as [[|] me];
    destruct (App.budget_gate st amt) as [st1 [[|] mb]];
    destruct (App.frequency_gate clk (Last_Claim_Date row)) as [[|] mf];
    cbn [negb fst snd first_failure App.success App.message];
    repeat split; intros; try discriminate; reflexivity.
Qed.

End AppFacts.

(** ** Transaction processor of [fraud-dection.py] *)

Section SqliteFacts.
Context `{PyLib}.

Lemma sqlite_process_transaction_blocked
      (clk : Clock) (st : State) (cid sch : string) (amt : Q) :
  SYSTEM_STATUS st <> ACTIVE ->
  Sqlite.process_transaction clk st cid sch amt
  = (st, blocked_message (SYSTEM_STATUS st)).
Proof.
  intros Hs. unfold Sqlite.process_transaction.
  now rewrite (status_is_active_false _ Hs).
Qed.

Lemma citizen_has_prior_claim_true (st : State) (cid : string) :
  Sqlite.citizen_has_prior_claim st cid = true
  <-> exists r : LedgerRow,
        In r (ledger_entries st) /\ citizen_hash r = hash_id cid.
Proof.
  unfold Sqlite.citizen_has_prior_claim. rewrite existsb_exists.
  split; intros (r & Hin & Hr); exists r; (split; [exact Hin |]);
    now apply String.eqb_eq.
Qed.

(** The outcome of [process_transaction] in [fraud-dection.py] once the
    request has passed the prior-claim check. *)
Lemma sqlite_gate_order
      (clk : Clock) (st : State) (cid sch : string) (amt : Q)
      (row : Citizen) :
  SYSTEM_STATUS st = ACTIVE ->
  verify_ledger_integrity st = true ->
  get_citizen_record st cid = Some row ->
  Sqlite.citizen_has_prior_claim st cid = false ->
  let e := Sqlite.eligibility_gate row sch amt in
  let f := Sqlite.frequency_gate clk (Last_Claim_Date row) in
  let b := Sqlite.budget_gate st amt in
  let res := Sqlite.process_transaction clk st cid sch amt in
  match first_failure [e; f; snd b] with
  | Some msg => res = (st, msg)
  | None =>
      let st' :=
        Sqlite.update_claim
          (insert_ledger_entry (new_entry clk st cid sch amt) st)
          (split_space_head (now_stamp clk)) cid in
      res = (st', sqlite_approved_message
                    (py_int (calculate_remaining_budget st')))
  end.
Proof.
  intros Hs Hv Hrow Hprior e f b res. subst res e f b.
  unfold Sqlite.process_transaction.
  rewrite (status_is_active_true _ Hs), Hv, Hrow, Hprior. cbn [negb].
  assert (Hid : Citizen_ID row = cid).
  { unfold get_citizen_record in Hrow.
    destruct (citizens st !! cid); [| discriminate].
    injection Hrow as <-. reflexivity. }
  pose proof (sqlite_budget_gate_state st amt) as Hb.
  destruct (Sqlite.eligibility_gate row sch amt) as [[|] me];
    destruct (Sqlite.frequency_gate clk (Last_Claim_Date row)) as [[|] mf];
    destruct (Sqlite.budget_gate st amt) as [st1 [[|] mb]];
    cbn [negb fst snd first_failure] in *; subst; try reflexivity.
Qed.

End SqliteFacts.

(** ** Transaction processor of [test_fraud.py] *)

Section FileProtoFacts.
Context `{PyLib}.

Lemma fileproto_gate_order
      (clk : Clock) (registry : list Citizen) (st : FileProto.State)
      (cid sch : string) (amt : Z) (row : Citizen) (f : bool * string) :
  FileProto.SYSTEM_STATUS st = ACTIVE ->
  FileProto.verify_ledger_integrity st = Some true ->
  FileProto.find_citizen registry cid = Some row ->
  FileProto.frequency_gate clk (Last_Claim_Date row) = Some f ->
  let e := FileProto.eligibility_gate row sch amt in
  let b := FileProto.budget_gate st amt in
  let res := FileProto.process_transaction clk registry st cid sch amt in
  match first_failure [e; f; snd b] with
  | Some msg => res = Some (st, msg)
  | None => exists st' : FileProto.State,
      res = Some (st', "Transaction Approved | Remaining Budget: Rs."
                         ++ int_str (FileProto.BUDGET st'))
  end.
Proof.
  intros Hs Hv Hrow Hf e b res. subst res e b.
  unfold FileProto.process_transaction.
  rewrite (status_is_active_true _ Hs), Hv, Hrow, Hf. cbn [negb].
  destruct (FileProto.eligibility_gate row sch amt) as [[|] me];
    destruct f as [[|] mf];
    cbn [negb fst snd first_failure]; try reflexivity.
  unfold FileProto.budget_gate.
  destruct (Z.gtb amt (FileProto.BUDGET st));
    cbn [negb fst snd first_failure]; [reflexivity |].
  eexists. reflexivity.
Qed.

End FileProtoFacts.

(** ** Gate order *)

(** C3 (as amended). A request that reaches the gates is answered with the
    reason of the first failing gate in the order of the variant that
    serves it: eligibility, budget, frequency in [app.py] (where a denial at
    eligibility leaves the state untouched, so the budget gate has not
    run); eligibility, frequency, budget in [fraud-dection.py] (after its
    prior-claim check) and in [test_fraud.py]. *)
Theorem gates_run_in_variant_order `{PyLib}
        (clk : Clock) (st : State) (cid sch : string) (amt : Q) (row : Citizen)
        (registry : list Citizen) (pst : FileProto.State) (pamt : Z)
        (prow : Citizen) (pf : bool * string) :
  (SYSTEM_STATUS st = ACTIVE ->
   verify_ledger_integrity st = true ->
   get_citizen_record st cid = Some row ->
   let e := App.eligibility_gate row sch amt in
   let b := App.budget_gate st amt in
   let f := App.frequency_gate clk (Last_Claim_Date row) in
   let res := App.process_transaction clk st cid sch amt in
   (fst e = false ->
    res = (st, App.Denied "eligibility" (snd e) (Some (Name row))))
   /\ (fst e = true -> fst (snd b) = false ->
       res = (fst b, App.Denied "budget" (snd (snd b)) (Some (Name row))))
   /\ (fst e = true -> fst (snd b) = true -> fst f = false ->
       res = (fst b, App.Denied "frequency" (snd f) (Some (Name row))))
   /\ (fst e = true -> fst (snd b) = true -> fst f = true ->
       App.success (snd res) = true)
   /\ match first_failure [e; snd b; f] with
      | Some msg =>
          App.success (snd res) = false /\ App.message (snd res) = msg
      | None => App.success (snd res) = true
      end)
  /\ (SYSTEM_STATUS st = ACTIVE ->
      verify_ledger_integrity st = true ->
      get_citizen_record st cid = Some row ->
      Sqlite.citizen_has_prior_claim st cid = false ->
      let e := Sqlite.eligibility_gate row sch amt in
      let f := Sqlite.frequency_gate clk (Last_Claim_Date row) in
      let b := Sqlite.budget_gate st amt in
      let res := Sqlite.process_transaction clk st cid sch amt in
      match first_failure [e; f; snd b] with
      | Some msg => res = (st, msg)
      | None =>
          let st' :=
            Sqlite.update_claim
              (insert_ledger_entry (new_entry clk st cid sch amt) st)
              (split_space_head (now_stamp clk)) cid in
          res = (st', sqlite_approved_message
                        (py_int (calculate_remaining_budget st')))
      end)
  /\ (FileProto.SYSTEM_STATUS pst = ACTIVE ->
      FileProto.verify_ledger_integrity pst = Some true ->
      FileProto.find_citizen registry cid = Some prow ->
      FileProto.frequency_gate clk (Last_Claim_Date prow) = Some pf ->
      let e := FileProto.eligibility_gate prow sch pamt in
      let b := FileProto.budget_gate pst pamt in
      let res := FileProto.process_transaction clk registry pst cid sch pamt in
      match first_failure [e; pf; snd b] with
      | Some msg => res = Some (pst, msg)
      | None => exists st' : FileProto.State,
          res = Some (st', "Transaction Approved | Remaining Budget: Rs."
                             ++ int_str (FileProto.BUDGET st'))
      end).
Proof.
  split; [apply app_gate_order |].
  split; [apply sqlite_gate_order | apply fileproto_gate_order].
Qed.

Lemma gates_run_in_variant_order_witness :
  SYSTEM_STATUS Sample.start = ACTIVE
  /\ verify_ledger_integrity (H := Sample.lib) Sample.start = true
  /\ get_citizen_record Sample.start "333344445555"
     = Some Sample.recent_claimant_record
  /\ App.process_transaction (H := Sample.lib) Sample.clock Sample.start
       "333344445555" "Health_Scheme" 5000%Q
     = (Sample.start,
        App.Denied "frequency"
          "Claim within 30 days not allowed (Last claim: 10 days ago)"
          (Some "Recent Claimant")).
Proof.
  assert (Hs : SYSTEM_STATUS Sample.start = ACTIVE) by reflexivity.
  assert (Hv : verify_ledger_integrity (H := Sample.lib) Sample.start = true)
    by reflexivity.
  assert (Hr : get_citizen_record Sample.start "333344445555"
               = Some Sample.recent_claimant_record) by reflexivity.
  split; [exact Hs | split; [exact Hv | split; [exact Hr |]]].
  pose proof (proj1 (gates_run_in_variant_order (H := Sample.lib)
                Sample.clock Sample.start "333344445555" "Health_Scheme"
                5000%Q Sample.recent_claimant_record [] Sample.unlinked_file
                0 Sample.amit (true, "")) Hs Hv Hr) as Ho.
  cbv zeta in Ho. destruct Ho as (_ & _ & Hf & _).
  rewrite Hf; reflexivity.
Defined.

(** C3, the claim as stated fails: for a request that fails the budget gate
    and the frequency gate, the canonical order names the budget reason,
    while [process_transaction] of [fraud-dection.py] reports the frequency
    reason. *)
Lemma sqlite_reports_frequency_before_budget :
  first_failure
    [ Sqlite.eligibility_gate Sample.large_claimant_record
        "Housing_Scheme" 2000000%Q;
      snd (Sqlite.budget_gate Sample.start 2000000%Q);
      Sqlite.frequency_gate (H := Sample.lib) Sample.clock
        (Last_Claim_Date Sample.large_claimant_record) ]
  = Some "Insufficient Budget"
  /\ Sqlite.process_transaction (H := Sample.lib) Sample.clock Sample.start
       "222233334444" "Housing_Scheme" 2000000%Q
     = (Sample.start, "Claim within 30 days not allowed").
Proof. split; reflexivity. Qed.

(** ** One disbursement per citizen in [fraud-dection.py] *)

(** C10. In [fraud-dection.py], once the status and integrity checks have
    passed, a request for a citizen whose fingerprint already occurs in the
    ledger is answered "Citizen Not Found" when the citizen is unknown and
    "Claim already settled" otherwise, with the state unchanged: the check
    comes after the lookup and before the three gates, whose verdicts do
    not matter. *)
Theorem prior_claim_denied_before_gates `{PyLib}
        (clk : Clock) (st : State) (cid sch : string) (amt : Q)
        (r : LedgerRow) :
  SYSTEM_STATUS st = ACTIVE ->
  verify_ledger_integrity st = true ->
  In r (ledger_entries st) ->
  citizen_hash r = hash_id cid ->
  Sqlite.process_transaction clk st cid sch amt
  = (st, match get_citizen_record st cid with
         | None => "Citizen Not Found"
         | Some _ => "Claim already settled"
         end).
Proof.
  intros Hs Hv Hin Hr.
  assert (Hp : Sqlite.citizen_has_prior_claim st cid = true).
  { apply citizen_has_prior_claim_true. now exists r. }
  unfold Sqlite.process_transaction.
  rewrite (status_is_active_true _ Hs), Hv. cbn [negb].
  destruct (get_citizen_record st cid); [| reflexivity].
  now rewrite Hp.
Qed.

Lemma prior_claim_denied_before_gates_witness :
  SYSTEM_STATUS Sample.paid_once = ACTIVE
  /\ verify_ledger_integrity (H := Sample.lib) Sample.paid_once = true
  /\ In Sample.health_payment (ledger_entries Sample.paid_once)
  /\ citizen_hash Sample.health_payment
     = hash_id (H := Sample.lib) "123456789012"
  /\ Sqlite.process_transaction (H := Sample.lib) Sample.clock
       Sample.paid_once "123456789012" "Health_Scheme" 5000%Q
     = (Sample.paid_once, "Claim already settled").
Proof.
  assert (Hs : SYSTEM_STATUS Sample.paid_once = ACTIVE) by reflexivity.
  assert (Hv : verify_ledger_integrity (H := Sample.lib) Sample.paid_once = true)
    by reflexivity.
  assert (Hin : In Sample.health_payment (ledger_entries Sample.paid_once))
    by (left; reflexivity).
  assert (Hh : citizen_hash Sample.health_payment
               = hash_id (H := Sample.lib) "123456789012") by reflexivity.
  repeat (split; [assumption |]).
  exact (prior_claim_denied_before_gates (H := Sample.lib) Sample.clock
           Sample.paid_once "123456789012" "Health_Scheme" 5000%Q
           Sample.health_payment Hs Hv Hin Hh).
Defined.

(** ** Claim history *)

Section ClaimHistory.
Context `{PyLib}.

(** In [fraud-dection.py] every call either leaves both tables as they
    were, or appends one ledger row and, for the citizen served, adds one
    to [claim_count] and stores the date of the disbursement, leaving all
    other citizens as they were. *)
Lemma sqlite_records_claim_on_approval
      (clk : Clock) (st : State) (cid sch : string) (amt : Q) :
  let res := Sqlite.process_transaction clk st cid sch amt in
  (ledger_entries (fst res) = ledger_entries st
   /\ citizens (fst res) = citizens st)
  \/ (exists old : CitizenRow,
        citizens st !! cid = Some old
        /\ ledger_entries (fst res)
           = (ledger_entries st ++ [new_entry clk st cid sch amt])%list
        /\ citizens (fst res) !! cid
           = Some (Sqlite.record_claim (split_space_head (now_stamp clk)) old)
        /\ claim_count (Sqlite.record_claim
                          (split_space_head (now_stamp clk)) old)
           = claim_count old + 1
        /\ (forall k : string,
              k <> cid -> citizens (fst res) !! k = citizens st !! k)).
Proof.
  intros res. subst res.
  destruct (status_is_active (SYSTEM_STATUS st)) eqn:Hs.
  2:{ left. unfold Sqlite.process_transaction. now rewrite Hs. }
  destruct (verify_ledger_integrity st) eqn:Hv.
  2:{ left. unfold Sqlite.process_transaction. now rewrite Hs, Hv. }
  destruct (get_citizen_record st cid) as [row|] eqn:Hrow.
  2:{ left. unfold Sqlite.process_transaction. now rewrite Hs, Hv, Hrow. }
  destruct (Sqlite.citizen_has_prior_claim st cid) eqn:Hp.
  { left. unfold Sqlite.process_transaction. now rewrite Hs, Hv, Hrow, Hp. }
  assert (Ha : SYSTEM_STATUS st = ACTIVE) by (now destruct (SYSTEM_STATUS st)).
  pose proof (sqlite_gate_order clk st cid sch amt row Ha Hv Hrow Hp) as Ho.
  cbv zeta in Ho.
  destruct (first_failure _) as [msg|].
  { left. now rewrite Ho. }
  right. rewrite Ho. cbn [fst].
  unfold get_citizen_record in Hrow.
  destruct (citizens st !! cid) as [old|] eqn:Hold; [| discriminate].
  exists old. split; [reflexivity |]. split; [reflexivity |].
  unfold Sqlite.update_claim; cbn [citizens set_citizens insert_ledger_entry].
  split; [| split; [reflexivity |]].
  - rewrite lookup_alter_eq, Hold. reflexivity.
  - intros k Hk. now rewrite lookup_alter_ne.
Qed.

End ClaimHistory.

(** C1 (the service of [app.py] does not record the claim). The sample
    citizen is approved and a ledger row is appended, yet the citizen's
    record is exactly what it was, so an identical request made at once is
    approved again; the same kind of request served by [fraud-dection.py]
    raises [claim_count] to 1 and stores the date of the disbursement. *)
Theorem app_approval_leaves_claim_history :
  let r1 := App.process_transaction (H := Sample.lib) Sample.clock Sample.start
              "123456789012" "Health_Scheme" 5000%Q in
  let r2 := App.process_transaction (H := Sample.lib) Sample.clock (fst r1)
              "123456789012" "Health_Scheme" 5000%Q in
  let s1 := Sqlite.process_transaction (H := Sample.lib) Sample.clock
              Sample.start "111122223333" "Health_Scheme" 5000%Q in
  App.success (snd r1) = true
  /\ List.length (ledger_entries (fst r1)) = 1%nat
  /\ citizens (fst r1) = citizens Sample.start
  /\ get_citizen_record (fst r1) "123456789012" = Some Sample.rahul_record
  /\ App.success (snd r2) = true
  /\ List.length (ledger_entries (fst r2)) = 2%nat
  /\ snd s1 = sqlite_approved_message 995000
  /\ claim_count <$> (citizens (fst s1) !! "111122223333") = Some 1
  /\ last_claim_date <$> (citizens (fst s1) !! "111122223333")
     = Some "2025-03-01".
Proof.
  cbv zeta. split; [vm_compute; reflexivity |].
  split; [vm_compute; reflexivity |].
  split; [apply app_process_transaction_citizens |].
  repeat split; vm_compute; reflexivity.
Qed.

(** ** Status machine *)

Lemma upsert_citizen_frame (st : State) (cid : string) (record : CitizenRow) :
  ledger_entries (App.upsert_citizen st cid record) = ledger_entries st
  /\ SYSTEM_STATUS (App.upsert_citizen st cid record) = SYSTEM_STATUS st.
Proof. unfold App.upsert_citizen. now destruct (App.int_columns_fit record). Qed.

Section StatusFacts.
Context `{PyLib}.

Lemma app_process_blocked (clk : Clock) (st : State) (data : App.ProcessBody) :
  SYSTEM_STATUS st <> ACTIVE -> fst (App.process clk st data) = st.
Proof.
  intros Hs. unfold App.process.
  destruct (App.get_expected_scheme_amount _); [| reflexivity].
  destruct (App.amount_mismatch _ _); [reflexivity |].
  now rewrite app_process_transaction_blocked.
Qed.

Lemma app_step_blocked (st : State) (o : App.Op) :
  SYSTEM_STATUS st <> ACTIVE ->
  SYSTEM_STATUS (App.step st o) <> ACTIVE
  /\ ledger_entries (App.step st o) = ledger_entries st.
Proof.
  intros Hs. destruct o as [clk cid sch amt | clk data | amt | | cid rec];
    cbn [App.step].
  - now rewrite app_process_transaction_blocked.
  - now rewrite app_process_blocked.
  - split; [| apply app_budget_gate_tables].
    destruct (app_budget_gate_status st amt) as [-> | ->];
      [exact Hs | discriminate].
  - now split.
  - destruct (upsert_citizen_frame st cid rec) as [Hl Hst].
    now rewrite Hl, Hst.
Qed.

Lemma app_run_blocked (ops : list App.Op) :
  forall st : State,
    SYSTEM_STATUS st <> ACTIVE ->
    SYSTEM_STATUS (App.run st ops) <> ACTIVE
    /\ ledger_entries (App.run st ops) = ledger_entries st.
Proof.
  induction ops as [|o ops IH]; intros st Hs; [now split |].
  destruct (app_step_blocked st o Hs) as [Hs' Hl'].
  destruct (IH (App.step st o) Hs') as [Hs'' Hl''].
  cbn [App.run fold_left]. fold (App.run (App.step st o) ops).
  split; [exact Hs'' | congruence].
Qed.

Lemma sqlite_step_blocked (st : State) (o : Sqlite.Op) :
  SYSTEM_STATUS st <> ACTIVE -> Sqlite.step st o = st.
Proof.
  intros Hs. destruct o as [clk cid sch amt | amt]; cbn [Sqlite.step].
  - now rewrite sqlite_process_transaction_blocked.
  - apply sqlite_budget_gate_state.
Qed.

Lemma sqlite_run_blocked (ops : list Sqlite.Op) (st : State) :
  SYSTEM_STATUS st <> ACTIVE -> Sqlite.run st ops = st.
Proof.
  intros Hs. induction ops as [|o ops IH]; [reflexivity |].
  cbn [Sqlite.run fold_left]. rewrite (sqlite_step_blocked st o Hs).
  exact IH.
Qed.

End StatusFacts.

(** C6. Once the status is LOCKED or FROZEN, no sequence of operations of
    the core makes it ACTIVE again or changes the ledger, and every later
    [process_transaction] call returns at once with the system-blocked
    reason and the state untouched; this holds for [app.py] and for
    [fraud-dection.py]. *)
Theorem blocked_status_is_terminal `{PyLib}
        (st : State) (ops : list App.Op) (sops : list Sqlite.Op)
        (clk : Clock) (cid sch : string) (amt : Q) :
  SYSTEM_STATUS st <> ACTIVE ->
  (SYSTEM_STATUS (App.run st ops) <> ACTIVE
   /\ ledger_entries (App.run st ops) = ledger_entries st
   /\ App.process_transaction clk (App.run st ops) cid sch amt
      = (App.run st ops,
         App.Denied "system"
           (blocked_message (SYSTEM_STATUS (App.run st ops))) None))
  /\ (Sqlite.run st sops = st
      /\ Sqlite.process_transaction clk (Sqlite.run st sops) cid sch amt
         = (st, blocked_message (SYSTEM_STATUS st))).
Proof.
  intros Hs. destruct (app_run_blocked ops st Hs) as [Hs' Hl'].
  split.
  - split; [exact Hs' | split; [exact Hl' |]].
    now apply app_process_transaction_blocked.
  - rewrite (sqlite_run_blocked sops st Hs). split; [reflexivity |].
    now apply sqlite_process_transaction_blocked.
Qed.

Lemma blocked_status_is_terminal_witness :
  SYSTEM_STATUS Sample.frozen <> ACTIVE
  /\ App.process_transaction (H := Sample.lib) Sample.clock
       (App.run (H := Sample.lib) Sample.frozen Sample.later_requests)
       "123456789012" "Health_Scheme" 5000%Q
     = (App.run (H := Sample.lib) Sample.frozen Sample.later_requests,
        App.Denied "system"
          (blocked_message
             (SYSTEM_STATUS
                (App.run (H := Sample.lib) Sample.frozen Sample.later_requests)))
          None).
Proof.
  assert (Hs : SYSTEM_STATUS Sample.frozen <> ACTIVE) by discriminate.
  split; [exact Hs |].
  exact (proj2 (proj2 (proj1
           (blocked_status_is_terminal (H := Sample.lib) Sample.frozen
              Sample.later_requests [] Sample.clock "123456789012"
              "Health_Scheme" 5000%Q Hs)))).
Defined.

Example blocked_sample_message :
  blocked_message
    (SYSTEM_STATUS (App.run (H := Sample.lib) Sample.frozen Sample.later_requests))
  = "System is FROZEN. Transaction Blocked.".
Proof. reflexivity. Qed.

(** ** The [/process] route *)

Section ProcessFacts.
Context `{PyLib}.

Lemma submitted_amount_zero (data : App.ProcessBody) :
  amount_missing_unparsable_or_zero data ->
  (App.submitted_amount_of data == 0)%Q.
Proof.
  unfold amount_missing_unparsable_or_zero, App.submitted_amount_of.
  destruct (App.body_amount data) as [v|]; cbn [default from_option id].
  - destruct (App.py_float v); [tauto | reflexivity].
  - reflexivity.
Qed.

Lemma amount_mismatch_skipped (submitted expected : Q) :
  (submitted == 0)%Q -> App.amount_mismatch submitted expected = false.
Proof.
  intros Hz. unfold App.amount_mismatch, App.float_truthy.
  apply Qeq_bool_iff in Hz. now rewrite Hz.
Qed.

(** [process_transaction] in [app.py] leaves the ledger as it was or
    appends one row that carries the scheme and the amount it was called
    with. *)
Lemma app_process_transaction_ledger
      (clk : Clock) (st : State) (cid sch : string) (amt : Q) :
  let st' := fst (App.process_transaction clk st cid sch amt) in
  ledger_entries st' = ledger_entries st
  \/ exists row : LedgerRow,
       ledger_entries st' = (ledger_entries st ++ [row])%list
       /\ scheme row = sch /\ amount row = amt
       /\ timestamp row = now_stamp clk.
Proof.
  cbv zeta. unfold App.process_transaction.
  destruct (status_is_active (SYSTEM_STATUS st)); [| now left].
  destruct (verify_ledger_integrity st); [| now left].
  destruct (get_citizen_record st cid) as [row|]; [| now left].
  cbn [negb].
  destruct (App.eligibility_gate row sch amt) as [[|] ?]; [| now left].
  pose proof (app_budget_gate_tables st amt) as [Hl _].
  destruct (App.budget_gate st amt) as [st1 [[|] ?]]; [| now left].
  destruct (App.frequency_gate clk (Last_Claim_Date row)) as [[|] ?];
    [| now left].
  cbn [negb fst] in *. right.
  exists (new_entry clk st1 cid sch amt).
  split; [| repeat split].
  destruct (Z.leb _ 0); cbn [ledger_entries set_status insert_ledger_entry];
    now rewrite Hl.
Qed.

End ProcessFacts.

(** C9. When the submitted amount of a [/process] request is missing,
    unparsable or zero, the amount pre-check does not fire: the request is
    refused only if the scheme has no catalog amount and otherwise goes to
    [process_transaction] with the catalog amount of the scheme.  For every
    request, the route leaves the ledger as it was or appends one row whose
    amount is the catalog amount of its scheme. *)
Theorem process_substitutes_catalog_amount `{PyLib}
        (clk : Clock) (st : State) (data : App.ProcessBody) :
  (amount_missing_unparsable_or_zero data ->
   (forall expected : Q,
      App.amount_mismatch (App.submitted_amount_of data) expected = false)
   /\ App.process clk st data
      = match App.get_expected_scheme_amount
                (App.body_text (App.body_scheme data)) with
        | None => (st, App.Denied "eligibility" "Unsupported scheme" None)
        | Some expected_amount =>
            App.process_transaction clk st
              (App.body_text (App.body_citizen_id data))
              (App.body_text (App.body_scheme data)) expected_amount
        end)
  /\ (ledger_entries (fst (App.process clk st data)) = ledger_entries st
      \/ exists row : LedgerRow,
           ledger_entries (fst (App.process clk st data))
           = (ledger_entries st ++ [row])%list
           /\ App.get_expected_scheme_amount (scheme row) = Some (amount row)).
Proof.
  split.
  - intros Hz. apply submitted_amount_zero in Hz.
    split; [intros expected; now apply amount_mismatch_skipped |].
    unfold App.process.
    destruct (App.get_expected_scheme_amount _); [| reflexivity].
    now rewrite amount_mismatch_skipped.
  - unfold App.process.
    destruct (App.get_expected_scheme_amount
                (App.body_text (App.body_scheme data))) as [e|] eqn:He;
      [| now left].
    destruct (App.amount_mismatch _ _); [now left |].
    destruct (app_process_transaction_ledger clk st
                (App.body_text (App.body_citizen_id data))
                (App.body_text (App.body_scheme data)) e)
      as [Hl | (row & Hl & Hsch & Hamt & _)]; [now left |].
    right. exists row. split; [exact Hl |]. now rewrite Hsch, Hamt.
Qed.

Lemma process_substitutes_catalog_amount_witness :
  amount_missing_unparsable_or_zero (H := Sample.lib) Sample.body_without_amount
  /\ App.process (H := Sample.lib) Sample.clock Sample.start
       Sample.body_without_amount
     = App.process_transaction (H := Sample.lib) Sample.clock Sample.start
         "123456789012" "Health_Scheme" 5000%Q.
Proof.
  assert (Hz : amount_missing_unparsable_or_zero (H := Sample.lib)
                 Sample.body_without_amount) by exact I.
  split; [exact Hz |].
  exact (proj2 (proj1 (process_substitutes_catalog_amount (H := Sample.lib)
                         Sample.clock Sample.start Sample.body_without_amount)
                  Hz)).
Defined.

Example process_unparsable_amount :
  amount_missing_unparsable_or_zero (H := Sample.lib)
    {| App.body_citizen_id := Some (VStr "123456789012");
       App.body_scheme := Some (VStr "Health_Scheme");
       App.body_amount := Some (VStr "five thousand") |}
  /\ amount (List.last
       (ledger_entries
          (fst (App.process (H := Sample.lib) Sample.clock Sample.start
                  {| App.body_citizen_id := Some (VStr "123456789012");
                     App.body_scheme := Some (VStr "Health_Scheme");
                     App.body_amount := Some (VStr "five thousand") |})))
       Sample.negative_entry) = 5000%Q.
Proof. split; [exact I | reflexivity]. Qed.

(** ** Amounts that reach the ledger *)

Section LedgerAmounts.
Context `{PyLib}.

Lemma catalog_amounts_positive (sch : string) (e : Q) :
  App.get_expected_scheme_amount sch = Some e -> (5000 <= e)%Q.
Proof.
  unfold App.get_expected_scheme_amount, App.SCHEME_AMOUNT_MAP.
  cbn [App.dict_get].
  repeat (destruct (String.eqb _ sch);
          [intros [= <-]; vm_compute; discriminate |]).
  discriminate.
Qed.

Lemma app_gate_approves_positive (row : Citizen) (sch : string) (amt : Q) :
  fst (App.eligibility_gate row sch amt) = true -> (0 <= amt)%Q.
Proof.
  unfold App.eligibility_gate.
  destruct (negb (String.eqb (Account_Status row) "Active")); [discriminate |].
  destruct (negb (Aadhaar_Linked row)); [discriminate |].
  destruct (negb (String.eqb (Scheme_Eligibility row) sch)); [discriminate |].
  destruct (App.get_expected_scheme_amount sch) as [e|] eqn:He;
    [| discriminate].
  destruct (Qgtb (Qabs (Scheme_Amount row - e)) App.AMOUNT_TOLERANCE);
    [discriminate |].
  destruct (Qgtb (Qabs (amt - e)) App.AMOUNT_TOLERANCE) eqn:Ha;
    [discriminate |].
  intros _. apply Qgtb_false in Ha. apply catalog_amounts_positive in He.
  apply Qabs_Qle_condition in Ha. destruct Ha as [Hlo _].
  unfold App.AMOUNT_TOLERANCE in Hlo. lra.
Qed.

(** In [app.py] no call of [process_transaction] raises the remaining
    budget. *)
Lemma app_process_transaction_budget
      (clk : Clock) (st : State) (cid sch : string) (amt : Q) :
  (calculate_remaining_budget
     (fst (App.process_transaction clk st cid sch amt))
   <= calculate_remaining_budget st)%Q.
Proof.
  unfold App.process_transaction.
  destruct (status_is_active (SYSTEM_STATUS st)); [| apply Qle_refl].
  destruct (verify_ledger_integrity st); [| apply Qle_refl].
  destruct (get_citizen_record st cid) as [row|]; [| apply Qle_refl].
  cbn [negb].
  pose proof (app_gate_approves_positive row sch amt) as Hpos.
  destruct (App.eligibility_gate row sch amt) as [[|] ?]; [| apply Qle_refl].
  specialize (Hpos eq_refl).
  pose proof (app_budget_gate_tables st amt) as [Hl _].
  destruct (App.budget_gate st amt) as [st1 [[|] ?]]; cbn [negb fst] in *.
  2:{ unfold calculate_remaining_budget. rewrite Hl. apply Qle_refl. }
  destruct (App.frequency_gate clk (Last_Claim_Date row)) as [[|] ?];
    cbn [negb fst].
  2:{ unfold calculate_remaining_budget. rewrite Hl. apply Qle_refl. }
  assert (Hstep :
    (remaining_of INITIAL_BUDGET
       (ledger_entries st ++ [new_entry clk st1 cid sch amt])
     <= remaining_of INITIAL_BUDGET (ledger_entries st))%Q)
    by (now apply remaining_of_snoc_le).
  destruct (Z.leb _ 0); unfold calculate_remaining_budget;
    cbn [ledger_entries set_status insert_ledger_entry];
    rewrite Hl; exact Hstep.
Qed.

End LedgerAmounts.

(** In [fraud-dection.py] a registry row with a negative scheme amount is
    approved for that amount, and the remaining budget grows. *)
Example sqlite_negative_amount_run :
  let st := set_citizens (<["444455556666" := Sample.negative_scheme]>
                            Sample.registry) Sample.start in
  let res := Sqlite.process_transaction (H := Sample.lib) Sample.clock st
               "444455556666" "Health_Scheme" (-5000)%Q in
  snd res = sqlite_approved_message 1005000
  /\ ~ (calculate_remaining_budget (fst res) <= calculate_remaining_budget st)%Q.
Proof.
  cbv zeta. split; [vm_compute; reflexivity |].
  vm_compute. intros Hle. now apply Hle.
Qed.

(** * Further properties of the code *)

(** ** Order of the fetched rows *)

Lemma string_leb_cases (a b : string) :
  String.leb a b = true <-> a = b \/ String_as_OT.lt a b.
Proof.
  unfold String.leb. split.
  - destruct (String.compare a b) eqn:E; [| | discriminate]; intros _.
    + left. now apply String.compare_eq_iff.
    + right. now apply String_as_OT.cmp_lt.
  - intros [-> | Hlt].
    + destruct (String.compare b b) eqn:E; try reflexivity.
      pose proof (String.compare_antisym b b) as Ha. rewrite E in Ha.
      discriminate Ha.
    + apply String_as_OT.cmp_lt in Hlt. unfold String_as_OT.cmp in Hlt.
      now rewrite Hlt.
Qed.

Lemma string_leb_refl (a : string) : String.leb a a = true.
Proof. apply string_leb_cases. now left. Qed.

Lemma string_leb_trans (a b c : string) :
  String.leb a b = true -> String.leb b c = true -> String.leb a c = true.
Proof.
  rewrite !string_leb_cases. intros [-> | Hab] [-> | Hbc]; auto.
  right. exact (String_as_OT.lt_trans _ _ _ Hab Hbc).
Qed.

Lemma string_leb_false (a b : string) :
  String.leb a b = false -> String.leb b a = true.
Proof.
  intros Hf. destruct (String.leb_total a b) as [Ht | Ht]; [congruence | exact Ht].
Qed.

Lemma insert_by_timestamp_perm (r : LedgerRow) (rows : list LedgerRow) :
  Permutation (insert_by_timestamp r rows) (r :: rows).
Proof.
  induction rows as [|x rest IH]; simpl; [reflexivity |].
  destruct (String.leb (timestamp r) (timestamp x)); [reflexivity |].
  rewrite IH. apply perm_swap.
Qed.

Lemma order_by_timestamp_perm (rows : list LedgerRow) :
  Permutation (order_by_timestamp rows) rows.
Proof.
  induction rows as [|r rest IH]; simpl; [reflexivity |].
  rewrite insert_by_timestamp_perm. now constructor.
Qed.

Lemma insert_by_timestamp_sorted (r : LedgerRow) (rows : list LedgerRow) :
  StronglySorted ts_le rows -> StronglySorted ts_le (insert_by_timestamp r rows).
Proof.
  induction 1 as [|x rest Hs IH Hx]; simpl.
  - repeat constructor.
  - destruct (String.leb (timestamp r) (timestamp x)) eqn:E.
    + constructor; [now constructor |].
      constructor; [exact E |].
      eapply Forall_impl; [exact Hx |].
      intros y Hy. exact (string_leb_trans _ _ _ E Hy).
    + constructor; [exact IH |].
      rewrite (insert_by_timestamp_perm r rest).
      constructor; [| exact Hx].
      now apply string_leb_false.
Qed.

Lemma order_by_timestamp_sorted (rows : list LedgerRow) :
  StronglySorted ts_le (order_by_timestamp rows).
Proof.
  induction rows as [|r rest IH]; simpl; [constructor |].
  now apply insert_by_timestamp_sorted.
Qed.

(** X1. [fetch_ledger_rows] returns every row of the table exactly once, in
    non-decreasing order of timestamp. *)
Theorem fetch_ledger_rows_sorted_permutation (st : State) :
  Permutation (fetch_ledger_rows st) (ledger_entries st)
  /\ StronglySorted ts_le (fetch_ledger_rows st).
Proof.
  split; [apply order_by_timestamp_perm | apply order_by_timestamp_sorted].
Qed.

Lemma later_of_assoc (a b c : LedgerRow) :
  later_of (later_of a b) c = later_of a (later_of b c).
Proof.
  unfold later_of.
  destruct (String.leb (timestamp a) (timestamp b)) eqn:Eab;
    destruct (String.leb (timestamp b) (timestamp c)) eqn:Ebc;
    rewrite ?Eab, ?Ebc; try reflexivity.
  - now rewrite (string_leb_trans _ _ _ Eab Ebc).
  - destruct (String.leb (timestamp a) (timestamp c)) eqn:Eac; [| reflexivity].
    apply string_leb_false in Ebc.
    rewrite (string_leb_trans _ _ _ Eac Ebc) in Eab. discriminate.
Qed.

Lemma last_insert_by_timestamp (r : LedgerRow) (rows : list LedgerRow) :
  StronglySorted ts_le rows ->
  last (insert_by_timestamp r rows)
  = Some (match last rows with None => r | Some m => later_of r m end).
Proof.
  induction 1 as [|x rest Hs IH Hx]; [reflexivity |].
  cbn [insert_by_timestamp].
  destruct (String.leb (timestamp r) (timestamp x)) eqn:E.
  - rewrite (last_cons r (x :: rest)).
    destruct (last (x :: rest)) as [m|] eqn:Hl; [| now rewrite last_cons in Hl;
                                                   destruct (last rest)].
    f_equal. unfold later_of.
    assert (Hm : ts_le x m).
    { rewrite last_cons in Hl. destruct (last rest) as [m'|] eqn:Hr.
      - injection Hl as <-. rewrite Forall_forall in Hx. apply Hx.
        apply last_Some in Hr as [l' ->]. apply elem_of_app. right.
        apply list_elem_of_singleton. reflexivity.
      - injection Hl as <-. apply string_leb_refl. }
    now rewrite (string_leb_trans _ _ _ E Hm).
  - rewrite last_cons, IH, (last_cons x rest).
    destruct (last rest) as [m|]; [reflexivity |].
    unfold later_of. now rewrite E.
Qed.

Lemma latest_row_from (rows : list LedgerRow) :
  forall b : LedgerRow,
    latest_row (Some b) rows
    = Some (match last (order_by_timestamp rows) with
            | None => b
            | Some m => later_of b m
            end).
Proof.
  induction rows as [|x rest IH]; intros b; [reflexivity |].
  cbn [latest_row order_by_timestamp].
  fold (later_of b x). rewrite IH.
  rewrite (last_insert_by_timestamp x _ (order_by_timestamp_sorted rest)).
  destruct (last (order_by_timestamp rest)) as [m|]; [| reflexivity].
  now rewrite later_of_assoc.
Qed.

Lemma latest_row_last (rows : list LedgerRow) :
  latest_row None rows = last (order_by_timestamp rows).
Proof.
  destruct rows as [|x rest]; [reflexivity |].
  cbn [latest_row order_by_timestamp]. rewrite latest_row_from.
  now rewrite (last_insert_by_timestamp x _ (order_by_timestamp_sorted rest)).
Qed.

Lemma get_previous_hash_last (st : State) :
  get_previous_hash st
  = from_option current_hash GENESIS (last (fetch_ledger_rows st)).
Proof.
  unfold get_previous_hash, fetch_ledger_rows. rewrite latest_row_last.
  now destruct (last _).
Qed.

(** X2. The tail that [get_previous_hash] reads
    ([ORDER BY timestamp DESC, id DESC LIMIT 1]) is the last row that
    [fetch_ledger_rows] returns: the hash handed to a new entry is the
    stored hash of the entry the integrity check visits last, or the
    genesis sentinel for an empty ledger. *)
Theorem get_previous_hash_is_last_fetched (st : State) :
  get_previous_hash st
  = match last (fetch_ledger_rows st) with
    | None => GENESIS
    | Some r => current_hash r
    end.
Proof. rewrite get_previous_hash_last. now destruct (last _). Qed.

(** ** Appending keeps the chain verifiable *)

Lemma insert_by_timestamp_snoc (x r : LedgerRow) (rows : list LedgerRow) :
  ts_le x r ->
  insert_by_timestamp x (rows ++ [r]) = (insert_by_timestamp x rows ++ [r])%list.
Proof.
  intros Hxr. induction rows as [|y rest IH]; simpl.
  - unfold ts_le in Hxr. now rewrite Hxr.
  - destruct (String.leb (timestamp x) (timestamp y)); [reflexivity |].
    now rewrite IH.
Qed.

Lemma order_by_timestamp_snoc (rows : list LedgerRow) (r : LedgerRow) :
  Forall (fun x => ts_le x r) rows ->
  order_by_timestamp (rows ++ [r]) = (order_by_timestamp rows ++ [r])%list.
Proof.
  induction 1 as [|x rest Hx Hrest IH]; [reflexivity |].
  cbn [app order_by_timestamp]. rewrite IH.
  now apply insert_by_timestamp_snoc.
Qed.

Section AppendFacts.
Context `{PyLib}.

Lemma verify_rows_snoc (rows : list LedgerRow) (r : LedgerRow) :
  forall prev : string,
    verify_rows prev (rows ++ [r])
    = verify_rows prev rows
      && String.eqb (recalculated_hash r) (current_hash r)
      && String.eqb (previous_hash r)
                    (from_option current_hash prev (last rows)).
Proof.
  induction rows as [|x rest IH]; intros prev.
  - cbn [app verify_rows last from_option].
    destruct (String.eqb (recalculated_hash r) (current_hash r));
      destruct (String.eqb (previous_hash r) prev); reflexivity.
  - cbn [app verify_rows]. rewrite IH, last_cons.
    destruct (negb _ || negb _); [reflexivity |].
    now destruct (last rest).
Qed.

Lemma new_entry_sealed (clk : Clock) (st : State) (cid sch : string) (amt : Q) :
  recalculated_hash (new_entry clk st cid sch amt)
  = current_hash (new_entry clk st cid sch amt).
Proof. reflexivity. Qed.

(** Inserting the row that an approval builds keeps an intact ledger
    intact, provided no stored timestamp is later than the new one. *)
Lemma insert_new_entry_intact
      (clk : Clock) (st : State) (cid sch : string) (amt : Q) :
  verify_ledger_integrity st = true ->
  stamped_until (now_stamp clk) st ->
  verify_rows GENESIS
    (order_by_timestamp (ledger_entries st ++ [new_entry clk st cid sch amt]))
  = true.
Proof.
  intros Hv Hts. rewrite order_by_timestamp_snoc by exact Hts.
  rewrite verify_rows_snoc. unfold verify_ledger_integrity in Hv.
  unfold fetch_ledger_rows in Hv. rewrite Hv, new_entry_sealed.
  rewrite String.eqb_refl. cbn [andb].
  apply String.eqb_eq. cbn [previous_hash new_entry].
  apply get_previous_hash_last.
Qed.

(** The ledger after [process_transaction] of [app.py]. *)
Lemma app_process_transaction_ledger_exact
      (clk : Clock) (st : State) (cid sch : string) (amt : Q) :
  let res := App.process_transaction clk st cid sch amt in
  (App.success (snd res) = false
   /\ ledger_entries (fst res) = ledger_entries st)
  \/ (App.success (snd res) = true
      /\ SYSTEM_STATUS st = ACTIVE
      /\ ledger_entries (fst res)
         = (ledger_entries st ++ [new_entry clk st cid sch amt])%list).
Proof.
  cbv zeta. unfold App.process_transaction.
  destruct (SYSTEM_STATUS st) eqn:Hs; cbn [status_is_active negb];
    try (left; now split).
  destruct (verify_ledger_integrity st); [| left; now split].
  destruct (get_citizen_record st cid) as [row|]; [| left; now split].
  cbn [negb].
  destruct (App.eligibility_gate row sch amt) as [[|] ?]; [| left; now split].
  pose proof (app_budget_gate_tables st amt) as [Hl _].
  unfold App.budget_gate in *.
  destruct (Qle_bool (calculate_remaining_budget st) 0);
    [left; now split |].
  destruct (Qgtb amt (calculate_remaining_budget st)); [left; now split |].
  destruct (App.frequency_gate clk (Last_Claim_Date row)) as [[|] ?];
    [| left; now split].
  cbn [negb fst snd]. right. split; [reflexivity |]. split; [reflexivity |].
  now destruct (Z.leb _ 0).
Qed.

End AppendFacts.

Section IntegrityKept.
Context `{PyLib}.

Lemma app_process_transaction_intact
      (clk : Clock) (st : State) (cid sch : string) (amt : Q) :
  verify_ledger_integrity st = true ->
  stamped_until (now_stamp clk) st ->
  verify_ledger_integrity (fst (App.process_transaction clk st cid sch amt))
  = true.
Proof.
  intros Hv Hts.
  destruct (app_process_transaction_ledger_exact clk st cid sch amt)
    as [[_ Hl] | (_ & _ & Hl)];
    unfold verify_ledger_integrity, fetch_ledger_rows in *; rewrite Hl.
  - exact Hv.
  - now apply insert_new_entry_intact.
Qed.

Lemma sqlite_process_transaction_intact
      (clk : Clock) (st : State) (cid sch : string) (amt : Q) :
  verify_ledger_integrity st = true ->
  stamped_until (now_stamp clk) st ->
  verify_ledger_integrity (fst (Sqlite.process_transaction clk st cid sch amt))
  = true.
Proof.
  intros Hv Hts.
  destruct (sqlite_records_claim_on_approval clk st cid sch amt)
    as [[Hl _] | (old & _ & Hl & _)];
    unfold verify_ledger_integrity, fetch_ledger_rows in *; rewrite Hl.
  - exact Hv.
  - now apply insert_new_entry_intact.
Qed.

Lemma app_process_transaction_stamped
      (clk : Clock) (st : State) (cid sch : string) (amt : Q) :
  stamped_until (now_stamp clk) st ->
  stamped_until (now_stamp clk)
                (fst (App.process_transaction clk st cid sch amt)).
Proof.
  intros Hts. unfold stamped_until in *.
  destruct (app_process_transaction_ledger_exact clk st cid sch amt)
    as [[_ Hl] | (_ & _ & Hl)]; rewrite Hl; [exact Hts |].
  apply Forall_app. split; [exact Hts |].
  constructor; [apply string_leb_refl | constructor].
Qed.

Lemma stamped_until_later (t t' : string) (st : State) :
  String.leb t t' = true -> stamped_until t st -> stamped_until t' st.
Proof.
  intros Hle Hts. unfold stamped_until in *.
  eapply Forall_impl; [exact Hts |].
  intros r Hr. exact (string_leb_trans _ _ _ Hr Hle).
Qed.

Lemma app_process_transaction_not_frozen
      (clk : Clock) (st : State) (cid sch : string) (amt : Q) :
  verify_ledger_integrity st = true ->
  SYSTEM_STATUS st <> FROZEN ->
  SYSTEM_STATUS (fst (App.process_transaction clk st cid sch amt)) <> FROZEN.
Proof.
  intros Hv Hs. unfold App.process_transaction.
  destruct (status_is_active (SYSTEM_STATUS st)); [| exact Hs].
  rewrite Hv. cbn [negb].
  destruct (get_citizen_record st cid) as [row|]; [| exact Hs].
  destruct (App.eligibility_gate row sch amt) as [[|] ?]; [| exact Hs].
  cbn [negb].
  assert (Hb : SYSTEM_STATUS (fst (App.budget_gate st amt)) <> FROZEN).
  { destruct (app_budget_gate_status st amt) as [-> | ->];
      [exact Hs | discriminate]. }
  destruct (App.budget_gate st amt) as [st1 [[|] ?]]; [| exact Hb].
  destruct (App.frequency_gate clk (Last_Claim_Date row)) as [[|] ?];
    [| exact Hb].
  cbn [negb fst] in *. destruct (Z.leb _ 0); [discriminate | exact Hb].
Qed.

Lemma app_run_never_freezes (ops : list App.Op) :
  forall (t : string) (st : State),
    verify_ledger_integrity st = true ->
    SYSTEM_STATUS st <> FROZEN ->
    stamped_until t st ->
    clocks_ascend t ops ->
    verify_ledger_integrity (App.run st ops) = true
    /\ SYSTEM_STATUS (App.run st ops) <> FROZEN.
Proof.
  induction ops as [|o ops IH]; intros t st Hv Hs Hts Hc; [now split |].
  cbn [App.run fold_left]. fold (App.run (App.step st o) ops).
  destruct o as [clk cid sch amt | clk data | amt | | cid rec];
    cbn [clocks_ascend op_clock] in Hc; cbn [App.step].
  - destruct Hc as [Hle Hc].
    pose proof (stamped_until_later _ _ _ Hle Hts) as Hts'.
    apply (IH (now_stamp clk)); auto using app_process_transaction_intact,
      app_process_transaction_not_frozen, app_process_transaction_stamped.
  - destruct Hc as [Hle Hc].
    pose proof (stamped_until_later _ _ _ Hle Hts) as Hts'.
    unfold App.process.
    destruct (App.get_expected_scheme_amount _);
      [| apply (IH (now_stamp clk)); assumption].
    destruct (App.amount_mismatch _ _);
      [apply (IH (now_stamp clk)); assumption |].
    apply (IH (now_stamp clk)); auto using app_process_transaction_intact,
      app_process_transaction_not_frozen, app_process_transaction_stamped.
  - destruct (app_budget_gate_tables st amt) as [Hl _].
    apply (IH t); [| | | exact Hc].
    + unfold verify_ledger_integrity, fetch_ledger_rows in *. now rewrite Hl.
    + destruct (app_budget_gate_status st amt) as [-> | ->];
        [exact Hs | discriminate].
    + unfold stamped_until in *. now rewrite Hl.
  - apply (IH t); assumption.
  - destruct (upsert_citizen_frame st cid rec) as [Hl Hst].
    apply (IH t); [| | | exact Hc].
    + unfold verify_ledger_integrity, fetch_ledger_rows in *. now rewrite Hl.
    + now rewrite Hst.
    + unfold stamped_until in *. now rewrite Hl.
Qed.

End IntegrityKept.

(** X3. In [app.py] and in [fraud-dection.py], a call of
    [process_transaction] on a ledger that passes the integrity check,
    made at a timestamp that is not earlier than any stored timestamp,
    leaves a ledger that passes the integrity check (whether or not the
    call appends a row). *)
Theorem process_transaction_keeps_ledger_intact `{PyLib}
        (clk : Clock) (st : State) (cid sch : string) (amt : Q) :
  verify_ledger_integrity st = true ->
  stamped_until (now_stamp clk) st ->
  verify_ledger_integrity (fst (App.process_transaction clk st cid sch amt))
  = true
  /\ verify_ledger_integrity
       (fst (Sqlite.process_transaction clk st cid sch amt)) = true.
Proof.
  intros Hv Hts. split;
    [now apply app_process_transaction_intact
    | now apply sqlite_process_transaction_intact].
Qed.

(** X4. Starting from a ledger that passes the integrity check in a system
    that is not frozen, the service of [app.py] never freezes and its
    ledger keeps passing the check, over any sequence of operations whose
    timestamps never go back. *)
Theorem app_never_freezes_with_ascending_clock `{PyLib}
        (t : string) (st : State) (ops : list App.Op) :
  verify_ledger_integrity st = true ->
  SYSTEM_STATUS st <> FROZEN ->
  stamped_until t st ->
  clocks_ascend t ops ->
  verify_ledger_integrity (App.run st ops) = true
  /\ SYSTEM_STATUS (App.run st ops) <> FROZEN.
Proof. intros. now apply (app_run_never_freezes ops t). Qed.

(** ** What the integrity check cannot see *)

Section SealFacts.
Context `{PyLib}.

Lemma recalculated_hash_text (r : LedgerRow) :
  recalculated_hash r = sha256_hex (record_text r).
Proof. reflexivity. Qed.

Lemma insert_by_timestamp_same_seal (r r' : LedgerRow)
      (rows rows' : list LedgerRow) :
  same_seal r r' ->
  Forall2 same_seal rows rows' ->
  Forall2 same_seal (insert_by_timestamp r rows) (insert_by_timestamp r' rows').
Proof.
  intros Hr. induction 1 as [|x x' rest rest' Hx Hrest IH]; simpl.
  - constructor; [exact Hr | constructor].
  - pose proof Hr as (Ht & _). pose proof Hx as (Htx & _).
    rewrite <- Ht, <- Htx.
    destruct (String.leb (timestamp r) (timestamp x)).
    + constructor; [exact Hr |]. constructor; [exact Hx | exact Hrest].
    + constructor; [exact Hx | apply IH].
Qed.

Lemma order_by_timestamp_same_seal (rows rows' : list LedgerRow) :
  Forall2 same_seal rows rows' ->
  Forall2 same_seal (order_by_timestamp rows) (order_by_timestamp rows').
Proof.
  induction 1 as [|x x' rest rest' Hx Hrest IH]; simpl; [constructor |].
  now apply insert_by_timestamp_same_seal.
Qed.

Lemma verify_rows_same_seal (rows rows' : list LedgerRow) :
  Forall2 same_seal rows rows' ->
  forall prev : string, verify_rows prev rows = verify_rows prev rows'.
Proof.
  induction 1 as [|x x' rest rest' Hx Hrest IH]; intros prev; [reflexivity |].
  destruct Hx as (_ & Hp & Hc & Htext).
  cbn [verify_rows]. rewrite !recalculated_hash_text, Htext, Hp, Hc.
  destruct (negb _ || negb _); [reflexivity | apply IH].
Qed.

End SealFacts.

(** X5. The fields of an entry are digested as one concatenated text
    without separators, so the integrity check gives the same verdict on
    two ledgers whose rows agree pairwise on timestamp, on both stored
    hashes and on that text: rewriting scheme and amount of a stored row
    from Agriculture_Scheme / 15000 to Agriculture_Scheme1 / 5000 goes
    unnoticed. *)
Theorem verify_blind_to_field_boundaries `{PyLib} (st st' : State) :
  Forall2 same_seal (ledger_entries st) (ledger_entries st') ->
  verify_ledger_integrity st' = verify_ledger_integrity st.
Proof.
  intros Hs. unfold verify_ledger_integrity, fetch_ledger_rows.
  symmetry. apply verify_rows_same_seal.
  now apply order_by_timestamp_same_seal.
Qed.

(** ** What an approval guarantees *)

Section ApprovalFacts.
Context `{PyLib}.

Lemma app_gate_eligible (row : Citizen) (sch : string) (amt : Q) :
  fst (App.eligibility_gate row sch amt) = true ->
  passes_before_claim_count row sch amt /\ Claim_Count row <= 3.
Proof.
  unfold App.eligibility_gate, passes_before_claim_count.
  destruct (String.eqb_spec (Account_Status row) "Active") as [Hs|];
    [| discriminate].
  destruct (Aadhaar_Linked row) eqn:Hl; [| discriminate].
  destruct (String.eqb_spec (Scheme_Eligibility row) sch) as [Hsch|];
    [| discriminate].
  cbn [negb].
  destruct (App.get_expected_scheme_amount sch) as [e|] eqn:He;
    [| discriminate].
  destruct (Qgtb (Qabs (Scheme_Amount row - e)) App.AMOUNT_TOLERANCE) eqn:Hr;
    [discriminate |].
  destruct (Qgtb (Qabs (amt - e)) App.AMOUNT_TOLERANCE) eqn:Ha;
    [discriminate |].
  destruct (Z.gtb_spec (Claim_Count row) 3) as [|Hc]; [discriminate |].
  intros _. apply Qgtb_false in Hr, Ha.
  split; [| exact Hc]. repeat split; try assumption.
  exists e. now repeat split.
Qed.

Lemma app_budget_gate_approved (st : State) (amt : Q) :
  fst (snd (App.budget_gate st amt)) = true ->
  fst (App.budget_gate st amt) = st
  /\ (0 < calculate_remaining_budget st)%Q
  /\ (amt <= calculate_remaining_budget st)%Q.
Proof.
  unfold App.budget_gate.
  destruct (Qle_bool (calculate_remaining_budget st) 0) eqn:E0;
    [discriminate |].
  destruct (Qgtb amt (calculate_remaining_budget st)) eqn:E1; [discriminate |].
  intros _. split; [reflexivity |]. split.
  - apply Qnot_le_lt. intros Hle. apply Qle_bool_iff in Hle. congruence.
  - now apply Qgtb_false.
Qed.

Lemma app_frequency_gate_ok (clk : Clock) (last_claim : string) :
  fst (App.frequency_gate clk last_claim) = true ->
  exists d : Z, strptime_ymd last_claim = Some d /\ 30 <= today_day clk - d.
Proof.
  unfold App.frequency_gate.
  destruct (strptime_ymd last_claim) as [d|]; [| discriminate].
  destruct (Z.ltb_spec (today_day clk - d) 30); [discriminate |].
  intros _. now exists d.
Qed.

(** What [process_transaction] of [app.py] has checked when it answers
    with success. *)
Lemma app_approved_gates
      (clk : Clock) (st : State) (cid sch : string) (amt : Q) :
  App.success (snd (App.process_transaction clk st cid sch amt)) = true ->
  SYSTEM_STATUS st = ACTIVE
  /\ verify_ledger_integrity st = true
  /\ exists row : Citizen,
       get_citizen_record st cid = Some row
       /\ fst (App.eligibility_gate row sch amt) = true
       /\ fst (snd (App.budget_gate st amt)) = true
       /\ fst (App.frequency_gate clk (Last_Claim_Date row)) = true.
Proof.
  unfold App.process_transaction.
  destruct (SYSTEM_STATUS st); cbn [status_is_active negb]; try discriminate.
  destruct (verify_ledger_integrity st); [| discriminate].
  destruct (get_citizen_record st cid) as [row|]; [| discriminate].
  cbn [negb].
  destruct (App.eligibility_gate row sch amt) as [[|] ?] eqn:He;
    [| discriminate].
  destruct (App.budget_gate st amt) as [st1 [[|] ?]] eqn:Hb; [| discriminate].
  destruct (App.frequency_gate clk (Last_Claim_Date row)) as [[|] ?] eqn:Hf;
    [| discriminate].
  intros _. split; [reflexivity |]. split; [reflexivity |].
  exists row. rewrite He, Hf. now repeat split.
Qed.

Lemma total_disbursed_snoc (rows : list LedgerRow) (r : LedgerRow) :
  total_disbursed (rows ++ [r]) = (total_disbursed rows + amount r)%Q.
Proof. unfold total_disbursed. now rewrite fold_left_app. Qed.

Lemma remaining_after_payment (rows : list LedgerRow) (r : LedgerRow) :
  (0 < remaining_of INITIAL_BUDGET rows)%Q ->
  (amount r <= remaining_of INITIAL_BUDGET rows)%Q ->
  (remaining_of INITIAL_BUDGET (rows ++ [r])
   == remaining_of INITIAL_BUDGET rows - amount r)%Q.
Proof.
  unfold remaining_of. rewrite total_disbursed_snoc.
  generalize (total_disbursed rows) as total. intros total.
  unfold py_max0.
  destruct (Qgtb 0 (INITIAL_BUDGET - total)) eqn:E0.
  - intros Hpos _. exfalso. exact (Qlt_irrefl _ Hpos).
  - intros Hpos Hle.
    destruct (Qgtb 0 (INITIAL_BUDGET - (total + amount r))) eqn:E1.
    + apply Qgtb_true in E1. lra.
    + lra.
Qed.

Lemma py_int_nonpos (q : Q) : (0 <= q)%Q -> (py_int q <= 0 <-> (q < 1)%Q).
Proof.
  destruct q as [n d]. unfold py_int, Qle, Qlt. cbn [Qnum Qden].
  intros Hn. rewrite Z.mul_1_r in Hn. rewrite !Z.mul_1_r, Z.mul_1_l.
  rewrite Z.quot_div_nonneg by lia. split.
  - intros Hq. destruct (Z.lt_ge_cases n (Z.pos d)) as [|Hge]; [assumption |].
    assert (1 <= n / Z.pos d) by (apply Z.div_le_lower_bound; lia). lia.
  - intros Hlt. rewrite Z.div_small; lia.
Qed.

End ApprovalFacts.

(** X6. When [process_transaction] of [app.py] answers with success, the
    system was ACTIVE, the ledger passed the integrity check, and the
    citizen exists with an Active account, the identity link, the requested
    scheme, registry and requested amounts within the tolerance of the
    catalog amount, at most 3 earlier claims and a last claim at least 30
    days old; the amount does not exceed the positive remaining budget. *)
Theorem app_approval_is_sound `{PyLib}
        (clk : Clock) (st : State) (cid sch : string) (amt : Q) :
  App.success (snd (App.process_transaction clk st cid sch amt)) = true ->
  SYSTEM_STATUS st = ACTIVE
  /\ chain_intact (fetch_ledger_rows st)
  /\ (0 < calculate_remaining_budget st)%Q
  /\ (amt <= calculate_remaining_budget st)%Q
  /\ exists (row : Citizen) (d : Z),
       get_citizen_record st cid = Some row
       /\ passes_before_claim_count row sch amt
       /\ Claim_Count row <= 3
       /\ strptime_ymd (Last_Claim_Date row) = Some d
       /\ 30 <= today_day clk - d.
Proof.
  intros Hok.
  destruct (app_approved_gates clk st cid sch amt Hok)
    as (Hs & Hv & row & Hrow & He & Hb & Hf).
  apply verify_ledger_integrity_iff in Hv.
  apply app_gate_eligible in He as [Hp Hc].
  apply app_budget_gate_approved in Hb as (_ & Hpos & Hle).
  apply app_frequency_gate_ok in Hf as (d & Hd & Hdays).
  repeat (split; [assumption |]).
  exists row, d. repeat (split; [assumption |]). assumption.
Qed.

(** X7. A successful [process_transaction] of [app.py] lowers the remaining
    budget by exactly the amount paid, reports the integer part of the new
    remaining budget, and leaves the status LOCKED exactly when less than
    one rupee remains (ACTIVE otherwise). *)
Theorem app_approval_budget_and_lock `{PyLib}
        (clk : Clock) (st : State) (cid sch : string) (amt : Q)
        (nm : string) (rb : Z) (th : string) :
  snd (App.process_transaction clk st cid sch amt) = App.Approved nm rb th ->
  let st' := fst (App.process_transaction clk st cid sch amt) in
  (calculate_remaining_budget st' == calculate_remaining_budget st - amt)%Q
  /\ rb = py_int (calculate_remaining_budget st')
  /\ (SYSTEM_STATUS st' = LOCKED <-> (calculate_remaining_budget st' < 1)%Q)
  /\ (SYSTEM_STATUS st' = ACTIVE <-> (1 <= calculate_remaining_budget st')%Q).
Proof.
  intros Hres. cbv zeta.
  assert (Hok : App.success (snd (App.process_transaction clk st cid sch amt))
                = true) by (now rewrite Hres).
  destruct (app_approved_gates clk st cid sch amt Hok)
    as (Hs & Hv & row & Hrow & He & Hb & Hf).
  pose proof (app_budget_gate_approved st amt Hb) as (Hst1 & Hpos & Hle).
  revert Hres. unfold App.process_transaction.
  rewrite (status_is_active_true _ Hs), Hv, Hrow. cbn [negb].
  destruct (App.eligibility_gate row sch amt) as [[|] ?]; [| discriminate He].
  destruct (App.budget_gate st amt) as [st1 [[|] ?]]; [| discriminate Hb].
  destruct (App.frequency_gate clk (Last_Claim_Date row)) as [[|] ?];
    [| discriminate Hf].
  cbn [negb fst snd] in *. subst st1.
  set (st2 := insert_ledger_entry _ st).
  assert (Hrem : (calculate_remaining_budget st2
                  == calculate_remaining_budget st - amt)%Q).
  { unfold calculate_remaining_budget, st2.
    cbn [ledger_entries insert_ledger_entry].
    now apply (remaining_after_payment (ledger_entries st)). }
  assert (Hnn : (0 <= calculate_remaining_budget st2)%Q)
    by apply py_max0_nonneg.
  pose proof (py_int_nonpos _ Hnn) as Hint.
  intros [= _ <- _].
  destruct (Z.leb_spec (py_int (calculate_remaining_budget st2)) 0) as [Hz|Hz];
    cbn [fst].
  - assert (Hsame : calculate_remaining_budget (set_status LOCKED st2)
                    = calculate_remaining_budget st2) by reflexivity.
    rewrite Hsame. split; [exact Hrem |]. split; [reflexivity |].
    apply Hint in Hz. split; [tauto |]. cbn [SYSTEM_STATUS set_status].
    split; [discriminate | intros Hge; lra].
  - split; [exact Hrem |]. split; [reflexivity |].
    assert (Hst2 : SYSTEM_STATUS st2 = ACTIVE) by exact Hs.
    rewrite Hst2. split.
    + split; [discriminate |]. intros Hlt. apply Hint in Hlt. lia.
    + split; [| reflexivity]. intros _.
      apply Qnot_lt_le. intros Hlt. apply Hint in Hlt. lia.
Qed.

(** ** Approvals of [fraud-dection.py] *)

Section SqliteApproval.
Context `{PyLib}.

Lemma snoc_neq {A : Type} (l : list A) (x : A) : (l ++ [x])%list <> l.
Proof.
  intros Heq. apply (f_equal List.length) in Heq.
  rewrite length_app in Heq. cbn in Heq. lia.
Qed.

Lemma sqlite_gate_eligible (row : Citizen) (sch : string) (amt : Q) :
  fst (Sqlite.eligibility_gate row sch amt) = true ->
  sqlite_passes_before_claim_count row sch amt /\ Claim_Count row <= 0.
Proof.
  unfold Sqlite.eligibility_gate, sqlite_passes_before_claim_count.
  destruct (String.eqb_spec (Account_Status row) "Active") as [Hs|];
    [| discriminate].
  destruct (Aadhaar_Linked row) eqn:Hl; [| discriminate].
  destruct (String.eqb_spec (Scheme_Eligibility row) sch) as [Hsch|];
    [| discriminate].
  cbn [negb].
  destruct (Qeq_bool (Scheme_Amount row) amt) eqn:Ha; [| discriminate].
  destruct (Z.geb_spec (Claim_Count row) 1) as [|Hc]; [discriminate |].
  intros _. apply Qeq_bool_iff in Ha.
  split; [now repeat split | lia].
Qed.

Lemma sqlite_frequency_gate_ok (clk : Clock) (last_claim : string) :
  fst (Sqlite.frequency_gate clk last_claim) = true ->
  exists d : Z, strptime_ymd last_claim = Some d /\ 30 <= today_day clk - d.
Proof.
  unfold Sqlite.frequency_gate.
  destruct (strptime_ymd last_claim) as [d|]; [| discriminate].
  destruct (Z.ltb_spec (today_day clk - d) 30); [discriminate |].
  intros _. now exists d.
Qed.

Lemma sqlite_budget_gate_approved (st : State) (amt : Q) :
  fst (snd (Sqlite.budget_gate st amt)) = true ->
  (amt <= calculate_remaining_budget st)%Q.
Proof.
  unfold Sqlite.budget_gate.
  destruct (Qgtb amt (calculate_remaining_budget st)) eqn:E; [discriminate |].
  intros _. now apply Qgtb_false.
Qed.

(** What [process_transaction] of [fraud-dection.py] has checked when it
    changes the ledger. *)
Lemma sqlite_approved_gates
      (clk : Clock) (st : State) (cid sch : string) (amt : Q) :
  ledger_entries (fst (Sqlite.process_transaction clk st cid sch amt))
  <> ledger_entries st ->
  SYSTEM_STATUS st = ACTIVE
  /\ verify_ledger_integrity st = true
  /\ Sqlite.citizen_has_prior_claim st cid = false
  /\ ledger_entries (fst (Sqlite.process_transaction clk st cid sch amt))
     = (ledger_entries st ++ [new_entry clk st cid sch amt])%list
  /\ exists row : Citizen,
       get_citizen_record st cid = Some row
       /\ fst (Sqlite.eligibility_gate row sch amt) = true
       /\ fst (Sqlite.frequency_gate clk (Last_Claim_Date row)) = true
       /\ fst (snd (Sqlite.budget_gate st amt)) = true.
Proof.
  unfold Sqlite.process_transaction.
  destruct (SYSTEM_STATUS st); cbn [status_is_active negb];
    try (intros Hne; now contradiction Hne).
  destruct (verify_ledger_integrity st);
    [| intros Hne; now contradiction Hne].
  destruct (get_citizen_record st cid) as [row|];
    [| intros Hne; now contradiction Hne].
  destruct (Sqlite.citizen_has_prior_claim st cid);
    [intros Hne; now contradiction Hne |].
  cbn [negb].
  destruct (Sqlite.eligibility_gate row sch amt) as [[|] ?] eqn:He;
    [| intros Hne; now contradiction Hne].
  destruct (Sqlite.frequency_gate clk (Last_Claim_Date row)) as [[|] ?] eqn:Hf;
    [| intros Hne; now contradiction Hne].
  pose proof (sqlite_budget_gate_state st amt) as Hst1.
  destruct (Sqlite.budget_gate st amt) as [st1 [[|] ?]] eqn:Hb;
    cbn [fst negb] in *; subst st1;
    [| intros Hne; now contradiction Hne].
  intros _. repeat (split; [reflexivity |]).
  exists row. rewrite He, Hf. now repeat split.
Qed.

End SqliteApproval.

(** X8. When [process_transaction] of [fraud-dection.py] changes the
    ledger, it appends exactly one row, and then the system was ACTIVE, the
    ledger passed the integrity check, no row carried the citizen's
    fingerprint, and the citizen exists with an Active account, the
    identity link, the requested scheme, a registry amount equal to the
    requested amount, no earlier claim and a last claim at least 30 days
    old; the amount does not exceed the remaining budget. *)
Theorem sqlite_approval_is_sound `{PyLib}
        (clk : Clock) (st : State) (cid sch : string) (amt : Q) :
  ledger_entries (fst (Sqlite.process_transaction clk st cid sch amt))
  <> ledger_entries st ->
  ledger_entries (fst (Sqlite.process_transaction clk st cid sch amt))
  = (ledger_entries st ++ [new_entry clk st cid sch amt])%list
  /\ SYSTEM_STATUS st = ACTIVE
  /\ chain_intact (fetch_ledger_rows st)
  /\ (forall r : LedgerRow,
        In r (ledger_entries st) -> citizen_hash r <> hash_id cid)
  /\ (amt <= calculate_remaining_budget st)%Q
  /\ exists (row : Citizen) (d : Z),
       get_citizen_record st cid = Some row
       /\ sqlite_passes_before_claim_count row sch amt
       /\ Claim_Count row <= 0
       /\ strptime_ymd (Last_Claim_Date row) = Some d
       /\ 30 <= today_day clk - d.
Proof.
  intros Hne.
  destruct (sqlite_approved_gates clk st cid sch amt Hne)
    as (Hs & Hv & Hp & Hl & row & Hrow & He & Hf & Hb).
  apply verify_ledger_integrity_iff in Hv.
  apply sqlite_gate_eligible in He as [Hpass Hc].
  apply sqlite_frequency_gate_ok in Hf as (d & Hd & Hdays).
  apply sqlite_budget_gate_approved in Hb.
  repeat (split; [assumption |]).
  split.
  - intros r Hin Hr.
    assert (Ht : Sqlite.citizen_has_prior_claim st cid = true)
      by (apply citizen_has_prior_claim_true; now exists r).
    congruence.
  - split; [assumption |].
    exists row, d. repeat (split; [assumption |]). assumption.
Qed.

(** ** Invariants of the ledger over runs *)

Section RunFacts.
Context `{PyLib}.

(** The effect of one operation of [app.py] on the ledger: nothing, or one
    new row for an amount within the positive remaining budget. *)
Lemma app_step_ledger (st : State) (o : App.Op) :
  ledger_entries (App.step st o) = ledger_entries st
  \/ exists (clk : Clock) (cid sch : string) (amt : Q),
       ledger_entries (App.step st o)
       = (ledger_entries st ++ [new_entry clk st cid sch amt])%list
       /\ (0 < calculate_remaining_budget st)%Q
       /\ (amt <= calculate_remaining_budget st)%Q.
Proof.
  assert (Hpt : forall clk cid sch amt,
    ledger_entries (fst (App.process_transaction clk st cid sch amt))
    = ledger_entries st
    \/ (ledger_entries (fst (App.process_transaction clk st cid sch amt))
        = (ledger_entries st ++ [new_entry clk st cid sch amt])%list
        /\ (0 < calculate_remaining_budget st)%Q
        /\ (amt <= calculate_remaining_budget st)%Q)).
  { intros clk cid sch amt.
    destruct (app_process_transaction_ledger_exact clk st cid sch amt)
      as [[_ Hl] | (Hok & _ & Hl)]; [now left |].
    right. split; [exact Hl |].
    destruct (app_approved_gates clk st cid sch amt Hok)
      as (_ & _ & row & _ & _ & Hb & _).
    now apply app_budget_gate_approved in Hb as (_ & Hpos & Hle). }
  destruct o as [clk cid sch amt | clk data | amt | | cid rec]; cbn [App.step].
  - destruct (Hpt clk cid sch amt) as [Hl | Hb]; [now left |].
    right. now exists clk, cid, sch, amt.
  - unfold App.process.
    destruct (App.get_expected_scheme_amount _) as [e|]; [| now left].
    destruct (App.amount_mismatch _ _); [now left |].
    destruct (Hpt clk (App.body_text (App.body_citizen_id data))
                  (App.body_text (App.body_scheme data)) e)
      as [Hl | Hb]; [now left |].
    right. now exists clk, (App.body_text (App.body_citizen_id data)),
                     (App.body_text (App.body_scheme data)), e.
  - left. apply app_budget_gate_tables.
  - now left.
  - left. apply upsert_citizen_frame.
Qed.

Lemma sqlite_step_ledger (st : State) (o : Sqlite.Op) :
  ledger_entries (Sqlite.step st o) = ledger_entries st
  \/ exists (clk : Clock) (cid sch : string) (amt : Q),
       ledger_entries (Sqlite.step st o)
       = (ledger_entries st ++ [new_entry clk st cid sch amt])%list
       /\ Sqlite.citizen_has_prior_claim st cid = false
       /\ (amt <= calculate_remaining_budget st)%Q.
Proof.
  destruct o as [clk cid sch amt | amt]; cbn [Sqlite.step].
  - destruct (sqlite_records_claim_on_approval clk st cid sch amt)
      as [[Heq _] | (old & _ & Happ & _)]; [now left |].
    assert (Hne : ledger_entries
                    (fst (Sqlite.process_transaction clk st cid sch amt))
                  <> ledger_entries st)
      by (rewrite Happ; apply snoc_neq).
    destruct (sqlite_approved_gates clk st cid sch amt Hne)
      as (_ & _ & Hp & Hl & row & _ & _ & _ & Hb).
    right. exists clk, cid, sch, amt.
    split; [exact Hl |]. split; [exact Hp |].
    now apply sqlite_budget_gate_approved.
  - left. now rewrite sqlite_budget_gate_state.
Qed.

Lemma payment_within_budget (rows : list LedgerRow) (r : LedgerRow) :
  (sum_amounts rows <= INITIAL_BUDGET)%Q ->
  (amount r <= remaining_of INITIAL_BUDGET rows)%Q ->
  (sum_amounts (rows ++ [r]) <= INITIAL_BUDGET)%Q.
Proof.
  intros Hinv Hle. rewrite sum_amounts_snoc.
  rewrite remaining_of_Qmax in Hle.
  rewrite Q.max_l in Hle by lra. lra.
Qed.

Lemma app_run_within_budget (ops : list App.Op) :
  forall st : State,
    (sum_amounts (ledger_entries st) <= INITIAL_BUDGET)%Q ->
    (sum_amounts (ledger_entries (App.run st ops)) <= INITIAL_BUDGET)%Q.
Proof.
  induction ops as [|o ops IH]; intros st Hinv; [exact Hinv |].
  cbn [App.run fold_left]. fold (App.run (App.step st o) ops). apply IH.
  destruct (app_step_ledger st o)
    as [-> | (clk & cid & sch & amt & -> & _ & Hle)]; [exact Hinv |].
  now apply payment_within_budget.
Qed.

Lemma sqlite_run_within_budget (ops : list Sqlite.Op) :
  forall st : State,
    (sum_amounts (ledger_entries st) <= INITIAL_BUDGET)%Q ->
    (sum_amounts (ledger_entries (Sqlite.run st ops)) <= INITIAL_BUDGET)%Q.
Proof.
  induction ops as [|o ops IH]; intros st Hinv; [exact Hinv |].
  cbn [Sqlite.run fold_left]. fold (Sqlite.run (Sqlite.step st o) ops).
  apply IH.
  destruct (sqlite_step_ledger st o)
    as [-> | (clk & cid & sch & amt & -> & _ & Hle)]; [exact Hinv |].
  now apply payment_within_budget.
Qed.

Lemma app_run_prefix (ops : list App.Op) :
  forall st : State,
    ledger_entries st `prefix_of` ledger_entries (App.run st ops).
Proof.
  induction ops as [|o ops IH]; intros st; [reflexivity |].
  cbn [App.run fold_left]. fold (App.run (App.step st o) ops).
  etransitivity; [| apply IH].
  destruct (app_step_ledger st o) as [-> | (clk & cid & sch & amt & -> & _)];
    [reflexivity | now apply prefix_app_r].
Qed.

Lemma sqlite_run_prefix (ops : list Sqlite.Op) :
  forall st : State,
    ledger_entries st `prefix_of` ledger_entries (Sqlite.run st ops).
Proof.
  induction ops as [|o ops IH]; intros st; [reflexivity |].
  cbn [Sqlite.run fold_left]. fold (Sqlite.run (Sqlite.step st o) ops).
  etransitivity; [| apply IH].
  destruct (sqlite_step_ledger st o) as [-> | (clk & cid & sch & amt & -> & _)];
    [reflexivity | now apply prefix_app_r].
Qed.

Lemma sqlite_run_distinct_fingerprints (ops : list Sqlite.Op) :
  forall st : State,
    NoDup (map citizen_hash (ledger_entries st)) ->
    NoDup (map citizen_hash (ledger_entries (Sqlite.run st ops))).
Proof.
  induction ops as [|o ops IH]; intros st Hnd; [exact Hnd |].
  cbn [Sqlite.run fold_left]. fold (Sqlite.run (Sqlite.step st o) ops).
  apply IH.
  destruct (sqlite_step_ledger st o)
    as [-> | (clk & cid & sch & amt & -> & Hp & _)]; [exact Hnd |].
  rewrite map_app. apply NoDup_app. split; [exact Hnd |].
  split; [| apply NoDup_singleton].
  intros h Hin Hh. apply list_elem_of_singleton in Hh. subst h.
  apply list_elem_of_In, in_map_iff in Hin as (r & Hr & Hin).
  assert (Ht : Sqlite.citizen_has_prior_claim st cid = true)
    by (apply citizen_has_prior_claim_true; now exists r).
  congruence.
Qed.

End RunFacts.

(** X9. The ledger is append-only: over any sequence of operations of
    [app.py] or of [fraud-dection.py] the rows present at the start stay,
    unchanged and in place, as the beginning of the table. *)
Theorem ledger_is_append_only `{PyLib}
        (st : State) (ops : list App.Op) (sops : list Sqlite.Op) :
  ledger_entries st `prefix_of` ledger_entries (App.run st ops)
  /\ ledger_entries st `prefix_of` ledger_entries (Sqlite.run st sops).
Proof. split; [apply app_run_prefix | apply sqlite_run_prefix]. Qed.

(** X10. The total disbursed never passes the configured budget: if the
    sum of the ledger amounts is at most INITIAL_BUDGET, it still is after
    any sequence of operations of [app.py] or of [fraud-dection.py]. *)
Theorem total_disbursed_stays_within_budget `{PyLib}
        (st : State) (ops : list App.Op) (sops : list Sqlite.Op) :
  (sum_amounts (ledger_entries st) <= INITIAL_BUDGET)%Q ->
  (sum_amounts (ledger_entries (App.run st ops)) <= INITIAL_BUDGET)%Q
  /\ (sum_amounts (ledger_entries (Sqlite.run st sops)) <= INITIAL_BUDGET)%Q.
Proof.
  intros Hinv. split;
    [now apply app_run_within_budget | now apply sqlite_run_within_budget].
Qed.

(** X11. [fraud-dection.py] pays a citizen at most once: if the
    fingerprints in the ledger are pairwise distinct, they still are after
    any sequence of its operations. *)
Theorem sqlite_one_entry_per_fingerprint `{PyLib}
        (st : State) (sops : list Sqlite.Op) :
  NoDup (map citizen_hash (ledger_entries st)) ->
  NoDup (map citizen_hash (ledger_entries (Sqlite.run st sops))).
Proof. intros Hnd. now apply sqlite_run_distinct_fingerprints. Qed.

(** ** When the system freezes *)

Section FreezeFacts.
Context `{PyLib}.

Lemma sqlite_process_transaction_status
      (clk : Clock) (st : State) (cid sch : string) (amt : Q) :
  verify_ledger_integrity st = true ->
  SYSTEM_STATUS (fst (Sqlite.process_transaction clk st cid sch amt))
  = SYSTEM_STATUS st.
Proof.
  intros Hv. unfold Sqlite.process_transaction.
  destruct (status_is_active (SYSTEM_STATUS st)); [| reflexivity].
  rewrite Hv. cbn [negb].
  destruct (get_citizen_record st cid) as [row|]; [| reflexivity].
  destruct (Sqlite.citizen_has_prior_claim st cid); [reflexivity |].
  destruct (Sqlite.eligibility_gate row sch amt) as [[|] ?]; [| reflexivity].
  destruct (Sqlite.frequency_gate clk (Last_Claim_Date row)) as [[|] ?];
    [| reflexivity].
  pose proof (sqlite_budget_gate_state st amt) as Hb.
  destruct (Sqlite.budget_gate st amt) as [st1 [[|] ?]];
    cbn [negb fst] in *; now subst st1.
Qed.

Lemma verify_false_not_intact (st : State) :
  verify_ledger_integrity st = false <-> ~ chain_intact (fetch_ledger_rows st).
Proof.
  rewrite <- verify_ledger_integrity_iff.
  destruct (verify_ledger_integrity st); split; congruence.
Qed.

Lemma app_frozen_iff (clk : Clock) (st : State) (cid sch : string) (amt : Q) :
  SYSTEM_STATUS (fst (App.process_transaction clk st cid sch amt)) = FROZEN
  <-> SYSTEM_STATUS st = FROZEN
      \/ (SYSTEM_STATUS st = ACTIVE
          /\ ~ chain_intact (fetch_ledger_rows st)).
Proof.
  rewrite <- verify_false_not_intact.
  destruct (verify_ledger_integrity st) eqn:Hv.
  - split.
    + intros Hf. left.
      destruct (SYSTEM_STATUS st) eqn:Hs; try reflexivity; exfalso;
        apply (app_process_transaction_not_frozen clk st cid sch amt Hv);
        try exact Hf; rewrite Hs; discriminate.
    + intros [Hs | [_ Hc]]; [| discriminate].
      rewrite app_process_transaction_blocked by (rewrite Hs; discriminate).
      exact Hs.
  - unfold App.process_transaction. rewrite Hv.
    destruct (SYSTEM_STATUS st) eqn:Hs; cbn [status_is_active negb fst];
      rewrite ?Hs; cbn [SYSTEM_STATUS set_status];
      split; try tauto; try discriminate;
      intros [Hc | [Hc _]]; discriminate.
Qed.

Lemma sqlite_frozen_iff (clk : Clock) (st : State) (cid sch : string) (amt : Q) :
  SYSTEM_STATUS (fst (Sqlite.process_transaction clk st cid sch amt)) = FROZEN
  <-> SYSTEM_STATUS st = FROZEN
      \/ (SYSTEM_STATUS st = ACTIVE
          /\ ~ chain_intact (fetch_ledger_rows st)).
Proof.
  rewrite <- verify_false_not_intact.
  destruct (verify_ledger_integrity st) eqn:Hv.
  - rewrite (sqlite_process_transaction_status clk st cid sch amt Hv).
    split; [now left | intros [Hs | [_ Hc]]; [exact Hs | discriminate]].
  - unfold Sqlite.process_transaction. rewrite Hv.
    destruct (SYSTEM_STATUS st) eqn:Hs; cbn [status_is_active negb fst];
      rewrite ?Hs; cbn [SYSTEM_STATUS set_status];
      split; try tauto; try discriminate;
      intros [Hc | [Hc _]]; discriminate.
Qed.

End FreezeFacts.

(** X12. After a call of [process_transaction], in [app.py] and in
    [fraud-dection.py], the status is FROZEN exactly when it was FROZEN
    before or the system was ACTIVE and the stored chain is broken: no other
    outcome freezes the system, and a broken chain always does. *)
Theorem frozen_exactly_on_broken_chain `{PyLib}
        (clk : Clock) (st : State) (cid sch : string) (amt : Q) :
  (SYSTEM_STATUS (fst (App.process_transaction clk st cid sch amt)) = FROZEN
   <-> SYSTEM_STATUS st = FROZEN
       \/ (SYSTEM_STATUS st = ACTIVE
           /\ ~ chain_intact (fetch_ledger_rows st)))
  /\ (SYSTEM_STATUS (fst (Sqlite.process_transaction clk st cid sch amt))
      = FROZEN
      <-> SYSTEM_STATUS st = FROZEN
          \/ (SYSTEM_STATUS st = ACTIVE
              /\ ~ chain_intact (fetch_ledger_rows st))).
Proof. split; [apply app_frozen_iff | apply sqlite_frozen_iff]. Qed.

(** ** Registry write and read *)



(** A claim count of [2 ^ 63] cannot be bound: nothing is stored. *)
Example upsert_overflow_stores_nothing :
  App.upsert_citizen Sample.start "777788889999" Scenario.huge_count_row
  = Sample.start
  /\ get_citizen_record
       (App.upsert_citizen Sample.start "777788889999" Scenario.huge_count_row)
       "777788889999" = None.
Proof. split; reflexivity. Qed.

(** ** Import of [ledger.txt] at start-up *)

Section BackfillFacts.
Context `{PyLib}.

Lemma hash_present_insert (r : LedgerRow) (st : State) (h : string) :
  Bootstrap.hash_present (insert_ledger_entry r st) h
  = Bootstrap.hash_present st h || String.eqb (current_hash r) h.
Proof.
  unfold Bootstrap.hash_present. cbn [ledger_entries insert_ledger_entry].
  rewrite existsb_app. cbn [existsb]. now rewrite orb_false_r.
Qed.

Lemma backfill_line_cases (st : State) (line : string) :
  Bootstrap.backfill_line st line = st
  \/ exists r : LedgerRow,
       Bootstrap.backfill_line st line = insert_ledger_entry r st
       /\ line_current_hash line = Some (current_hash r)
       /\ Bootstrap.hash_present st (current_hash r) = false.
Proof.
  unfold Bootstrap.backfill_line, line_current_hash.
  destruct (split_on "|" line) as [|ts [|ch [|sch [|amt [|prev [|cur [|? ?]]]]]]];
    try (now left).
  destruct (Bootstrap.hash_present st cur) eqn:Hp; [now left |].
  right. eexists. split; [reflexivity |]. now split.
Qed.

Lemma backfill_line_present (st : State) (line cur : string) :
  line_current_hash line = Some cur ->
  Bootstrap.hash_present (Bootstrap.backfill_line st line) cur = true.
Proof.
  unfold Bootstrap.backfill_line, line_current_hash.
  destruct (split_on "|" line) as [|ts [|ch [|sch [|amt [|prev [|c [|? ?]]]]]]];
    try discriminate.
  intros [= ->].
  destruct (Bootstrap.hash_present st cur) eqn:Hp; [exact Hp |].
  rewrite hash_present_insert. cbn [current_hash].
  now rewrite String.eqb_refl, orb_true_r.
Qed.

Lemma backfill_line_keeps_present (st : State) (line h : string) :
  Bootstrap.hash_present st h = true ->
  Bootstrap.hash_present (Bootstrap.backfill_line st line) h = true.
Proof.
  intros Hp. destruct (backfill_line_cases st line) as [-> | (r & -> & _)];
    [exact Hp |].
  rewrite hash_present_insert, Hp. reflexivity.
Qed.

Lemma backfill_fold_keeps_present (lines : list string) :
  forall (st : State) (h : string),
    Bootstrap.hash_present st h = true ->
    Bootstrap.hash_present (fold_left Bootstrap.backfill_line lines st) h
    = true.
Proof.
  induction lines as [|l rest IH]; intros st h Hp; [exact Hp |].
  cbn [fold_left]. apply IH. now apply backfill_line_keeps_present.
Qed.

Lemma backfill_fold_present (lines : list string) :
  forall (st : State) (line cur : string),
    In line lines ->
    line_current_hash line = Some cur ->
    Bootstrap.hash_present (fold_left Bootstrap.backfill_line lines st) cur
    = true.
Proof.
  induction lines as [|l rest IH]; intros st line cur Hin Hcur;
    [contradiction |].
  cbn [fold_left]. destruct Hin as [-> | Hin].
  - apply backfill_fold_keeps_present. now apply backfill_line_present.
  - now apply (IH _ line).
Qed.

Lemma backfill_fold_skips (lines : list string) :
  forall st : State,
    (forall line cur : string,
       In line lines -> line_current_hash line = Some cur ->
       Bootstrap.hash_present st cur = true) ->
    fold_left Bootstrap.backfill_line lines st = st.
Proof.
  induction lines as [|l rest IH]; intros st Hall; [reflexivity |].
  cbn [fold_left].
  assert (Hl : Bootstrap.backfill_line st l = st).
  { destruct (backfill_line_cases st l) as [Heq | (r & _ & Hcur & Hp)];
      [exact Heq |].
    rewrite (Hall l (current_hash r)) in Hp; [discriminate | now left | exact Hcur]. }
  rewrite Hl. apply IH. intros line cur Hin. apply Hall. now right.
Qed.

Lemma backfill_fold_frame (lines : list string) :
  forall st : State,
    ledger_entries st
      `prefix_of` ledger_entries (fold_left Bootstrap.backfill_line lines st)
    /\ SYSTEM_STATUS (fold_left Bootstrap.backfill_line lines st)
       = SYSTEM_STATUS st
    /\ citizens (fold_left Bootstrap.backfill_line lines st) = citizens st.
Proof.
  induction lines as [|l rest IH]; intros st; [now repeat split |].
  cbn [fold_left].
  destruct (IH (Bootstrap.backfill_line st l)) as (Hp & Hs & Hc).
  destruct (backfill_line_cases st l) as [Heq | (r & Heq & _)];
    rewrite Heq in *; [now repeat split |].
  split; [| now split].
  etransitivity; [| exact Hp]. now apply prefix_app_r.
Qed.

Lemma backfill_fold_distinct (lines : list string) :
  forall st : State,
    NoDup (map current_hash (ledger_entries st)) ->
    NoDup (map current_hash
               (ledger_entries (fold_left Bootstrap.backfill_line lines st))).
Proof.
  induction lines as [|l rest IH]; intros st Hnd; [exact Hnd |].
  cbn [fold_left]. apply IH.
  destruct (backfill_line_cases st l) as [-> | (r & -> & _ & Hp)];
    [exact Hnd |].
  cbn [ledger_entries insert_ledger_entry].
  rewrite map_app. apply NoDup_app. split; [exact Hnd |].
  split; [| apply NoDup_singleton].
  intros h Hin Hh. apply list_elem_of_singleton in Hh. subst h.
  apply list_elem_of_In, in_map_iff in Hin as (x & Hx & Hin).
  unfold Bootstrap.hash_present in Hp.
  assert (Ht : existsb (fun r0 => String.eqb (current_hash r0) (current_hash r))
                       (ledger_entries st) = true).
  { apply existsb_exists. exists x. split; [exact Hin |].
    now apply String.eqb_eq. }
  congruence.
Qed.

End BackfillFacts.

(** X14. [backfill_ledger_from_file] only appends to the ledger, touches
    neither the status nor the citizens, and is idempotent: importing the
    same file again adds nothing. *)
Theorem backfill_is_idempotent_and_append_only `{PyLib}
        (st : State) (file : option (list string)) :
  Bootstrap.backfill_ledger_from_file
    (Bootstrap.backfill_ledger_from_file st file) file
  = Bootstrap.backfill_ledger_from_file st file
  /\ ledger_entries st
       `prefix_of` ledger_entries (Bootstrap.backfill_ledger_from_file st file)
  /\ SYSTEM_STATUS (Bootstrap.backfill_ledger_from_file st file)
     = SYSTEM_STATUS st
  /\ citizens (Bootstrap.backfill_ledger_from_file st file) = citizens st.
Proof.
  destruct file as [raw|]; cbn [Bootstrap.backfill_ledger_from_file];
    [| now repeat split].
  split; [| apply backfill_fold_frame].
  apply backfill_fold_skips. intros line cur Hin Hcur.
  now apply (backfill_fold_present _ _ line).
Qed.

(** X15. [backfill_ledger_from_file] never stores a second row with a hash
    that the table already holds: if the stored hashes are pairwise
    distinct before the import, they are after it. *)
Theorem backfill_keeps_hashes_distinct `{PyLib}
        (st : State) (file : option (list string)) :
  NoDup (map current_hash (ledger_entries st)) ->
  NoDup (map current_hash
             (ledger_entries (Bootstrap.backfill_ledger_from_file st file))).
Proof.
  intros Hnd. destruct file as [raw|]; [| exact Hnd].
  now apply backfill_fold_distinct.
Qed.

(** ** The ledger listing *)

Section ListingFacts.
Context `{PyLib}.










End ListingFacts.


(** ** The in-memory budget of [test_fraud.py] *)

(** X17. A call of [process_transaction] of [test_fraud.py] that returns
    either leaves the budget and the ledger file as they were, or (on
    approval) had an amount within the budget, lowers the budget by exactly
    that amount, appends one line and reports the new budget; in both cases
    a budget that was not negative stays not negative. *)
Theorem fileproto_budget_accounting `{PyLib}
        (clk : Clock) (registry : list Citizen) (st st' : FileProto.State)
        (cid sch : string) (amt : Z) (msg : string) :
  FileProto.process_transaction clk registry st cid sch amt = Some (st', msg) ->
  (0 <= FileProto.BUDGET st -> 0 <= FileProto.BUDGET st')
  /\ ((FileProto.BUDGET st' = FileProto.BUDGET st
       /\ FileProto.ledger_file st' = FileProto.ledger_file st)
      \/ (amt <= FileProto.BUDGET st
          /\ FileProto.BUDGET st' = FileProto.BUDGET st - amt
          /\ msg = "Transaction Approved | Remaining Budget: Rs."
                     ++ int_str (FileProto.BUDGET st - amt)
          /\ exists line : FileProto.Line,
               FileProto.ledger_file st'
               = Some (default [] (FileProto.ledger_file st) ++ [line])%list)).
Proof.
  unfold FileProto.process_transaction.
  destruct (status_is_active (FileProto.SYSTEM_STATUS st)); cbn [negb].
  2:{ intros [= <- <-]. split; [tauto | left; now split]. }
  destruct (FileProto.verify_ledger_integrity st) as [[|]|]; [| | discriminate].
  2:{ intros [= <- <-]. split; [tauto | left; now split]. }
  destruct (FileProto.find_citizen registry cid) as [row|].
  2:{ intros [= <- <-]. split; [tauto | left; now split]. }
  destruct (FileProto.eligibility_gate row sch amt) as [[|] ?]; cbn [negb].
  2:{ intros [= <- <-]. split; [tauto | left; now split]. }
  destruct (FileProto.frequency_gate clk (Last_Claim_Date row)) as [[[|] ?]|];
    [| | discriminate]; cbn [negb].
  2:{ intros [= <- <-]. split; [tauto | left; now split]. }
  unfold FileProto.budget_gate.
  destruct (Z.gtb_spec amt (FileProto.BUDGET st)) as [Hgt | Hle]; cbn [negb].
  { intros [= <- <-]. split; [tauto | left; now split]. }
  intros [= <- <-].
  cbn [FileProto.BUDGET FileProto.append_line FileProto.set_budget
       FileProto.ledger_file].
  split; [lia |]. right. split; [exact Hle |]. split; [reflexivity |].
  split; [reflexivity |]. eexists. reflexivity.
Qed.

(** ** The registry write path *)

Section AdminFacts.
Context `{PyLib} `{Admin.PyText}.

(** Everything [validate_citizen_payload] has established when it returns
    a record. *)
Lemma validate_accepts
      (clk : Clock) (data : Admin.CitizenBody) (record : Admin.CitizenRecord) :
  Admin.validate_citizen_payload clk data = Admin.Valid record ->
  Admin.str_len (Admin.rec_citizen_id record) = 12%nat
  /\ Admin.str_isdigit (Admin.rec_citizen_id record) = true
  /\ Admin.rec_name record <> EmptyString
  /\ Admin.rec_account_status record <> EmptyString
  /\ (Admin.rec_aadhaar_linked record = 0
      \/ Admin.rec_aadhaar_linked record = 1)
  /\ Admin.rec_scheme_eligibility record <> EmptyString
  /\ (exists e : Q,
        App.get_expected_scheme_amount (Admin.rec_scheme_eligibility record)
        = Some e
        /\ ((exists q : Q,
               Admin.rec_scheme_amount record = Admin.Number q
               /\ (0 < q)%Q
               /\ (Qabs (q - e) <= App.AMOUNT_TOLERANCE)%Q)
            \/ (Admin.rec_scheme_amount record = Admin.NotANumber
                /\ Admin.py_float_of
                     (default (Admin.JInt 0) (Admin.body_scheme_amount data))
                   = Admin.Got Admin.NaN)))
  /\ 0 <= Admin.rec_claim_count record
  /\ is_Some (strptime_ymd (Admin.rec_last_claim_date record)).
Proof.
  unfold Admin.validate_citizen_payload.
  set (id := str_strip _).
  destruct (Nat.eqb_spec (Admin.str_len id) 12) as [Hlen|]; [| discriminate].
  destruct (Admin.str_isdigit id) eqn:Hdig; [| discriminate].
  cbn [negb orb].
  destruct (Admin.strip_of (default (Admin.JStr "") (Admin.body_name data)))
    as [nm|]; [| discriminate].
  destruct (String.eqb_spec nm "") as [|Hnm]; [discriminate |].
  destruct (Admin.strip_of
              (default (Admin.JStr "Active") (Admin.body_account_status data)))
    as [stt|]; [| discriminate].
  destruct (Admin.strip_of
              (default (Admin.JStr "") (Admin.body_scheme_eligibility data)))
    as [sch|]; [| discriminate].
  destruct (String.eqb_spec sch "") as [|Hsch]; [discriminate |].
  destruct (Admin.py_float_of _) as [amt| |] eqn:Hamt; try discriminate.
  destruct (Admin.float_le_zero amt) eqn:Hpos; [discriminate |].
  destruct (App.get_expected_scheme_amount sch) as [e|] eqn:He;
    [| discriminate].
  destruct (Admin.float_off_catalog amt e) eqn:Htol; [discriminate |].
  destruct (Admin.py_int_of _) as [count| |]; try discriminate.
  destruct (Z.ltb_spec count 0) as [|Hcount]; [discriminate |].
  match goal with
  | |- context [match ?v with Admin.JStr _ => _ | _ => _ end] =>
      destruct v as [| | | |date|]; try discriminate
  end.
  destruct (strptime_ymd date) as [d|] eqn:Hd; [| discriminate].
  intros [= <-].
  cbn [Admin.rec_citizen_id Admin.rec_name Admin.rec_account_status
       Admin.rec_aadhaar_linked Admin.rec_scheme_eligibility
       Admin.rec_scheme_amount Admin.rec_claim_count
       Admin.rec_last_claim_date].
  split; [exact Hlen |]. split; [exact Hdig |]. split; [exact Hnm |].
  split; [destruct (String.eqb_spec stt ""); [discriminate | assumption] |].
  split; [destruct (Admin.normalize_bool_flag _); auto |].
  split; [exact Hsch |].
  split.
  - exists e. split; [exact He |].
    destruct amt as [q | | neg]; cbn [Admin.amount_of].
    + left. exists q. split; [reflexivity |].
      cbn [Admin.float_le_zero Admin.float_off_catalog] in Hpos, Htol.
      split; [| now apply Qgtb_false].
      apply Qnot_le_lt. intros Hle. apply Qle_bool_iff in Hle. congruence.
    + right. now split.
    + discriminate Htol.
  - split; [exact Hcount |]. rewrite Hd. now exists d.
Qed.



End AdminFacts.

(** X18. A record that [validate_citizen_payload] accepts has an id of 12
    digits, a non-empty name, status and scheme, an identity flag of 0 or
    1, a scheme of the catalog, a claim count that is not negative and a
    last claim date that parses.  Its scheme amount is either positive and
    within the tolerance of the catalog amount, or NaN: a NaN amount fails
    neither of the two comparisons and is accepted. *)
Theorem validated_record_is_well_formed `{PyLib} `{Admin.PyText}
        (clk : Clock) (data : Admin.CitizenBody) (record : Admin.CitizenRecord) :
  Admin.validate_citizen_payload clk data = Admin.Valid record ->
  Admin.str_len (Admin.rec_citizen_id record) = 12%nat
  /\ Admin.str_isdigit (Admin.rec_citizen_id record) = true
  /\ Admin.rec_name record <> EmptyString
  /\ Admin.rec_account_status record <> EmptyString
  /\ (Admin.rec_aadhaar_linked record = 0
      \/ Admin.rec_aadhaar_linked record = 1)
  /\ Admin.rec_scheme_eligibility record <> EmptyString
  /\ (exists e : Q,
        App.get_expected_scheme_amount (Admin.rec_scheme_eligibility record)
        = Some e
        /\ ((exists q : Q,
               Admin.rec_scheme_amount record = Admin.Number q
               /\ (0 < q)%Q
               /\ (Qabs (q - e) <= App.AMOUNT_TOLERANCE)%Q)
            \/ (Admin.rec_scheme_amount record = Admin.NotANumber
                /\ Admin.py_float_of
                     (default (Admin.JInt 0) (Admin.body_scheme_amount data))
                   = Admin.Got Admin.NaN)))
  /\ 0 <= Admin.rec_claim_count record
  /\ is_Some (strptime_ymd (Admin.rec_last_claim_date record)).
Proof. apply validate_accepts. Qed.


(** ** Sample runs of the further properties *)

Example split_on_pipe :
  split_on "|"%char "a|b||c" = ["a"; "b"; ""; "c"].
Proof. reflexivity. Qed.

Example backfill_sample :
  map current_hash
      (ledger_entries
         (Bootstrap.backfill_ledger_from_file (H := Sample.lib) Sample.paid_once
            (Some Scenario.ledger_txt)))
  = [current_hash Sample.health_payment; "bbbb"].
Proof. vm_compute. reflexivity. Qed.

Example validate_sample :
  Admin.validate_citizen_payload (H := Sample.lib) (H0 := Scenario.text)
    Sample.clock Scenario.new_citizen
  = Admin.Valid Scenario.new_citizen_record.
Proof. vm_compute. reflexivity. Qed.

(** A scheme amount of NaN is accepted by the validation and refused by
    the table: the route answers 500 and stores nothing.  The same happens
    for a claim count of [2 ^ 63]. *)
Example nan_amount_is_validated_then_refused :
  (exists record : Admin.CitizenRecord,
     Admin.validate_citizen_payload (H := Sample.lib) (H0 := Scenario.text)
       Sample.clock Scenario.nan_amount_citizen = Admin.Valid record
     /\ Admin.rec_scheme_amount record = Admin.NotANumber)
  /\ Admin.citizens_endpoint_post (H := Sample.lib) (H0 := Scenario.text)
       Sample.clock Sample.start Scenario.nan_amount_citizen
     = (Sample.start, (500, "Internal Server Error"))
  /\ Admin.citizens_endpoint_post (H := Sample.lib) (H0 := Scenario.text)
       Sample.clock Sample.start Scenario.huge_count_citizen
     = (Sample.start, (500, "Internal Server Error")).
Proof.
  split; [eexists; split; vm_compute; reflexivity |].
  split; vm_compute; reflexivity.
Qed.

(** With the clock set back, the row of an approval is fetched before the
    row it is chained to, and the next request freezes the system. *)
Example stale_clock_freezes :
  let r1 := App.process_transaction (H := Sample.lib) Scenario.stale_clock
              Sample.paid_once "111122223333" "Health_Scheme" 5000%Q in
  let r2 := App.process_transaction (H := Sample.lib) Sample.clock (fst r1)
              "333344445555" "Health_Scheme" 5000%Q in
  App.success (snd r1) = true
  /\ App.message (snd r2) = "Ledger Tampering Detected. System Frozen."
  /\ SYSTEM_STATUS (fst r2) = FROZEN.
Proof. cbv zeta. repeat split; vm_compute; reflexivity. Qed.

(** The rewritten row passes the check like the stored one, and shows
    10000 more of remaining budget. *)
Example rewritten_payment_unnoticed :
  verify_ledger_integrity (H := Sample.lib) Scenario.rewritten = true
  /\ (calculate_remaining_budget Scenario.rewritten
      == calculate_remaining_budget Scenario.stored + 10000)%Q.
Proof. split; [reflexivity | vm_compute; reflexivity]. Qed.

(** ** Instances of the properties that have a precondition *)

Lemma process_transaction_keeps_ledger_intact_witness :
  verify_ledger_integrity (H := Sample.lib) Sample.paid_once = true
  /\ stamped_until (now_stamp Sample.clock) Sample.paid_once
  /\ verify_ledger_integrity (H := Sample.lib)
       (fst (App.process_transaction (H := Sample.lib) Sample.clock
               Sample.paid_once "111122223333" "Health_Scheme" 5000%Q))
     = true.
Proof.
  assert (Hv : verify_ledger_integrity (H := Sample.lib) Sample.paid_once = true)
    by reflexivity.
  assert (Hts : stamped_until (now_stamp Sample.clock) Sample.paid_once)
    by (repeat constructor).
  split; [exact Hv | split; [exact Hts |]].
  exact (proj1 (process_transaction_keeps_ledger_intact (H := Sample.lib)
                  Sample.clock Sample.paid_once "111122223333"
                  "Health_Scheme" 5000%Q Hv Hts)).
Defined.

Lemma app_never_freezes_with_ascending_clock_witness :
  verify_ledger_integrity (H := Sample.lib) Sample.paid_once = true
  /\ SYSTEM_STATUS Sample.paid_once <> FROZEN
  /\ stamped_until "2025-02-01 09:00:00" Sample.paid_once
  /\ clocks_ascend "2025-02-01 09:00:00" Scenario.app_requests
  /\ SYSTEM_STATUS
       (App.run (H := Sample.lib) Sample.paid_once Scenario.app_requests)
     <> FROZEN.
Proof.
  assert (Hv : verify_ledger_integrity (H := Sample.lib) Sample.paid_once = true)
    by reflexivity.
  assert (Hs : SYSTEM_STATUS Sample.paid_once <> FROZEN) by discriminate.
  assert (Hts : stamped_until "2025-02-01 09:00:00" Sample.paid_once)
    by (repeat constructor).
  assert (Hc : clocks_ascend "2025-02-01 09:00:00" Scenario.app_requests)
    by (repeat split).
  repeat (split; [assumption |]).
  exact (proj2 (app_never_freezes_with_ascending_clock (H := Sample.lib)
                  "2025-02-01 09:00:00" Sample.paid_once
                  Scenario.app_requests Hv Hs Hts Hc)).
Defined.

Lemma verify_blind_to_field_boundaries_witness :
  Forall2 (same_seal (H := Sample.lib))
          (ledger_entries Scenario.stored) (ledger_entries Scenario.rewritten)
  /\ verify_ledger_integrity (H := Sample.lib) Scenario.rewritten
     = verify_ledger_integrity (H := Sample.lib) Scenario.stored.
Proof.
  assert (Hs : Forall2 (same_seal (H := Sample.lib))
                 (ledger_entries Scenario.stored)
                 (ledger_entries Scenario.rewritten)).
  { constructor; [| constructor]. repeat split. }
  split; [exact Hs |].
  exact (verify_blind_to_field_boundaries (H := Sample.lib)
           Scenario.stored Scenario.rewritten Hs).
Defined.

Lemma app_approval_is_sound_witness :
  App.success
    (snd (App.process_transaction (H := Sample.lib) Sample.clock Sample.start
            "123456789012" "Health_Scheme" 5000%Q)) = true
  /\ (5000 <= calculate_remaining_budget Sample.start)%Q.
Proof.
  assert (Hok : App.success
    (snd (App.process_transaction (H := Sample.lib) Sample.clock Sample.start
            "123456789012" "Health_Scheme" 5000%Q)) = true)
    by (vm_compute; reflexivity).
  split; [exact Hok |].
  exact (proj1 (proj2 (proj2 (proj2
           (app_approval_is_sound (H := Sample.lib) Sample.clock Sample.start
              "123456789012" "Health_Scheme" 5000%Q Hok))))).
Defined.

Lemma app_approval_budget_and_lock_witness :
  snd (App.process_transaction (H := Sample.lib) Sample.clock Sample.start
         "123456789012" "Health_Scheme" 5000%Q)
  = App.Approved "Rahul Sharma" 995000 "h(2025-03-01 10:..."
  /\ (calculate_remaining_budget
        (fst (App.process_transaction (H := Sample.lib) Sample.clock
                Sample.start "123456789012" "Health_Scheme" 5000%Q))
      == calculate_remaining_budget Sample.start - 5000)%Q.
Proof.
  assert (Hres : snd (App.process_transaction (H := Sample.lib) Sample.clock
                        Sample.start "123456789012" "Health_Scheme" 5000%Q)
                 = App.Approved "Rahul Sharma" 995000 "h(2025-03-01 10:...")
    by (vm_compute; reflexivity).
  split; [exact Hres |].
  exact (proj1 (app_approval_budget_and_lock (H := Sample.lib) Sample.clock
                  Sample.start "123456789012" "Health_Scheme" 5000%Q
                  "Rahul Sharma" 995000 "h(2025-03-01 10:..." Hres)).
Defined.

Lemma sqlite_approval_is_sound_witness :
  ledger_entries
    (fst (Sqlite.process_transaction (H := Sample.lib) Sample.clock
            Sample.start "111122223333" "Health_Scheme" 5000%Q))
  <> ledger_entries Sample.start
  /\ (5000 <= calculate_remaining_budget Sample.start)%Q.
Proof.
  assert (Hne : ledger_entries
    (fst (Sqlite.process_transaction (H := Sample.lib) Sample.clock
            Sample.start "111122223333" "Health_Scheme" 5000%Q))
    <> ledger_entries Sample.start)
    by (vm_compute; discriminate).
  split; [exact Hne |].
  exact (proj1 (proj2 (proj2 (proj2 (proj2
           (sqlite_approval_is_sound (H := Sample.lib) Sample.clock
              Sample.start "111122223333" "Health_Scheme" 5000%Q Hne)))))).
Defined.

Lemma total_disbursed_stays_within_budget_witness :
  (sum_amounts (ledger_entries Sample.paid_once) <= INITIAL_BUDGET)%Q
  /\ (sum_amounts
        (ledger_entries
           (App.run (H := Sample.lib) Sample.paid_once Scenario.app_requests))
      <= INITIAL_BUDGET)%Q.
Proof.
  assert (Hinv : (sum_amounts (ledger_entries Sample.paid_once)
                  <= INITIAL_BUDGET)%Q) by (vm_compute; discriminate).
  split; [exact Hinv |].
  exact (proj1 (total_disbursed_stays_within_budget (H := Sample.lib)
                  Sample.paid_once Scenario.app_requests
                  Scenario.sqlite_requests Hinv)).
Defined.

Lemma sqlite_one_entry_per_fingerprint_witness :
  NoDup (map citizen_hash (ledger_entries Sample.paid_once))
  /\ NoDup (map citizen_hash
                (ledger_entries
                   (Sqlite.run (H := Sample.lib) Sample.paid_once
                      Scenario.sqlite_requests))).
Proof.
  assert (Hnd : NoDup (map citizen_hash (ledger_entries Sample.paid_once))).
  { cbn. apply NoDup_singleton. }
  split; [exact Hnd |].
  exact (sqlite_one_entry_per_fingerprint (H := Sample.lib) Sample.paid_once
           Scenario.sqlite_requests Hnd).
Defined.

Lemma backfill_keeps_hashes_distinct_witness :
  NoDup (map current_hash (ledger_entries Sample.paid_once))
  /\ NoDup (map current_hash
                (ledger_entries
                   (Bootstrap.backfill_ledger_from_file (H := Sample.lib)
                      Sample.paid_once (Some Scenario.ledger_txt)))).
Proof.
  assert (Hnd : NoDup (map current_hash (ledger_entries Sample.paid_once))).
  { cbn. apply NoDup_singleton. }
  split; [exact Hnd |].
  exact (backfill_keeps_hashes_distinct (H := Sample.lib) Sample.paid_once
           (Some Scenario.ledger_txt) Hnd).
Defined.

Lemma fileproto_budget_accounting_witness :
  exists (st' : FileProto.State) (msg : string),
    FileProto.process_transaction (H := Sample.lib) Sample.clock
      Scenario.proto_registry Scenario.proto_start
      "123456789012" "Health_Scheme" 5000
    = Some (st', msg)
    /\ (0 <= FileProto.BUDGET Scenario.proto_start ->
        0 <= FileProto.BUDGET st').
Proof.
  destruct (FileProto.process_transaction (H := Sample.lib) Sample.clock
              Scenario.proto_registry Scenario.proto_start
              "123456789012" "Health_Scheme" 5000)
    as [[st' msg]|] eqn:E; [| vm_compute in E; discriminate E].
  exists st', msg. split; [reflexivity |].
  exact (proj1 (fileproto_budget_accounting (H := Sample.lib) Sample.clock
                  Scenario.proto_registry Scenario.proto_start st'
                  "123456789012" "Health_Scheme" 5000 msg E)).
Defined.

Lemma validated_record_is_well_formed_witness :
  Admin.validate_citizen_payload (H := Sample.lib) (H0 := Scenario.text)
    Sample.clock Scenario.new_citizen
  = Admin.Valid Scenario.new_citizen_record
  /\ 0 <= Admin.rec_claim_count Scenario.new_citizen_record.
Proof.
  assert (Hv : Admin.validate_citizen_payload (H := Sample.lib)
                 (H0 := Scenario.text) Sample.clock Scenario.new_citizen
               = Admin.Valid Scenario.new_citizen_record)
    by (vm_compute; reflexivity).
  split; [exact Hv |].
  pose proof (validated_record_is_well_formed (H := Sample.lib)
                (H0 := Scenario.text) Sample.clock Scenario.new_citizen
                Scenario.new_citizen_record Hv)
    as (_ & _ & _ & _ & _ & _ & _ & Hc & _).
  exact Hc.
Defined.


(** ** Denials and the meaning of the blocking statuses *)

Section DenialFacts.
Context `{PyLib}.

Lemma app_denial_frame
      (clk : Clock) (st : State) (cid sch : string) (amt : Q) :
  let res := App.process_transaction clk st cid sch amt in
  App.success (snd res) = false ->
  fst res = st
  \/ (fst res = set_status FROZEN st
      /\ SYSTEM_STATUS st = ACTIVE
      /\ verify_ledger_integrity st = false
      /\ App.gate (snd res) = Some "integrity")
  \/ (fst res = set_status LOCKED st
      /\ SYSTEM_STATUS st = ACTIVE
      /\ (calculate_remaining_budget st <= 0)%Q
      /\ App.gate (snd res) = Some "budget").
Proof.
  cbv zeta. unfold App.process_transaction.
  destruct (SYSTEM_STATUS st) eqn:Hs; cbn [status_is_active negb];
    try (intros _; now left).
  destruct (verify_ledger_integrity st) eqn:Hv; cbn [negb].
  2:{ intros _. right. left. now repeat split. }
  destruct (get_citizen_record st cid) as [row|]; [| intros _; now left].
  destruct (App.eligibility_gate row sch amt) as [[|] ?]; cbn [negb];
    [| intros _; now left].
  unfold App.budget_gate.
  destruct (Qle_bool (calculate_remaining_budget st) 0) eqn:E0; cbn [negb].
  { intros _. right. right. apply Qle_bool_iff in E0. now repeat split. }
  destruct (Qgtb amt (calculate_remaining_budget st)); cbn [negb];
    [intros _; now left |].
  destruct (App.frequency_gate clk (Last_Claim_Date row)) as [[|] ?];
    cbn [negb]; [| intros _; now left].
  cbn [snd App.success]. discriminate.
Qed.

Lemma app_process_transaction_locked
      (clk : Clock) (st : State) (cid sch : string) (amt : Q) :
  SYSTEM_STATUS st = ACTIVE ->
  SYSTEM_STATUS (fst (App.process_transaction clk st cid sch amt)) = LOCKED ->
  (calculate_remaining_budget
     (fst (App.process_transaction clk st cid sch amt)) < 1)%Q.
Proof.
  intros Hs.
  destruct (App.success (snd (App.process_transaction clk st cid sch amt)))
    eqn:Hok.
  - destruct (app_approved_gates clk st cid sch amt Hok)
      as (_ & Hv & row & Hrow & He & Hb & Hf).
    pose proof (app_budget_gate_approved st amt Hb) as (Hst1 & _ & _).
    unfold App.process_transaction.
    rewrite (status_is_active_true _ Hs), Hv, Hrow. cbn [negb].
    destruct (App.eligibility_gate row sch amt) as [[|] ?]; [| discriminate He].
    destruct (App.budget_gate st amt) as [st1 [[|] ?]]; [| discriminate Hb].
    destruct (App.frequency_gate clk (Last_Claim_Date row)) as [[|] ?];
      [| discriminate Hf].
    cbn [negb fst snd] in *. subst st1.
    set (st2 := insert_ledger_entry _ st).
    assert (Hnn : (0 <= calculate_remaining_budget st2)%Q)
      by apply py_max0_nonneg.
    destruct (Z.leb_spec (py_int (calculate_remaining_budget st2)) 0) as [Hz|Hz].
    + intros _. apply (py_int_nonpos _ Hnn) in Hz. exact Hz.
    + intros Hl. assert (Hst2 : SYSTEM_STATUS st2 = ACTIVE) by exact Hs.
      congruence.
  - destruct (app_denial_frame clk st cid sch amt Hok)
      as [-> | [(-> & _) | (-> & _ & Hle & _)]].
    + congruence.
    + discriminate.
    + intros _.
      assert (Hsame : calculate_remaining_budget (set_status LOCKED st)
                      = calculate_remaining_budget st) by reflexivity.
      rewrite Hsame. lra.
Qed.

Lemma app_process_transaction_justified
      (clk : Clock) (st : State) (cid sch : string) (amt : Q) :
  status_is_justified st ->
  status_is_justified (fst (App.process_transaction clk st cid sch amt)).
Proof.
  intros Hj.
  destruct (SYSTEM_STATUS st) eqn:Hs.
  - destruct Hj as [Hl Hf]. split.
    + now apply app_process_transaction_locked.
    + intros Hfr. apply app_frozen_iff in Hfr as [Hc | [_ Hc]];
        [congruence | ].
      destruct (verify_ledger_integrity st) eqn:Hv.
      * apply verify_ledger_integrity_iff in Hv. contradiction.
      * assert (Heq : fst (App.process_transaction clk st cid sch amt)
                      = set_status FROZEN st).
        { unfold App.process_transaction.
          now rewrite (status_is_active_true _ Hs), Hv. }
        rewrite Heq. exact Hc.
  - rewrite app_process_transaction_blocked by (rewrite Hs; discriminate).
    exact Hj.
  - rewrite app_process_transaction_blocked by (rewrite Hs; discriminate).
    exact Hj.
Qed.

Lemma app_step_justified (st : State) (o : App.Op) :
  status_is_justified st -> status_is_justified (App.step st o).
Proof.
  intros Hj. destruct o as [clk cid sch amt | clk data | amt | | cid rec];
    cbn [App.step].
  - now apply app_process_transaction_justified.
  - unfold App.process.
    destruct (App.get_expected_scheme_amount _); [| exact Hj].
    destruct (App.amount_mismatch _ _); [exact Hj |].
    now apply app_process_transaction_justified.
  - destruct Hj as [Hl Hf]. unfold App.budget_gate.
    destruct (Qle_bool (calculate_remaining_budget st) 0) eqn:E0; cbn [fst].
    + split; [| discriminate]. intros _. apply Qle_bool_iff in E0.
      assert (Hsame : calculate_remaining_budget (set_status LOCKED st)
                      = calculate_remaining_budget st) by reflexivity.
      rewrite Hsame. lra.
    + destruct (Qgtb amt _); now split.
  - exact Hj.
  - unfold App.upsert_citizen.
    destruct (App.int_columns_fit rec); exact Hj.
Qed.

Lemma app_run_justified (ops : list App.Op) :
  forall st : State,
    status_is_justified st -> status_is_justified (App.run st ops).
Proof.
  induction ops as [|o ops IH]; intros st Hj; [exact Hj |].
  cbn [App.run fold_left]. fold (App.run (App.step st o) ops).
  apply IH. now apply app_step_justified.
Qed.

(** The answers that [process_transaction] of [app.py] can give when the
    requested amount is the catalog amount of the scheme. *)
Lemma app_catalog_amount_messages
      (clk : Clock) (st : State) (cid sch : string) (e : Q) :
  App.get_expected_scheme_amount sch = Some e ->
  App.message (snd (App.process_transaction clk st cid sch e))
  <> "Transaction Amount Mismatch"
  /\ App.message (snd (App.process_transaction clk st cid sch e))
     <> "Unsupported Scheme".
Proof.
  intros He. unfold App.process_transaction.
  destruct (SYSTEM_STATUS st); cbn [status_is_active negb snd App.message];
    try (split; discriminate).
  destruct (verify_ledger_integrity st); cbn [negb snd App.message];
    [| split; discriminate].
  destruct (get_citizen_record st cid) as [row|]; cbn [snd App.message];
    [| split; discriminate].
  assert (Hz : Qgtb (Qabs (e - e)) App.AMOUNT_TOLERANCE = false).
  { apply Qgtb_false. setoid_replace (e - e)%Q with 0%Q using relation Qeq
      by ring. vm_compute. discriminate. }
  unfold App.eligibility_gate. rewrite He, Hz.
  destruct (negb (String.eqb (Account_Status row) "Active"));
    cbn [negb snd App.message]; [split; discriminate |].
  destruct (negb (Aadhaar_Linked row));
    cbn [negb snd App.message]; [split; discriminate |].
  destruct (negb (String.eqb (Scheme_Eligibility row) sch));
    cbn [negb snd App.message]; [split; discriminate |].
  destruct (Qgtb (Qabs (Scheme_Amount row - e)) App.AMOUNT_TOLERANCE);
    cbn [negb snd App.message]; [split; discriminate |].
  destruct (Z.gtb (Claim_Count row) 3);
    cbn [negb snd App.message]; [split; discriminate |].
  unfold App.budget_gate.
  destruct (Qle_bool (calculate_remaining_budget st) 0);
    cbn [negb snd App.message]; [split; discriminate |].
  destruct (Qgtb e (calculate_remaining_budget st));
    cbn [negb snd App.message]; [split; discriminate |].
  unfold App.frequency_gate.
  destruct (strptime_ymd (Last_Claim_Date row)) as [d|];
    cbn [negb snd App.message]; [| split; discriminate].
  destruct (Z.ltb (today_day clk - d) 30);
    cbn [negb snd App.message]; split; discriminate.
Qed.

End DenialFacts.

(** X20. A denial by [process_transaction] of [app.py] never touches the
    ledger or the citizens.  It leaves the whole state as it was, except in
    two cases: the integrity gate of an ACTIVE system with a broken chain
    sets FROZEN, and the budget gate of an ACTIVE system with no budget
    left sets LOCKED. *)
Theorem app_denial_changes_only_status `{PyLib}
        (clk : Clock) (st : State) (cid sch : string) (amt : Q) :
  App.success (snd (App.process_transaction clk st cid sch amt)) = false ->
  let res := App.process_transaction clk st cid sch amt in
  ledger_entries (fst res) = ledger_entries st
  /\ citizens (fst res) = citizens st
  /\ (fst res = st
      \/ (fst res = set_status FROZEN st
          /\ SYSTEM_STATUS st = ACTIVE
          /\ ~ chain_intact (fetch_ledger_rows st)
          /\ App.gate (snd res) = Some "integrity")
      \/ (fst res = set_status LOCKED st
          /\ SYSTEM_STATUS st = ACTIVE
          /\ (calculate_remaining_budget st <= 0)%Q
          /\ App.gate (snd res) = Some "budget")).
Proof.
  intros Hd. cbv zeta.
  destruct (app_denial_frame clk st cid sch amt Hd)
    as [Heq | [(Heq & Hs & Hv & Hg) | (Heq & Hrest)]].
  - rewrite Heq. split; [reflexivity |]. split; [reflexivity | now left].
  - rewrite Heq at 1 2. split; [reflexivity |]. split; [reflexivity |].
    right. left. apply verify_false_not_intact in Hv. now repeat split.
  - rewrite Heq at 1 2. split; [reflexivity |]. split; [reflexivity |].
    right. right. now split.
Qed.

(** X21. The blocking statuses of [app.py] mean what they say: if LOCKED
    only occurs with less than one rupee of budget left and FROZEN only
    with a broken chain, this is still so after any sequence of
    operations. *)
Theorem app_blocking_status_is_justified `{PyLib}
        (st : State) (ops : list App.Op) :
  status_is_justified st -> status_is_justified (App.run st ops).
Proof. apply app_run_justified. Qed.

(** X22. Through the [/process] route the amount checks of
    [eligibility_gate] cannot fail: no request is ever answered with
    "Transaction Amount Mismatch" or with the gate's "Unsupported Scheme". *)
Theorem process_route_amount_reasons_unreachable `{PyLib}
        (clk : Clock) (st : State) (data : App.ProcessBody) :
  App.message (snd (App.process clk st data)) <> "Transaction Amount Mismatch"
  /\ App.message (snd (App.process clk st data)) <> "Unsupported Scheme".
Proof.
  unfold App.process.
  destruct (App.get_expected_scheme_amount
              (App.body_text (App.body_scheme data))) as [e|] eqn:He;
    [| split; discriminate].
  destruct (App.amount_mismatch _ _); [split; discriminate |].
  now apply app_catalog_amount_messages.
Qed.

Lemma app_denial_changes_only_status_witness :
  App.success
    (snd (App.process_transaction (H := Sample.lib) Sample.clock
            Sample.exhausted "123456789012" "Health_Scheme" 5000%Q)) = false
  /\ ledger_entries
       (fst (App.process_transaction (H := Sample.lib) Sample.clock
               Sample.exhausted "123456789012" "Health_Scheme" 5000%Q))
     = ledger_entries Sample.exhausted.
Proof.
  assert (Hd : App.success
    (snd (App.process_transaction (H := Sample.lib) Sample.clock
            Sample.exhausted "123456789012" "Health_Scheme" 5000%Q)) = false)
    by (vm_compute; reflexivity).
  split; [exact Hd |].
  exact (proj1 (app_denial_changes_only_status (H := Sample.lib) Sample.clock
                  Sample.exhausted "123456789012" "Health_Scheme" 5000%Q Hd)).
Defined.

Lemma app_blocking_status_is_justified_witness :
  (status_is_justified (H := Sample.lib) Sample.exhausted
   /\ SYSTEM_STATUS
        (App.run (H := Sample.lib) Sample.exhausted Scenario.app_requests)
      = LOCKED
   /\ (calculate_remaining_budget
         (App.run (H := Sample.lib) Sample.exhausted Scenario.app_requests)
       < 1)%Q)
  /\ (status_is_justified (H := Sample.lib) Sample.unlinked_table
      /\ SYSTEM_STATUS
           (App.run (H := Sample.lib) Sample.unlinked_table
              Scenario.app_requests)
         = FROZEN
      /\ ~ chain_intact (H := Sample.lib)
            (fetch_ledger_rows
               (App.run (H := Sample.lib) Sample.unlinked_table
                  Scenario.app_requests))).
Proof.
  assert (Hl : status_is_justified (H := Sample.lib) Sample.exhausted)
    by (split; discriminate).
  assert (Hf : status_is_justified (H := Sample.lib) Sample.unlinked_table)
    by (split; discriminate).
  split.
  - split; [exact Hl |].
    assert (Hs : SYSTEM_STATUS
                   (App.run (H := Sample.lib) Sample.exhausted
                      Scenario.app_requests) = LOCKED)
      by (vm_compute; reflexivity).
    split; [exact Hs |].
    exact (proj1 (app_blocking_status_is_justified (H := Sample.lib)
                    Sample.exhausted Scenario.app_requests Hl) Hs).
  - split; [exact Hf |].
    assert (Hs : SYSTEM_STATUS
                   (App.run (H := Sample.lib) Sample.unlinked_table
                      Scenario.app_requests) = FROZEN)
      by (vm_compute; reflexivity).
    split; [exact Hs |].
    exact (proj2 (app_blocking_status_is_justified (H := Sample.lib)
                    Sample.unlinked_table Scenario.app_requests Hf) Hs).
Defined.
